(* ===== verification/_CoqProject ===== *)
-Q . S2P
Prelude.v
JsRuntime.v
Lodash.v
Chronology.v
SpeedLimits.v
Timetable.v
Merge.v
Refresh.v
Schedule.v
Uri.v
Routes.v
Startup.v
Config.v
Cors.v
Listen.v
