(* ===== verification/Prelude.v ===== *)
(** * A verification development of the EDR backend's timetable enrichment

    The repository (HakierGrzonzo/EDR, TypeScript) is the backend of a
    community dispatcher tool for an online train simulator.  Two source
    files carry its behaviour:

    - [src/backend/src/sql/train.ts], [getTrainTimetable]: reads the rows
      of one train from the SQL store, repairs the order of a run that
      crosses midnight, attaches to every row the speed limits that apply
      up to the next row (from the mileage table [src/mileage.json] and
      the speed-limit feed fetched once at module load), computes the
      [hourSort] key of every row and returns the rows sorted by that key
      with lodash's [_.sortBy];
    - [src/backend/src/index.ts]: the process-wide caches
      [completeTrainList] (server code -> merged trains) and [speeds]; the
      task [updateTimetable], which, server by server, fetches the
      official feed and the EDR annotation feed ([Promise.all]), merges
      them train by train and stop by stop and replaces the server's
      entry; the task [updateSpeedLimits] (fetch, or the bundled file);
      the cron jobs that run both, and the two unawaited calls that run
      both at start-up; the HTTP routes, which hand the caches of the
      moment to controllers; and [app.listen(process.env.LISTEN_PORT)],
      which binds the server.

    [interfaces/ISteamUser.ts] is a type declaration and [config.js] an
    object literal of constants whose readers (the controllers and the
    feed clients) are not in the repository.  The controllers
    the routes call, the feed clients, the SQL pool and the feed record
    interfaces are not in the repository.

    The parts interact through the caches: the refresh tasks
    ([Refresh], [Startup]), started by the cron jobs ([Schedule]) and at
    start-up, write them; the routes ([Routes]) read them at the moment
    a request arrives; [getTrainTimetable] ([Timetable]) reads its own
    copy of the speed-limit feed.

    ** Files, in dependency order

    - [Prelude] (this file): the [outcome] type of a JavaScript
      completion (a value, or a thrown exception / rejected promise) with
      stdpp's monad instances, the notation [o ⁇ d] of [??] in
      [edr_scope], the tactics [outcome_inv] and [z_cmp], the hint
      databases [edr] (resolve) and [edr_rw] (rewrite), shared list
      lemmas (block rotation, filters of permutations).
    - [JsRuntime]: the ECMAScript semantics the code relies on, written
      out: [NaN]-aware comparisons, the [undefined]/[null]/number values
      of a JSON lookup with [ToNumber], [Number.parseInt] (whitespace,
      sign, hexadecimal prefix, longest digit prefix), [split], template
      printing of [undefined], [toLowerCase], [find], [findIndex],
      [slice], [splice], integer printing, and [Number(string)]
      ([StringToNumber]: [trim], the empty string as 0, [0x]/[0o]/[0b]
      literals, signed decimals with fraction and exponent, [Infinity],
      [NaN] for the rest); with their specifications ([findIndex_spec],
      [js_find_Some], [parseInt_decimal], ...).
    - [Lodash]: [_.groupBy] ([groupBy_lookup_default]: a group is the
      sub-sequence with that key) and [_.sortBy], a stable insertion
      sort with lodash's [compareAscending] ([NaN] last).  Section
      [SortBy] proves it a sorted stable permutation and the only one
      ([sortBy_unique]): this is why an insertion sort may stand for the
      engine's sort.
    - [Chronology]: the row of [trains_timetable_row] (with the property
      [hourSort] the code reads and the query does not return) and the
      repair of train.ts lines 35-53: [crosses_midnight] (line 41),
      [lastStationAfterMidnightIndex] (lines 42-48),
      [reorderAfterMidnight] (lines 41-53).
    - [SpeedLimits]: the feed records and their conversion (lines 7-13),
      [allSpeedsByLine] (line 15), [isTheTrainNorthbound] (line 55),
      [stationKM] / [nextStationKM] (lines 59-61), [startsBetween] and
      [speedLimitsToNextStation] (lines 62-66).
    - [Timetable]: [computeHourSort] (line 69), the output [Entry.t]
      after [_.omit], [withDynamicData] (lines 57-73) and the whole
      [getTrainTimetable] (lines 14-78), whose awaited feed and query are
      its inputs as settled outcomes.
    - [Merge]: the feed records, [stopTypeNumberOf] (lines 92-98),
      [mergeRow] (lines 88-115), [mergeTrain] (lines 72-117) and
      [finalTimetable] (lines 71-118).
    - [Refresh]: the feed clients as the typeclass [FeedClient] (the
      interface the tasks are proved against, for every client), the
      caches as the record [State], [doRequestOnServer],
      [processServer] (one iteration of the loop), [updateServers] (the
      loop), [updateTimetable], [updateSpeedLimits], and
      [refresh_step], the transitions a reader can observe.
    - [Schedule]: the cron expressions of lines 138-156 as the minutes
      and hours they list, the minutes of the day they fire at, and the
      wall-clock days of their Europe/Warsaw time zone ([DayKind]).
    - [Startup]: the two tasks as [async] functions suspended at their
      [await]s ([TimetablePc], [SpeedPc]); [resume] runs a task from one
      [await] to the next, [cfg_step] resumes any started task (every
      interleaving is a run), [sys_step] also starts tasks, as the cron
      jobs and lines 160-161 do; [run_schedule] runs a given order.
    - [Uri]: [encodeURIComponent] and [decodeURIComponent] (ECMA-262
      Encode/Decode on UTF-8 octets, with the validity checks of a UTF-8
      sequence), which Express applies to route parameters.
    - [Routes]: the route table of lines 174-206, Express 4's matching
      (case-insensitive literals, non-empty [:name] segments, an optional
      trailing [/], ["*"]), parameter decoding (400 on a [URIError]),
      method matching ([HEAD] by [GET] routes), the cors middleware's
      answer to [OPTIONS], and what each handler is handed, the cache
      property read as JavaScript reads it ([js_get], through
      [Object.prototype]).
    - [Config]: [config.js] as the record [config] of its exported
      object literal, the nested literals as property lists in source
      order; [interfaces/ISteamUser.ts] as the record [SteamUser.t].
      No theorem is stated about them: their readers are not in the
      repository.
    - [Cors]: [corsConfig] (lines 163-166), the headers the cors
      package sets from it ([cors_headers], written from that package:
      it is not code of the repository), and [serve], a request through
      the middlewares and the router (lines 168-177).
    - [Listen]: [app.listen(process.env.LISTEN_PORT)] (line 207) through
      Express's [app.listen] and Node's [Server.prototype.listen]
      ([isPipeName], [validatePort], written from their sources).

    ** What is proved (the manifest lists the claims in order of importance)

    - The repair ([Chronology]): it throws a [TypeError] exactly for
      trains of fewer than two rows ([reorderAfterMidnight_throws_iff]);
      on the rows the query really returns, which have no [hourSort], it
      changes nothing ([reorderAfterMidnight_query_rows]); it permutes the
      rows ([reorderAfterMidnight_perm]), is idempotent on HHMM data
      ([reorderAfterMidnight_idempotent]), and implements the design's
      block rotation, given as a recursive reference definition
      ([reorderAfterMidnight_design]); scenario A.
    - The result of [getTrainTimetable] ([Timetable]): one entry per row,
      sorted by [hourSort], equal to what every stable sort gives
      ([getTrainTimetable_stable_sort], the refinement of [_.sortBy]),
      rejected exactly on a failed feed or query or on fewer than two
      rows ([getTrainTimetable_throws_iff]); its keys are the sorted keys
      of the query rows, so the final sort undoes the repair
      ([getTrainTimetable_keys_ignore_repair]; end to end on scenario A).
      [hourSort] of "HH:MM" is HHMM; malformed arrivals are not
      rejected: digits without a colon read as their number, an arrival
      starting with a letter is [NaN], a missing one is 0
      ([computeHourSort_malformed]).
    - The overlay ([SpeedLimits]): the direction is the parity of the
      train number; the records attached are exactly those of the line
      and track whose start lies strictly inside the segment in the
      direction of travel ([speedLimitsToNextStation_spec]), in feed
      order; a segment with unknown geometry gets none; scenario B.
    - The merge ([Merge]): trains and stop counts are kept, stops are
      renumbered densely, [stopTypeNumber] is 1 exactly for a spelling
      of "commercialstop" in any letter case, 2 exactly for one of
      "noncommercialstop", 0 otherwise, whatever the annotations
      ([mergeRow_stopTypeNumber]); a stop is joined with the first EDR
      stop whose [indexOfPoint] is its position ([mergeRow_matched]); a
      train without EDR data has every annotation unset (scenario C).
    - The refresh ([Refresh]): one failing server aborts the cycle for
      the servers after it ([updateTimetable_abort]); success updates
      every listed server; a failed server listing is caught; every
      intermediate store holds, per server, the old entry or a complete
      merge; the speed-limit task falls back to the bundled file; the two
      tasks commute; [updateTimetable] is a run of [refresh_step]
      ([updateTimetable_steps]); every reachable state holds complete
      merges only ([reachable_cache_wf]), whose stops are densely
      numbered; what is published stays published ([refresh_monotone]).
    - The tasks ([Startup]): each resumption is a [refresh_step] or
      none ([sys_refines_refresh]), so every configuration reached by any
      cron starts and interleaving has well-formed, growing caches
      ([sys_reachable_wf]); whatever order the feeds answer in, the
      start-up ends in the state of the two tasks run one after the other
      ([startup_interleavings_agree], through the invariant that what is
      left of each task computes what the whole task computes,
      [tt_result] / [sp_result]); every run has at most [cfg_measure]
      resumptions ([cfg_runs_bounded]), a bound on steps and not on
      time: the feed requests have no timeout, so a request that never
      settles leaves its task suspended and no settlement is claimed; a
      timetable can be served while [speeds] is
      still [undefined] ([startup_speeds_undefined]); two overlapping
      runs of [updateTimetable] (a cron start while a run waits on the
      feeds) can leave either run's answer, the last writer winning
      ([overlapping_runs_last_writer], from [run_timetable_to_end]).
    - The schedule ([Schedule]): on every Europe/Warsaw day, the
      daylight-saving days (02:00-02:59 skipped in March, passed twice in
      October) included, each job fires once at each time it lists
      ([firings_every_day]); in real minutes, from any minute of a day,
      a timetable refresh starts within 480 minutes, 540 on the
      fall-back day, and a speed-limit refresh within 1440, 1500 when
      the next day is the fall-back day, and these bounds are reached
      ([refresh_staleness_bound], from the firing positions of two
      consecutive days and [gaps_delay]).
    - The routes ([Routes], [Uri]): [decodeURIComponent] undoes
      [encodeURIComponent] exactly on valid UTF-8
      ([decodeURIComponent_encode]); every route serves the path a
      client builds for it, with any non-empty UTF-8 parameters, and no
      other route matches that path ([dispatch_route], from the
      decidable check [routes_ok] of the table); a server code named
      like a property of [Object.prototype] hands the controllers that
      property ([dispatch_inherited_key]); a path that does not decode is
      a 400 for every method but [OPTIONS] ([dispatch_malformed]);
      every response lets any origin read it, and the preflight, a 204,
      allows the [content-type] header and the method of every route
      ([serve_allow_origin], [serve_preflight]).
    - Listening ([Listen]): unset, [LISTEN_PORT] leaves the port to the
      system; a decimal value up to 65535 is the port, a larger or blank
      one throws [ERR_SOCKET_BAD_PORT] at start-up, a non-numeric one
      names a local socket; every TCP port bound is in [0, 65535]
      ([listen_outcomes]).

    ** Modelling choices

    - No fuel: every loop of the code is a [map], [filter], [find] or
      [for ... of] over a finite list, modelled by structural recursion,
      so every function of the model is total and evaluates by
      [vm_compute] (the scenarios are proved that way).  Real time
      over two consecutive days is the list of their wall-clock minutes;
      the interleavings are a relation, whose runs are bounded by the
      measure [cfg_measure].
    - JavaScript numbers: integers are [Z] (train numbers and HHMM values
      are far below 2^53, where doubles are exact), kilometre positions
      are exact rationals [Q] (the code only compares them; a double's
      rounding of [axisStart / 1000] is not modelled); [NaN] is [None],
      and every comparison with it is false, as in ECMAScript.
      [Number(string)] gives an exact rational as well ([jsnum]): a
      literal beyond a double's range or precision is not rounded, which
      for a port changes nothing but a value closer to an integer
      than a double can tell apart.
    - Strings are Stdlib [string]s of 8-bit characters (the UTF-8
      bytes of a literal such as a Polish station name of [config.js]:
      two such strings are equal exactly when the JavaScript strings
      are, and only equality is used on them); [toLowerCase]
      maps A-Z only: no non-ASCII string lower-cases to the ASCII literals
      the code compares with, so the classification is the same.
    - Object property lookup is a stdpp [gmap string]; [null] as a key
      is the string "null", as JavaScript converts it.  The routes'
      reads of [completeTrainList] also see the properties inherited
      from [Object.prototype] ([js_get]); the other reads are of JSON
      data whose keys (line numbers, station names) are not such names.
      Writing the key "__proto__" (a server code of the feed) is not
      modelled.
    - Asynchrony: the outcome of each awaited call is an input; between
      two [await]s the code runs to completion, so readers observe the
      caches only between two servers ([refresh_step]).  [Promise.all] of
      two requests rejects when either does, which is the sequential bind
      of their outcomes since neither writes state.  The tasks of
      [Startup] are resumed in any order, each with its own settled feed
      calls.
    - Express is version 4 (the ["*"] path of line 177 is refused by
      Express 5): its router defaults ([caseSensitive] and [strict]
      false), [decode_param] and the router's rule that no route is
      tried after a decoding error are written out in [Routes]; a
      request is its method and the path of its URL (the query string
      plays no part in routing).
    - [_.sortBy] with two [NaN] keys: lodash's comparator answers 1 both
      ways, which leaves their order to the engine's sort; the model
      keeps them in input order, as for any other tie.

    ** Not modelled

    Logging ([console.log]); the controllers the routes call and the
    middlewares other than cors (morgan, helmet, [express.json],
    compression), which do not change what a route is handed, and the
    headers helmet and compression add: their defaults depend on package
    versions that nothing under [src/] fixes (there is no package
    manifest), so they cannot be written out faithfully; the SQL
    pool and the feed clients' transport (only their settled outcomes);
    the cron library's timers (a job fires at each matching wall-clock
    minute the day passes through); the readers of [config.js]
    and of [ISteamUser] (the controllers, the feed clients and the
    player lookup), which are not in the repository; the imports and
    the start-up messages (lines 1-36, 209-211 of index.ts), and what
    happens once the server is bound (an [EACCES] or [EADDRINUSE]
    error is an event of the running server); the design's
    renumbering step, which the code does not have (its rows carry no
    index of point).

    ** Plan for the next sittings

    The speed-limit overlay of a whole train (the last row, line
    changes), whose per-segment behaviour [SpeedLimits] already
    proves. *)

From stdpp Require Export base list gmap strings.
From Stdlib Require Export ZArith QArith Ascii.
From Stdlib Require String.

(** [QArith] opens [Q_scope]: numerals default to [nat] again. *)
Open Scope nat_scope.

Declare Scope edr_scope.
Delimit Scope edr_scope with edr.
Open Scope edr_scope.

(** ** JavaScript completions *)

(** The exceptions the modelled code can raise or propagate. *)
Inductive exn :=
  | TypeError (what : string)     (** a property read on [undefined] *)
  | Rejected (what : string)      (** a rejected promise (failed fetch) *)
  | RangeError (code : string).   (** a value out of range (a bad port) *)

(** The completion of a call: a returned value or a thrown exception. *)
Inductive outcome (A : Type) :=
  | Ok (a : A)
  | Throw (e : exn).
Arguments Ok {A} a.
Arguments Throw {A} e.

#[export] Instance outcome_ret : MRet outcome := fun _ a => Ok a.
#[export] Instance outcome_bind : MBind outcome :=
  fun _ _ f c => match c with Ok a => f a | Throw e => Throw e end.
#[export] Instance outcome_fmap : FMap outcome :=
  fun _ _ f c => match c with Ok a => Ok (f a) | Throw e => Throw e end.

(** JavaScript's nullish coalescing [o ?? d] on an optional value
    (written [o ⁇ d]: the ASCII [??] is an intro pattern). *)
Notation "o ⁇ d" := (default d o) (at level 40, left associativity) : edr_scope.

Create HintDb edr discriminated.
Create Rewrite HintDb edr_rw.

Section OutcomeLemmas.
Context {A B : Type}.

Lemma outcome_bind_Ok (c : outcome A) (f : A -> outcome B) (b : B) :
  (c ≫= f) = Ok b <-> exists a, c = Ok a /\ f a = Ok b.
Proof. destruct c; simpl; split; [eauto|intros (?&[= ->]&?); done|done|intros (?&?&?); done]. Qed.

Lemma outcome_bind_Throw (e : exn) (f : A -> outcome B) :
  (Throw e ≫= f) = Throw e.
Proof. reflexivity. Qed.
End OutcomeLemmas.

#[export] Hint Rewrite @outcome_bind_Throw : edr_rw.

(** Invert the equations between completions in the context: equal
    [Ok] values become an equation between the values, an [Ok] equal to
    a [Throw] closes the goal. *)
Ltac outcome_inv :=
  repeat match goal with
  | H : Ok _ = Ok _ |- _ => injection H as H
  | H : Throw _ = Throw _ |- _ => injection H as H
  | H : Ok _ = Throw _ |- _ => discriminate H
  | H : Throw _ = Ok _ |- _ => discriminate H
  end.

(** Case on every boolean integer comparison of the goal and the
    context, with the arithmetic fact of each case. *)
Ltac z_cmp :=
  repeat match goal with
  | |- context [Z.leb ?x ?y] => destruct (Z.leb_spec x y)
  | |- context [Z.ltb ?x ?y] => destruct (Z.ltb_spec x y)
  | |- context [Z.eqb ?x ?y] => destruct (Z.eqb_spec x y)
  | H : context [Z.leb ?x ?y] |- _ => destruct (Z.leb_spec x y)
  | H : context [Z.ltb ?x ?y] |- _ => destruct (Z.ltb_spec x y)
  end.

(** ** Shared list lemmas *)

(** A projection of [imap f l] that forgets the index is a [map]. *)
Lemma map_imap_index_free {A B C} (f : nat -> A -> B) (g : B -> C) (h : A -> C) (l : list A) :
  (forall i x, g (f i x) = h x) -> List.map g (imap f l) = List.map h l.
Proof.
  revert f. induction l as [|x l IH]; intros f Hf; simpl; [done|].
  rewrite Hf. f_equal. apply IH. intros i y. apply Hf.
Qed.

Section ListLemmas.
Context {A : Type}.
Implicit Types (l : list A).

(** Moving the block of [m] elements after the head to the end permutes
    the list. *)
Lemma rotate_block_perm l m :
  take 1 l ++ drop (1 + m) l ++ take m (drop 1 l) ≡ₚ l.
Proof.
  rewrite <-(take_drop 1 l) at 4. f_equiv.
  rewrite <-(take_drop m (drop 1 l)) at 2. rewrite drop_drop, Permutation_app_comm.
  by rewrite Nat.add_comm.
Qed.

Lemma lookup_rotate_block l m :
  1 + m < length l ->
  (take 1 l ++ drop (1 + m) l ++ take m (drop 1 l)) !! 1 = l !! (1 + m).
Proof.
  intros Hlen. destruct l as [|x l]; [simpl in Hlen; lia|]. simpl.
  rewrite lookup_app_l by (rewrite length_drop; simpl in *; lia).
  by rewrite lookup_drop, Nat.add_0_r.
Qed.
End ListLemmas.

Section FilterLemmas.
Context {A : Type}.
Implicit Types (l : list A) (f g : A -> bool).

Lemma filter_filter_andb f g l :
  List.filter f (List.filter g l) = List.filter (fun x => g x && f x) l.
Proof.
  induction l as [|x l IH]; simpl; [done|].
  destruct (g x); simpl; [destruct (f x)|]; simpl; by rewrite IH.
Qed.

Lemma filter_none f l : (forall x, In x l -> f x = false) -> List.filter f l = [].
Proof.
  intros H. induction l as [|x l IH]; simpl; [done|].
  rewrite H by by left. apply IH. intros y Hy. apply H. by right.
Qed.

Lemma filter_perm f l1 l2 : l1 ≡ₚ l2 -> List.filter f l1 ≡ₚ List.filter f l2.
Proof.
  induction 1 as [|x l1 l2 _ IH|x y l|l1 l2 l3 _ IH1 _ IH2]; simpl.
  - done.
  - destruct (f x); by rewrite IH.
  - destruct (f x), (f y); try apply perm_swap; done.
  - by rewrite IH1.
Qed.

(** Two permutations of one another whose elements all equal [k] are
    equal. *)
Lemma perm_all_eq (k : A) l1 l2 : l1 ≡ₚ l2 -> Forall (eq k) l1 -> l1 = l2.
Proof.
  intros Hp Hk.
  assert (Hk2 : Forall (eq k) l2).
  { rewrite List.Forall_forall in Hk |- *. intros x Hx.
    apply Hk. by apply (Permutation_in x (Permutation_sym Hp)). }
  rewrite <-(replicate_as_Forall_2 k (length l1) l1) by done.
  apply replicate_as_Forall_2; [by apply Permutation_length in Hp | done].
Qed.
End FilterLemmas.

(** ** Relations and boolean list tests *)

(** A property preserved by every step holds along every run. *)
Lemma rtc_invariant {A} (R : relation A) (P : A -> Prop) x y :
  (forall a b, P a -> R a b -> P b) -> P x -> rtc R x y -> P y.
Proof. intros Hstep Hx Hr. induction Hr as [|a b c Hab _ IH]; eauto. Qed.

(** stdpp makes [String.append] opaque to [simpl]: its two equations. *)
Lemma string_app_nil s : "" +:+ s = s.
Proof. reflexivity. Qed.

Lemma string_app_cons a s t : String a s +:+ t = String a (s +:+ t).
Proof. reflexivity. Qed.

#[export] Hint Rewrite string_app_nil string_app_cons : edr_rw.

Lemma string_app_assoc a b c : (a +:+ b) +:+ c = a +:+ b +:+ c.
Proof. induction a as [|x a IH]; [done|]. rewrite !string_app_cons. by rewrite IH. Qed.

#[export] Hint Rewrite string_app_assoc : edr_rw.

Lemma string_app_nil_r s : s +:+ "" = s.
Proof. induction s as [|x s IH]; [done|]. rewrite string_app_cons. by rewrite IH. Qed.

#[export] Hint Rewrite string_app_nil_r : edr_rw.
