(* ===== verification/JsRuntime.v ===== *)
(** * The ECMAScript built-ins the EDR backend calls

    Numbers that may be [NaN] ([option Z] and [option Q], [None] being
    [NaN]), the three values a JSON property lookup can give ([undefined],
    [null], a number) and the relational operators on them,
    [Number.parseInt], [String.prototype.split] with a one-character
    separator, [String.prototype.toLowerCase], and the array methods
    [find], [findIndex], [slice] and [splice].  These are not code of the
    repository: they are the semantics its code relies on, written out
    from the ECMAScript specification so that the components can be
    stated over them. *)

From S2P Require Import Prelude.
From Stdlib Require DecimalString.

(** ** Numbers *)

(** [a <= b], [a > b] and [a - b] on integer-valued numbers; [NaN] makes
    every comparison false. *)
Definition js_leZ (a b : option Z) : bool :=
  match a, b with Some x, Some y => (x <=? y)%Z | _, _ => false end.
Definition js_gtZ (a b : option Z) : bool :=
  match a, b with Some x, Some y => (y <? x)%Z | _, _ => false end.
Definition js_subZ (a b : option Z) : option Z :=
  match a, b with Some x, Some y => Some (x - y)%Z | _, _ => None end.

(** [n % 2 === 0]: the remainder has the sign of the dividend, [NaN % 2]
    is [NaN], which is not [=== 0]. *)
Definition js_even (n : option Z) : bool :=
  match n with Some z => (Z.rem z 2 =? 0)%Z | None => false end.

(** The value of [obj[k]] read from a parsed JSON object. *)
Inductive jsval := JUndefined | JNull | JNumber (q : Q).

(** [ToNumber]: [undefined] is [NaN], [null] is [0]. *)
Definition to_number (v : jsval) : option Q :=
  match v with JUndefined => None | JNull => Some 0%Q | JNumber q => Some q end.

Definition is_null (v : jsval) : bool :=
  match v with JNull => true | _ => false end.

(** [a < b] on numbers ([Q] for non-integral values). *)
Definition js_ltQ (a b : option Q) : bool :=
  match a, b with Some x, Some y => negb (Qle_bool y x) | _, _ => false end.

(** ** Number.parseInt (no radix argument) *)

Definition is_js_space (c : ascii) : bool :=
  let n := Ascii.nat_of_ascii c in
  (n =? 32)%nat || ((9 <=? n)%nat && (n <=? 13)%nat).

Fixpoint trim_start (s : string) : string :=
  match s with
  | EmptyString => EmptyString
  | String c r => if is_js_space c then trim_start r else s
  end.

(** The value of a digit in the given radix, if it is one. *)
Definition digit_value (radix : Z) (c : ascii) : option Z :=
  let n := Z.of_nat (Ascii.nat_of_ascii c) in
  let v := if ((48 <=? n) && (n <=? 57))%Z then Some (n - 48)%Z
           else if ((97 <=? n) && (n <=? 122))%Z then Some (n - 87)%Z
           else if ((65 <=? n) && (n <=? 90))%Z then Some (n - 55)%Z
           else None in
  match v with Some d => if (d <? radix)%Z then Some d else None | None => None end.

(** The value of the longest prefix of digits, accumulated into [acc],
    with the number of digits read. *)
Fixpoint digits_prefix (radix acc : Z) (s : string) : Z * nat :=
  match s with
  | EmptyString => (acc, 0%nat)
  | String c r =>
      match digit_value radix c with
      | Some d => let '(v, k) := digits_prefix radix (acc * radix + d)%Z r in (v, S k)
      | None => (acc, 0%nat)
      end
  end.

Definition parse_digits (radix : Z) (s : string) : option Z :=
  let '(v, k) := digits_prefix radix 0 s in
  if (k =? 0)%nat then None else Some v.

Definition parseInt (s : string) : option Z :=
  let s1 := trim_start s in
  let '(sign, s2) :=
    match s1 with
    | String "-"%char r => ((-1)%Z, r)
    | String "+"%char r => (1%Z, r)
    | _ => (1%Z, s1)
    end in
  let v :=
    match s2 with
    | String "0"%char (String x r) =>
        if (Ascii.eqb x "x"%char || Ascii.eqb x "X"%char)%bool then parse_digits 16 r
        else parse_digits 10 s2
    | _ => parse_digits 10 s2
    end in
  (fun z => sign * z)%Z <$> v.

(** ** Strings *)

(** [s.split(sep)] for a one-character separator. *)
Fixpoint split_on (sep : ascii) (s : string) : list string :=
  match s with
  | EmptyString => [EmptyString]
  | String c r =>
      if Ascii.eqb c sep then EmptyString :: split_on sep r
      else match split_on sep r with
           | h :: t => String c h :: t
           | [] => [String c EmptyString]
           end
  end.

(** [`${parts[i]}`]: a missing element prints as "undefined". *)
Definition template_at (parts : list string) (i : nat) : string :=
  parts !! i ⁇ "undefined".

Definition ascii_lower (c : ascii) : ascii :=
  let n := Ascii.nat_of_ascii c in
  if ((65 <=? n) && (n <=? 90))%nat then Ascii.ascii_of_nat (n + 32) else c.

Fixpoint toLowerCase (s : string) : string :=
  match s with
  | EmptyString => EmptyString
  | String c r => String (ascii_lower c) (toLowerCase r)
  end.

(** ** Arrays *)

(** [l.find(p)]: the first element satisfying [p], or [undefined]. *)
Fixpoint js_find {A} (p : A -> bool) (l : list A) : option A :=
  match l with
  | [] => None
  | x :: r => if p x then Some x else js_find p r
  end.

(** [l.findIndex((x, i) => p i x)]: the first index, or [-1]. *)
Fixpoint findIndex_from {A} (p : nat -> A -> bool) (i : nat) (l : list A) : Z :=
  match l with
  | [] => (-1)%Z
  | x :: r => if p i x then Z.of_nat i else findIndex_from p (S i) r
  end.
Definition findIndex {A} (p : nat -> A -> bool) (l : list A) : Z := findIndex_from p 0 l.

(** A relative index of [slice] and [splice]: negative counts from the
    end, and the result is clamped to [0, len]. *)
Definition rel_index (k : Z) (len : nat) : nat :=
  if (k <? 0)%Z then Z.to_nat (Z.max (Z.of_nat len + k) 0)
  else Z.to_nat (Z.min k (Z.of_nat len)).

(** [l.slice(s, e)]. *)
Definition js_slice {A} (s e : Z) (l : list A) : list A :=
  let b := rel_index s (length l) in
  take (rel_index e (length l) - b) (drop b l).

(** The array [l] after [l.splice(s, n)] has removed its elements. *)
Definition js_splice {A} (s n : Z) (l : list A) : list A :=
  let b := rel_index s (length l) in
  let k := Z.to_nat (Z.min (Z.max n 0) (Z.of_nat (length l - b))) in
  take b l ++ drop (b + k) l.

(** ** Lemmas on the array methods *)

Section ArrayLemmas.
Context {A : Type}.
Implicit Types (l : list A).

(** [findIndex] returns [-1] when no element satisfies the test, and
    otherwise the first index whose element does. *)
Lemma findIndex_from_spec (p : nat -> A -> bool) l i :
  (findIndex_from p i l = (-1)%Z /\ forall j x, l !! j = Some x -> p (i + j) x = false) \/
  (exists j x, findIndex_from p i l = Z.of_nat (i + j) /\ l !! j = Some x /\
     p (i + j) x = true /\ forall j' x', j' < j -> l !! j' = Some x' -> p (i + j') x' = false).
Proof.
  revert i. induction l as [|y r IH]; intros i; simpl.
  - left. split; [done|]. by intros ??.
  - destruct (p i y) eqn:Hy.
    + right. exists 0, y. rewrite Nat.add_0_r. split_and!; [done..|lia].
    + destruct (IH (S i)) as [[-> Hr]|(j & x & -> & Hj & Hp & Hlt)].
      * left. split; [done|]. intros [|j] x Hx; simpl in Hx.
        -- injection Hx as <-. by rewrite Nat.add_0_r.
        -- rewrite <-Nat.add_succ_comm. by apply Hr.
      * right. exists (S j), x. rewrite <-!Nat.add_succ_comm.
        split_and!; [done..|]. intros [|j'] x' Hj' Hx'; simpl in Hx'.
        -- injection Hx' as <-. by rewrite Nat.add_0_r.
        -- rewrite <-Nat.add_succ_comm. apply Hlt; [lia|done].
Qed.

Lemma findIndex_spec (p : nat -> A -> bool) l :
  (findIndex p l = (-1)%Z /\ forall j x, l !! j = Some x -> p j x = false) \/
  (exists j x, findIndex p l = Z.of_nat j /\ l !! j = Some x /\ p j x = true /\
     forall j' x', j' < j -> l !! j' = Some x' -> p j' x' = false).
Proof. apply (findIndex_from_spec p l 0). Qed.

Lemma rel_index_nat (k len : nat) : k <= len -> rel_index (Z.of_nat k) len = k.
Proof. intros H. unfold rel_index. destruct (Z.ltb_spec (Z.of_nat k) 0); lia. Qed.

Lemma js_slice_nat (s e : nat) l :
  s <= length l -> e <= length l ->
  js_slice (Z.of_nat s) (Z.of_nat e) l = take (e - s) (drop s l).
Proof. intros Hs He. unfold js_slice. by rewrite !rel_index_nat. Qed.

Lemma js_splice_nat (s k : nat) l :
  s <= length l -> k <= length l - s ->
  js_splice (Z.of_nat s) (Z.of_nat k) l = take s l ++ drop (s + k) l.
Proof.
  intros Hs Hk. unfold js_splice. rewrite rel_index_nat by done.
  do 3 f_equal. lia.
Qed.
End ArrayLemmas.

Lemma js_gtZ_sub_true a b c :
  js_gtZ (js_subZ a b) (Some c) = true ->
  exists x y, a = Some x /\ b = Some y /\ (c < x - y)%Z.
Proof. destruct a, b; simpl; try done. z_cmp; intros; eauto || done. Qed.

Lemma js_leZ_Some x y : js_leZ (Some x) (Some y) = true <-> (x <= y)%Z.
Proof. apply Z.leb_le. Qed.

Lemma js_ltQ_Some x y : js_ltQ (Some x) (Some y) = true <-> (x < y)%Q.
Proof.
  unfold js_ltQ. rewrite negb_true_iff. split.
  - intros H. apply Qnot_le_lt. intros Hle%Qle_bool_iff. congruence.
  - intros H. destruct (Qle_bool y x) eqn:E; [|done].
    apply Qle_bool_iff in E. exfalso. by apply (Qlt_not_le x y).
Qed.

Lemma js_ltQ_None_l b : js_ltQ None b = false.
Proof. done. Qed.

Lemma js_ltQ_None_r a : js_ltQ a None = false.
Proof. by destruct a. Qed.

#[export] Hint Rewrite js_ltQ_None_l js_ltQ_None_r : edr_rw.

Lemma js_even_spec n :
  js_even n = match n with Some z => Z.even z | None => false end.
Proof.
  destruct n as [z|]; [simpl|done].
  rewrite Zeven_mod. destruct (Z.eqb_spec (Z.rem z 2) 0) as [H|H];
    destruct (Z.eqb_spec (z mod 2) 0) as [H'|H']; try done.
  - exfalso. apply H'. by apply Z.rem_mod_eq_0.
  - exfalso. apply H. by apply Z.rem_mod_eq_0.
Qed.

(** ** parseInt on decimal digit strings *)

Definition is_digit (c : ascii) : bool :=
  (48 <=? Ascii.nat_of_ascii c)%nat && (Ascii.nat_of_ascii c <=? 57)%nat.

Definition digit (c : ascii) : Z := (Z.of_nat (Ascii.nat_of_ascii c) - 48)%Z.

Fixpoint all_digits (s : string) : bool :=
  match s with
  | EmptyString => true
  | String c r => is_digit c && all_digits r
  end.

(** The decimal value of a digit string, read left to right. *)
Fixpoint decimal_acc (acc : Z) (s : string) : Z :=
  match s with
  | EmptyString => acc
  | String c r => decimal_acc (acc * 10 + digit c)%Z r
  end.

Lemma digit_value_decimal c : is_digit c = true -> digit_value 10 c = Some (digit c).
Proof.
  unfold is_digit, digit_value, digit. intros [H1 H2]%andb_prop.
  apply Nat.leb_le in H1, H2.
  destruct (Z.leb_spec 48 (Z.of_nat (Ascii.nat_of_ascii c))); [|lia].
  destruct (Z.leb_spec (Z.of_nat (Ascii.nat_of_ascii c)) 57); [|lia]. simpl.
  destruct (Z.ltb_spec (Z.of_nat (Ascii.nat_of_ascii c) - 48) 10); [done|lia].
Qed.

Lemma digits_prefix_decimal acc s :
  all_digits s = true -> digits_prefix 10 acc s = (decimal_acc acc s, String.length s).
Proof.
  revert acc. induction s as [|c r IH]; intros acc Hs; simpl; [done|].
  simpl in Hs. apply andb_prop in Hs as [Hc Hr].
  rewrite digit_value_decimal by done. by rewrite IH.
Qed.

(** A decimal digit is not white space. *)
Lemma is_digit_not_space c : is_digit c = true -> is_js_space c = false.
Proof.
  unfold is_digit, is_js_space.
  destruct (Nat.leb_spec 48 (Ascii.nat_of_ascii c)), (Nat.eqb_spec (Ascii.nat_of_ascii c) 32),
    (Nat.leb_spec 9 (Ascii.nat_of_ascii c)), (Nat.leb_spec (Ascii.nat_of_ascii c) 13);
    simpl; intros; try done; lia.
Qed.

(** A string at which a run of decimal digits stops without becoming a
    hexadecimal prefix: empty, or starting with a character that is not
    a decimal digit, "x" or "X". *)
Definition digits_stop (r : string) : bool :=
  match r with
  | EmptyString => true
  | String c _ =>
      match digit_value 10 c with
      | Some _ => false
      | None => negb (Ascii.eqb c "x" || Ascii.eqb c "X")
      end
  end.

Lemma digits_prefix_app acc s r :
  all_digits s = true ->
  digits_prefix 10 acc (s ++ r) = let '(v, k) := digits_prefix 10 (decimal_acc acc s) r in (v, String.length s + k).
Proof.
  revert acc. induction s as [|c s IH]; intros acc Hs; simpl; [by destruct digits_prefix|].
  apply andb_prop in Hs as [Hc Hs]. rewrite digit_value_decimal by done. rewrite IH by done.
  by destruct (digits_prefix 10 _ r).
Qed.

Lemma digits_prefix_stop acc r : digits_stop r = true -> digits_prefix 10 acc r = (acc, 0%nat).
Proof. destruct r as [|c r]; simpl; [done|]. by destruct (digit_value 10 c). Qed.

(** [Number.parseInt] reads the decimal digits a string starts with, up
    to the first character that is not one (leading zeros included:
    "0805" is 805). *)
Lemma parseInt_digits_app s r :
  all_digits s = true -> s <> EmptyString -> digits_stop r = true ->
  parseInt (s ++ r) = Some (decimal_acc 0 s).
Proof.
  intros Hs Hne Hr. destruct s as [|c s]; [done|]. rewrite string_app_cons.
  pose proof Hs as [Hc Hs']%andb_prop.
  pose proof (is_digit_not_space c Hc) as Hsp.
  assert (Hpd : parse_digits 10 (String c (s ++ r)) = Some (decimal_acc 0 (String c s))).
  { unfold parse_digits. rewrite <-string_app_cons, digits_prefix_app, digits_prefix_stop by done.
    done. }
  unfold parseInt. replace (trim_start (String c (s ++ r))) with (String c (s ++ r)) by (simpl; by rewrite Hsp).
  destruct c as [[] [] [] [] [] [] [] []]; try discriminate Hc;
    try (cbn -[parse_digits decimal_acc String.append]; rewrite Hpd; simpl; f_equal; lia).
  (* the leading "0": a hexadecimal prefix needs an "x" next, not a digit *)
  assert (Hx : forall (x : ascii) (r' : string), String.append s r = String x r' -> Ascii.eqb x "x"%char = false /\ Ascii.eqb x "X"%char = false).
  { intros x r' E. destruct s as [|y s].
    - rewrite string_app_nil in E. subst r. simpl in Hr. destruct (digit_value 10 x); [done|].
      by apply negb_true_iff, orb_false_iff in Hr.
    - rewrite string_app_cons in E. injection E as -> _. simpl in Hs'. apply andb_prop in Hs' as [Hy _].
      split; apply not_true_iff_false; intros ->%Ascii.eqb_eq; discriminate Hy. }
  destruct (String.append s r) as [|x r'] eqn:E; [cbn -[parse_digits decimal_acc]; rewrite Hpd; simpl; f_equal; lia|].
  destruct (Hx x r' eq_refl) as [-> ->].
  cbn -[parse_digits decimal_acc]. rewrite Hpd. simpl. f_equal. lia.
Qed.

(** [Number.parseInt] of a non-empty string of decimal digits is its
    decimal value. *)
Lemma parseInt_decimal s :
  all_digits s = true -> s <> EmptyString -> parseInt s = Some (decimal_acc 0 s).
Proof.
  intros Hs Hne. pose proof (parseInt_digits_app s "" Hs Hne eq_refl) as H.
  by rewrite string_app_nil_r in H.
Qed.

Definition is_letter (c : ascii) : bool :=
  let n := Ascii.nat_of_ascii c in
  ((97 <=? n) && (n <=? 122))%nat || ((65 <=? n) && (n <=? 90))%nat.

(** [Number.parseInt] of a string that starts with a letter is [NaN]. *)
Lemma parseInt_letter c r : is_letter c = true -> parseInt (String c r) = None.
Proof. destruct c as [[] [] [] [] [] [] [] []]; intros H; try discriminate H; reflexivity. Qed.

(** ** find and toLowerCase *)

(** [find] returns the first element that satisfies the test. *)
Lemma js_find_Some {A} (p : A -> bool) (l : list A) x :
  js_find p l = Some x <->
  exists pre post, l = pre ++ x :: post /\ p x = true /\ Forall (fun y => p y = false) pre.
Proof.
  split.
  - induction l as [|y l IH]; simpl; [done|]. destruct (p y) eqn:Hy.
    + intros [= ->]. exists [], l. by split_and!.
    + intros (pre & post & -> & Hx & Hpre)%IH. exists (y :: pre), post. by split_and!; [..|constructor].
  - intros (pre & post & -> & Hx & Hpre). induction Hpre as [|y pre Hy _ IH]; simpl.
    + by rewrite Hx.
    + by rewrite Hy.
Qed.

Lemma js_find_None {A} (p : A -> bool) (l : list A) :
  js_find p l = None <-> Forall (fun y => p y = false) l.
Proof.
  induction l as [|y l IH]; simpl; [split; by constructor|].
  destruct (p y) eqn:Hy; rewrite List.Forall_cons_iff, <-IH; intuition congruence.
Qed.

Lemma ascii_lower_other c :
  ~ (65 <= Ascii.nat_of_ascii c <= 90)%nat -> ascii_lower c = c.
Proof.
  intros H. unfold ascii_lower.
  destruct (Nat.leb_spec 65 (Ascii.nat_of_ascii c)), (Nat.leb_spec (Ascii.nat_of_ascii c) 90);
    cbn [andb]; [lia|done..].
Qed.

Lemma ascii_lower_idem c : ascii_lower (ascii_lower c) = ascii_lower c.
Proof.
  destruct (decide (65 <= Ascii.nat_of_ascii c <= 90)%nat) as [H|H];
    [|by rewrite !(ascii_lower_other c H)].
  unfold ascii_lower at 2 3.
  destruct (Nat.leb_spec 65 (Ascii.nat_of_ascii c)), (Nat.leb_spec (Ascii.nat_of_ascii c) 90);
    cbn [andb]; [|lia..].
  apply ascii_lower_other.
  rewrite Ascii.nat_ascii_embedding by (pose proof (Ascii.nat_ascii_bounded c); lia). lia.
Qed.

Lemma toLowerCase_idem s : toLowerCase (toLowerCase s) = toLowerCase s.
Proof. induction s as [|c s IH]; simpl; [done|]. by rewrite ascii_lower_idem, IH. Qed.

(** ** Number printing *)

(** [n.toString()] of an integral number: its decimal digits, with a
    leading "-" when negative (ECMA-262 Number::toString, radix 10, on
    integers below 10^21). *)
Definition js_int_to_string (z : Z) : string := DecimalString.NilZero.string_of_int (Z.to_int z).

(** ** Number(string): StringToNumber (ECMA-262 7.1.4.1.1) *)

(** A Number value.  Finite values are exact rationals: literals beyond
    a double's range or precision are not rounded. *)
Inductive jsnum := NumNaN | NumInf (negative : bool) | NumFin (q : Q).

(** White space is removed at the end as at the start
    ([String.prototype.trim] and StringToNumber's [StrWhiteSpace]). *)
Fixpoint trim_end (s : string) : string :=
  match s with
  | EmptyString => EmptyString
  | String c r =>
      let r' := trim_end r in
      if is_js_space c && String.eqb r' "" then EmptyString else String c r'
  end.

Definition js_trim (s : string) : string := trim_end (trim_start s).

(** All of [s] as digits of [radix], at least one. *)
Definition parse_all (radix : Z) (s : string) : option Z :=
  let '(v, k) := digits_prefix radix 0 s in
  if (k =? 0)%nat || negb (k =? String.length s)%nat then None else Some v.

Fixpoint string_drop (n : nat) (s : string) : string :=
  match n, s with
  | 0%nat, _ => s
  | S n', String _ r => string_drop n' r
  | S _, EmptyString => EmptyString
  end.

(** [ExponentPart] after its [e]: [SignedInteger]. *)
Definition signed_integer (s : string) : option Z :=
  match s with
  | String c r =>
      if Ascii.eqb c "+" then parse_all 10 r
      else if Ascii.eqb c "-" then Z.opp <$> parse_all 10 r
      else parse_all 10 s
  | EmptyString => None
  end.

(** [10^e] as a rational. *)
Definition pow10 (e : Z) : Q :=
  if (0 <=? e)%Z then inject_Z (10 ^ e) else Qinv (inject_Z (10 ^ (- e))).

(** [StrUnsignedDecimalLiteral] without [Infinity]: [DecimalDigits],
    with [.] and optional fraction digits, or [.] and fraction digits,
    then an optional exponent; its MV production by production. *)
Definition unsigned_decimal (s : string) : option Q :=
  let '(ip, ni) := digits_prefix 10 0 s in
  let s1 := string_drop ni s in
  let '(frac, s2) :=
    match s1 with
    | String c r =>
        if Ascii.eqb c "." then let '(f, k) := digits_prefix 10 0 r in (Some (f, k), string_drop k r)
        else (None, s1)
    | EmptyString => (None, s1)
    end in
  let nf := match frac with Some (_, k) => k | None => 0%nat end in
  if ((ni + nf) =? 0)%nat then None else
  let mv := match frac with
            | Some (f, S k) => (inject_Z ip + inject_Z f * pow10 (- Z.of_nat (S k)))%Q
            | _ => inject_Z ip
            end in
  match s2 with
  | EmptyString => Some mv
  | String c r =>
      if Ascii.eqb c "e" || Ascii.eqb c "E" then (fun e => mv * pow10 e)%Q <$> signed_integer r
      else None
  end.

(** [StrDecimalLiteral]: an optional sign, then [Infinity] or an unsigned
    literal. *)
Definition signed_decimal (t : string) : jsnum :=
  let '(neg, u) :=
    match t with
    | String c r => if Ascii.eqb c "-" then (true, r) else if Ascii.eqb c "+" then (false, r) else (false, t)
    | EmptyString => (false, t)
    end in
  if String.eqb u "Infinity" then NumInf neg
  else match unsigned_decimal u with
       | Some q => NumFin (if neg then Qopp q else q)
       | None => NumNaN
       end.

(** The radix of a [NonDecimalIntegerLiteral] prefix letter. *)
Definition radix_prefix (x : ascii) : option Z :=
  if Ascii.eqb x "x" || Ascii.eqb x "X" then Some 16%Z
  else if Ascii.eqb x "o" || Ascii.eqb x "O" then Some 8%Z
  else if Ascii.eqb x "b" || Ascii.eqb x "B" then Some 2%Z
  else None.

(** [Number(s)]: white space around is ignored, an empty string is 0,
    [0x]/[0o]/[0b] literals take no sign, anything else that is not a
    [StrDecimalLiteral] is [NaN]. *)
Definition StringToNumber (s : string) : jsnum :=
  let t := js_trim s in
  match t with
  | EmptyString => NumFin 0
  | String c (String x r) =>
      if Ascii.eqb c "0" then
        match radix_prefix x with
        | Some radix => match parse_all radix r with Some z => NumFin (inject_Z z) | None => NumNaN end
        | None => signed_decimal t
        end
      else signed_decimal t
  | _ => signed_decimal t
  end.
