(* ===== verification/Lodash.v ===== *)
(** * The lodash functions [getTrainTimetable] calls

    [_.groupBy(xs, "lineNo")] builds an object from the string key of each
    element to the elements with that key, in their order; [_.sortBy(xs,
    "hourSort")] is a stable sort by key, comparing keys with lodash's
    [compareAscending] (numbers ascending, [NaN] after every number).

    The engine behind [_.sortBy] ([Array.prototype.sort] on
    (criterion, index) pairs) is not modelled step by step: the model is
    an insertion sort, and the section [SortBy] proves that a sorted list
    with the same sub-sequence of elements for every key is unique
    ([sortBy_unique]), so every stable sort by the same order returns the
    list the model returns. *)

From S2P Require Import Prelude JsRuntime.
From Stdlib Require Import Sorted.

(** ** _.groupBy *)

Section GroupBy.
Context {A : Type} (key : A -> string).

Definition groupBy_step (m : gmap string (list A)) (x : A) : gmap string (list A) :=
  <[key x := (m !! key x ⁇ []) ++ [x]]> m.

Definition groupBy (l : list A) : gmap string (list A) := foldl groupBy_step ∅ l.

(** The elements of [l] whose key is [k], in their order in [l]. *)
Definition with_key (k : string) (l : list A) : list A :=
  List.filter (fun x => String.eqb (key x) k) l.

Lemma foldl_groupBy_lookup (l : list A) (m : gmap string (list A)) (k : string) :
  foldl groupBy_step m l !! k =
  match m !! k, with_key k l with
  | None, [] => None
  | o, g => Some ((o ⁇ []) ++ g)
  end.
Proof.
  revert m. induction l as [|x l IH]; intros m; simpl.
  - destruct (m !! k); simpl; rewrite ?app_nil_r; done.
  - rewrite IH. unfold groupBy_step, with_key. simpl.
    destruct (String.eqb_spec (key x) k) as [<-|Hne].
    + rewrite lookup_insert_eq.
      destruct (m !! key x); simpl; by rewrite <-?app_assoc.
    + by rewrite lookup_insert_ne.
Qed.

(** [groupBy(l)[k] ?? []] is the sub-sequence of [l] with key [k]. *)
Lemma groupBy_lookup_default (l : list A) (k : string) :
  default [] (groupBy l !! k) = with_key k l.
Proof.
  unfold groupBy. rewrite foldl_groupBy_lookup, lookup_empty.
  by destruct (with_key k l).
Qed.
End GroupBy.

(** ** _.sortBy *)

(** lodash's [compareAscending] on numbers, as a "not greater" test:
    [NaN] compares after every number. *)
Definition lodash_le (a b : option Z) : bool :=
  match a, b with
  | Some x, Some y => (x <=? y)%Z
  | Some _, None => true
  | None, None => true
  | None, Some _ => false
  end.

Section SortBy.
Context {A K : Type} (key : A -> K) (le : K -> K -> bool).
Hypothesis le_total : forall a b, le a b = false -> le b a = true.
Hypothesis le_trans : forall a b c, le a b = true -> le b c = true -> le a c = true.

(** Insert [x], which precedes every element of [l] in the input, before
    the first element whose key is not smaller. *)
Fixpoint insert_by (x : A) (l : list A) : list A :=
  match l with
  | [] => [x]
  | y :: r => if le (key x) (key y) then x :: l else y :: insert_by x r
  end.

Fixpoint sortBy (l : list A) : list A :=
  match l with
  | [] => []
  | x :: r => insert_by x (sortBy r)
  end.

Definition key_le (x y : A) : Prop := le (key x) (key y) = true.

(** Two keys are tied when each is not greater than the other. *)
Definition tied (k k' : K) : bool := le k k' && le k' k.

Definition same_key (k : K) (l : list A) : list A :=
  List.filter (fun x => tied k (key x)) l.

Lemma le_refl k : le k k = true.
Proof. destruct (le k k) eqn:E; [done|]. rewrite <-E. by apply le_total. Qed.

Lemma tied_refl k : tied k k = true.
Proof. unfold tied. by rewrite le_refl. Qed.

Lemma insert_by_perm x l : insert_by x l ≡ₚ x :: l.
Proof.
  induction l as [|y r IH]; simpl; [done|].
  destruct (le (key x) (key y)); [done|].
  rewrite IH. apply Permutation_swap.
Qed.

Lemma sortBy_perm l : sortBy l ≡ₚ l.
Proof. induction l as [|x r IH]; simpl; [done|]. by rewrite insert_by_perm, IH. Qed.

Lemma insert_by_sorted x l : Sorted key_le l -> Sorted key_le (insert_by x l).
Proof.
  induction 1 as [|y r Hr IH Hhd]; simpl; [by repeat constructor|].
  destruct (le (key x) (key y)) eqn:Hxy.
  - by repeat constructor.
  - constructor; [done|]. destruct r as [|z r]; simpl; [constructor; by apply le_total|].
    inversion Hhd; subst. destruct (le (key x) (key z)); constructor; [by apply le_total|done].
Qed.

Lemma sortBy_sorted l : Sorted key_le (sortBy l).
Proof. induction l; simpl; [constructor | by apply insert_by_sorted]. Qed.

Lemma key_le_trans : Relations_1.Transitive key_le.
Proof. intros x y z. apply le_trans. Qed.

(** Tied keys are ordered the same way against every key. *)
Lemma tied_le k x y :
  tied k (key x) = true -> tied k (key y) = true -> le (key x) (key y) = true.
Proof.
  unfold tied. intros [Hkx Hxk]%andb_prop [Hky Hyk]%andb_prop. eauto.
Qed.

(** Inserting [x] keeps every key's sub-sequence of [x :: l]: the
    elements [x] is moved past have a smaller key, so they are not tied
    with it. *)
Lemma same_key_insert_by k x l : same_key k (insert_by x l) = same_key k (x :: l).
Proof.
  induction l as [|y r IH]; simpl; [done|].
  destruct (le (key x) (key y)) eqn:Hxy; [done|]. simpl. rewrite IH. simpl.
  destruct (tied k (key y)) eqn:Ey, (tied k (key x)) eqn:Ex; try done.
  by rewrite (tied_le k x y) in Hxy.
Qed.

Lemma sortBy_stable k l : same_key k (sortBy l) = same_key k l.
Proof.
  induction l as [|x r IH]; simpl; [done|].
  rewrite same_key_insert_by. simpl. by rewrite IH.
Qed.

Lemma same_key_in k x l : In x (same_key k l) <-> In x l /\ tied k (key x) = true.
Proof. apply List.filter_In. Qed.

Lemma strongly_sorted_head_le x r y :
  StronglySorted key_le (x :: r) -> In y (x :: r) -> le (key x) (key y) = true.
Proof.
  intros [_ Hall]%StronglySorted_inv [<-|Hy]; [apply le_refl|].
  rewrite List.Forall_forall in Hall. by apply Hall.
Qed.

(** A list sorted by key is determined by its sub-sequence for each key. *)
Lemma sorted_same_keys_unique l1 l2 :
  StronglySorted key_le l1 -> StronglySorted key_le l2 ->
  (forall k, same_key k l1 = same_key k l2) -> l1 = l2.
Proof.
  revert l2. induction l1 as [|x r1 IH]; intros [|y r2] H1 H2 Hk; try done.
  - specialize (Hk (key y)). simpl in Hk. by rewrite tied_refl in Hk.
  - specialize (Hk (key x)). simpl in Hk. by rewrite tied_refl in Hk.
  - assert (Hyx : In y (x :: r1)).
    { apply (same_key_in (key y)). rewrite Hk. apply same_key_in.
      split; [by left | apply tied_refl]. }
    assert (Hxy : In x (y :: r2)).
    { apply (same_key_in (key x)). rewrite <-Hk. apply same_key_in.
      split; [by left | apply tied_refl]. }
    pose proof (strongly_sorted_head_le _ _ _ H1 Hyx) as Hle1.
    pose proof (strongly_sorted_head_le _ _ _ H2 Hxy) as Hle2.
    assert (Hxy' : x = y).
    { specialize (Hk (key x)). simpl in Hk. rewrite tied_refl in Hk.
      unfold tied in Hk. rewrite Hle1, Hle2 in Hk. simpl in Hk. by injection Hk. }
    subst y. f_equal. apply IH.
    + by destruct (StronglySorted_inv H1).
    + by destruct (StronglySorted_inv H2).
    + intros k. specialize (Hk k). simpl in Hk.
      destruct (tied k (key x)); [by injection Hk | done].
Qed.

Lemma sortBy_strongly_sorted l : StronglySorted key_le (sortBy l).
Proof. apply Sorted_StronglySorted; [apply key_le_trans | apply sortBy_sorted]. Qed.

(** Every list that is sorted by key and has, for each key, the
    sub-sequence of [l] with that key, is [sortBy l]. *)
Lemma sortBy_unique l l' :
  StronglySorted key_le l' -> (forall k, same_key k l' = same_key k l) ->
  l' = sortBy l.
Proof.
  intros Hs Hk. apply sorted_same_keys_unique; [done | apply sortBy_strongly_sorted |].
  intros k. by rewrite Hk, sortBy_stable.
Qed.
End SortBy.

(** Sorting by key only ever compares keys: the keys of the sorted list
    are the sorted keys. *)
Lemma sortBy_map_key {A K} (key : A -> K) (le : K -> K -> bool) (l : list A) :
  List.map key (sortBy key le l) = sortBy (fun k => k) le (List.map key l).
Proof.
  assert (Hins : forall x l', List.map key (insert_by key le x l') =
                              insert_by (fun k => k) le (key x) (List.map key l')).
  { intros x l'. induction l' as [|y r IH]; simpl; [done|].
    destruct (le (key x) (key y)); simpl; by rewrite ?IH. }
  induction l as [|x r IH]; simpl; [done|]. by rewrite Hins, IH.
Qed.

Section SortKeys.
Context {K : Type} (le : K -> K -> bool).
Hypothesis le_total : forall a b, le a b = false -> le b a = true.
Hypothesis le_trans : forall a b c, le a b = true -> le b c = true -> le a c = true.
Hypothesis le_antisym : forall a b, le a b = true -> le b a = true -> a = b.

(** For an order in which tied keys are equal, the sorted keys depend
    only on the multiset of keys. *)
Lemma sortBy_keys_perm (l1 l2 : list K) :
  l1 ≡ₚ l2 -> sortBy (fun k => k) le l1 = sortBy (fun k => k) le l2.
Proof.
  intros Hp. apply sortBy_unique; [done..|apply sortBy_strongly_sorted; done|].
  intros k. rewrite sortBy_stable by done. apply perm_all_eq with k.
  - unfold same_key. by apply filter_perm.
  - apply List.Forall_forall. intros x [_ Hx]%List.filter_In.
    apply andb_prop in Hx as [H1 H2]. by apply le_antisym.
Qed.
End SortKeys.

Lemma lodash_le_total a b : lodash_le a b = false -> lodash_le b a = true.
Proof. destruct a, b; simpl; try done. z_cmp; intros; done || lia. Qed.

Lemma lodash_le_trans a b c :
  lodash_le a b = true -> lodash_le b c = true -> lodash_le a c = true.
Proof. destruct a, b, c; simpl; try done. z_cmp; intros; done || lia. Qed.

Lemma lodash_le_antisym a b : lodash_le a b = true -> lodash_le b a = true -> a = b.
Proof. destruct a, b; simpl; try done. z_cmp; intros; f_equal; done || lia. Qed.

#[export] Hint Resolve lodash_le_total lodash_le_trans lodash_le_antisym : edr.
