(* ===== verification/Chronology.v ===== *)
(** * The midnight repair of [getTrainTimetable] (train.ts lines 35-53)

    The rows of [trains_timetable_row] carry times of day without a date.
    When a run crosses midnight, [getTrainTimetable] looks for the rows
    just after midnight placed right after the departure row and moves
    them to the end.  The test reads [data[1].hourSort]: [data[1]] is
    [undefined] for a train of fewer than two rows, and the read throws a
    [TypeError]; and the rows the query returns have no [hourSort]
    property (the SELECT list of lines 17-31 does not name one), so the
    test compares [undefined] and is false. *)

From S2P Require Import Prelude JsRuntime.

(** A row of the query of train.ts lines 16-33, with the property
    [hourSort] the repair reads at line 41 ([None]: absent, or [NaN]). *)
Record TimetableRow := {
  train_number : string;
  scheduled_arrival : option string;
  scheduled_arrival_hour : option string;
  real_arrival : option string;
  real_arrival_hour : option string;
  station : option string;
  layover : option string;
  scheduled_departure_hour : option string;
  real_departure : option string;
  real_departure_hour : option string;
  train_type : option string;
  line : option string;
  cacheDate : option string;
  stop_type : option string;
  hourSort : option Z
}.

(** The rows as the query returns them: [hourSort] is not a column. *)
Definition from_query (r : TimetableRow) : bool :=
  match hourSort r with None => true | Some _ => false end.

(** The test of line 41, once [data[1]] is known to exist. *)
Definition crosses_midnight (second lst : TimetableRow) : bool :=
  js_leZ (hourSort second) (Some 30%Z) && js_gtZ (hourSort lst) (Some 2300%Z).

(** [lastStationAfterMidnightIndex], lines 42-48: the first index whose
    successor's [hourSort] is more than 1000 above its own, or [-1]. *)
Definition day_rollover_at (data : list TimetableRow) (index : nat) (row : TimetableRow) : bool :=
  match data !! S index with
  | Some next => js_gtZ (js_subZ (hourSort next) (hourSort row)) (Some 1000%Z)
  | None => false
  end.

(** The test of line 44 on a pair of consecutive rows. *)
Definition rollover_between (row next : TimetableRow) : bool :=
  js_gtZ (js_subZ (hourSort next) (hourSort row)) (Some 1000%Z).

Definition lastStationAfterMidnightIndex (data : list TimetableRow) : Z :=
  findIndex (day_rollover_at data) data.

(** Lines 41-53: the repaired rows, or the [TypeError] of reading
    [hourSort] of [data[1]] when it is [undefined]. *)
Definition reorderAfterMidnight (data : list TimetableRow) : outcome (list TimetableRow) :=
  match data !! 1, last data with
  | Some second, Some lst =>
      if crosses_midnight second lst then
        let rowsToMove := js_slice 1 (lastStationAfterMidnightIndex data + 1) data in
        let data' := js_splice 1 (Z.of_nat (length rowsToMove)) data in
        Ok (data' ++ rowsToMove)
      else Ok data
  | _, _ => Throw (TypeError "Cannot read properties of undefined (reading 'hourSort')")
  end.

Implicit Types (data : list TimetableRow).

(** ** The rollover boundary *)

(** [lastStationAfterMidnightIndex] is [-1] when no row is followed by a
    jump of more than 1000, and otherwise the first row that is. *)
Lemma lastStationAfterMidnightIndex_spec data :
  (lastStationAfterMidnightIndex data = (-1)%Z /\
     forall i r r', data !! i = Some r -> data !! S i = Some r' ->
       js_gtZ (js_subZ (hourSort r') (hourSort r)) (Some 1000%Z) = false) \/
  (exists i r r', lastStationAfterMidnightIndex data = Z.of_nat i /\
     data !! i = Some r /\ data !! S i = Some r' /\
     js_gtZ (js_subZ (hourSort r') (hourSort r)) (Some 1000%Z) = true /\
     forall j q q', j < i -> data !! j = Some q -> data !! S j = Some q' ->
       js_gtZ (js_subZ (hourSort q') (hourSort q)) (Some 1000%Z) = false).
Proof.
  unfold lastStationAfterMidnightIndex.
  destruct (findIndex_spec (day_rollover_at data) data)
    as [[-> Hnone]|(i & r & -> & Hi & Hp & Hmin)]; unfold day_rollover_at in *.
  - left. split; [done|]. intros i r r' Hr Hr'. specialize (Hnone i r Hr). by rewrite Hr' in Hnone.
  - right. destruct (data !! S i) as [r'|] eqn:Hr'; [|done].
    exists i, r, r'. split_and!; [done..|]. intros j q q' Hj Hq Hq'.
    specialize (Hmin j q Hj Hq). by rewrite Hq' in Hmin.
Qed.

Lemma lastStationAfterMidnightIndex_range data :
  lastStationAfterMidnightIndex data = (-1)%Z \/
  exists i, lastStationAfterMidnightIndex data = Z.of_nat i /\ S i < length data.
Proof.
  destruct (lastStationAfterMidnightIndex_spec data) as [[-> _]|(i & r & r' & -> & _ & Hr' & _)];
    [by left|right]. exists i. split; [done|]. by apply lookup_lt_Some in Hr'.
Qed.

(** The [slice] and [splice] of lines 50-51 take out the rows 1 to the
    boundary. *)
Lemma rows_to_move_block data :
  2 <= length data ->
  let m := Z.to_nat (lastStationAfterMidnightIndex data) in
  js_slice 1 (lastStationAfterMidnightIndex data + 1) data = take m (drop 1 data) /\
  js_splice 1 (Z.of_nat (length (take m (drop 1 data)))) data = take 1 data ++ drop (1 + m) data.
Proof.
  intros Hlen m. subst m.
  destruct (lastStationAfterMidnightIndex_range data) as [->|(i & -> & Hi)].
  - change (js_slice (Z.of_nat 1) (Z.of_nat 0) data = take 0 (drop 1 data) /\
            js_splice (Z.of_nat 1) (Z.of_nat 0) data = take 1 data ++ drop 1 data).
    rewrite js_slice_nat, js_splice_nat by lia. done.
  - rewrite Nat2Z.id. replace (Z.of_nat i + 1)%Z with (Z.of_nat (S i)) by lia.
    change 1%Z with (Z.of_nat 1). rewrite js_slice_nat by lia.
    replace (S i - 1) with i by lia. split; [done|].
    rewrite length_take, length_drop, js_splice_nat by (rewrite ?length_take, ?length_drop; lia).
    do 3 f_equal. lia.
Qed.

(** ** Behaviour of the repair *)

Lemma reorderAfterMidnight_no_crossing data second lst :
  data !! 1 = Some second -> last data = Some lst ->
  crosses_midnight second lst = false -> reorderAfterMidnight data = Ok data.
Proof. intros H1 Hl Hc. unfold reorderAfterMidnight. by rewrite H1, Hl, Hc. Qed.

Lemma reorderAfterMidnight_crossing data second lst :
  data !! 1 = Some second -> last data = Some lst -> crosses_midnight second lst = true ->
  let m := Z.to_nat (lastStationAfterMidnightIndex data) in
  reorderAfterMidnight data = Ok (take 1 data ++ drop (1 + m) data ++ take m (drop 1 data)).
Proof.
  intros H1 Hl Hc m. unfold reorderAfterMidnight. rewrite H1, Hl, Hc.
  assert (2 <= length data) by (apply lookup_lt_Some in H1; lia).
  destruct (rows_to_move_block data) as [-> ->]; [done|]. by rewrite <-app_assoc.
Qed.

(** A train of at least two rows has a second and a last row. *)
Lemma second_and_last data :
  2 <= length data -> exists second lst, data !! 1 = Some second /\ last data = Some lst.
Proof.
  intros Hlen. destruct (data !! 1) as [second|] eqn:H1;
    [|apply lookup_ge_None in H1; lia].
  destruct (last data) as [lst|] eqn:Hl; [eauto|].
  apply last_None in Hl. subst. simpl in Hlen. lia.
Qed.

(** C1: the repair throws exactly for trains of fewer than two rows
    ([data[1].hourSort] on [undefined]); it never skips them. *)
Theorem reorderAfterMidnight_throws_iff data :
  (exists e, reorderAfterMidnight data = Throw e) <-> length data < 2.
Proof.
  split.
  - intros [e He]. destruct (decide (2 <= length data)) as [Hlen|]; [|lia].
    destruct (second_and_last data Hlen) as (second & lst & H1 & Hl).
    unfold reorderAfterMidnight in He. rewrite H1, Hl in He.
    by destruct (crosses_midnight second lst).
  - intros Hlen. eexists. unfold reorderAfterMidnight.
    rewrite (proj2 (lookup_ge_None data 1)) by lia. reflexivity.
Qed.

(** C10: a repaired train has the same rows as the query, reordered. *)
Theorem reorderAfterMidnight_perm data data' :
  reorderAfterMidnight data = Ok data' -> data' ≡ₚ data.
Proof.
  intros Hr. destruct (decide (2 <= length data)) as [Hlen|Hlen].
  - destruct (second_and_last data Hlen) as (second & lst & H1 & Hl).
    destruct (crosses_midnight second lst) eqn:Hc.
    + rewrite (reorderAfterMidnight_crossing data second lst) in Hr by done.
      outcome_inv. subst data'. apply rotate_block_perm.
    + rewrite (reorderAfterMidnight_no_crossing data second lst) in Hr by done.
      outcome_inv. by subst data'.
  - assert (Hth : exists e, reorderAfterMidnight data = Throw e)
      by (apply reorderAfterMidnight_throws_iff; lia).
    destruct Hth as [e He]. by rewrite He in Hr.
Qed.

(** C2: on the rows the query returns, which have no [hourSort], the
    test of line 41 compares [undefined <= 30], which is false: the
    repair never changes them. *)
Theorem reorderAfterMidnight_query_rows data :
  2 <= length data -> Forall (fun r => from_query r = true) data ->
  reorderAfterMidnight data = Ok data.
Proof.
  intros Hlen Hq. destruct (second_and_last data Hlen) as (second & lst & H1 & Hl).
  apply (reorderAfterMidnight_no_crossing data second lst); [done..|].
  rewrite List.Forall_forall in Hq.
  assert (Hs : from_query second = true) by (apply Hq, list_elem_of_In; by eapply list_elem_of_lookup_2).
  unfold from_query in Hs. unfold crosses_midnight. by destruct (hourSort second).
Qed.

Lemma reorderAfterMidnight_length data data' :
  reorderAfterMidnight data = Ok data' -> length data' = length data.
Proof. intros H%reorderAfterMidnight_perm. by apply Permutation_length. Qed.

(** A row followed by a jump of more than 1000 from a non-negative
    [hourSort] has an [hourSort] above 30: it cannot start a new
    after-midnight block. *)
Lemma after_jump_not_early r r' :
  (forall z, hourSort r = Some z -> (0 <= z)%Z) ->
  js_gtZ (js_subZ (hourSort r') (hourSort r)) (Some 1000%Z) = true ->
  forall lst, crosses_midnight r' lst = false.
Proof.
  intros Hnn (x & y & Hx & Hy & Hxy)%js_gtZ_sub_true lst.
  specialize (Hnn y Hy). unfold crosses_midnight. rewrite Hx.
  destruct (js_leZ_Some x 30) as [Hle _]. destruct (js_leZ (Some x) (Some 30%Z)); [|done].
  specialize (Hle eq_refl). lia.
Qed.

(** C11: on HHMM data (no negative [hourSort]), the repair is idempotent:
    the row it brings to position 1 follows the jump, so no second
    after-midnight block is detected. *)
Theorem reorderAfterMidnight_idempotent data data' :
  (forall r z, r ∈ data -> hourSort r = Some z -> (0 <= z)%Z) ->
  reorderAfterMidnight data = Ok data' -> reorderAfterMidnight data' = Ok data'.
Proof.
  intros Hnn Hr. pose proof (reorderAfterMidnight_length _ _ Hr) as Hlen'.
  assert (Hlen : 2 <= length data).
  { destruct (decide (2 <= length data)) as [|Hlt]; [done|].
    destruct (proj2 (reorderAfterMidnight_throws_iff data)) as [e He]; [lia|congruence]. }
  destruct (second_and_last data Hlen) as (second & lst & H1 & Hl).
  destruct (crosses_midnight second lst) eqn:Hc; cycle 1.
  { rewrite (reorderAfterMidnight_no_crossing data second lst) in Hr by done.
    outcome_inv. subst data'. by apply (reorderAfterMidnight_no_crossing data second lst). }
  pose proof Hr as Hr0.
  rewrite (reorderAfterMidnight_crossing data second lst) in Hr by done. injection Hr as Hd'.
  destruct (lastStationAfterMidnightIndex_spec data)
    as [[Hb _]|([|i] & r & r' & Hb & Hi & Hi' & Hjump & _)];
    rewrite Hb in Hd'; simpl in Hd'.
  - rewrite app_nil_r, take_drop in Hd'. by subst.
  - rewrite app_nil_r, take_drop in Hd'. by subst.
  - rewrite Nat2Z.id in Hd'.
    destruct (second_and_last data') as (second' & lst' & H1' & Hl'); [lia|].
    apply (reorderAfterMidnight_no_crossing _ second' lst'); [done..|].
    assert (second' = r') as ->.
    { pose proof (lookup_lt_Some _ _ _ Hi').
      rewrite <-Hd', lookup_rotate_block in H1' by lia. simpl in H1'. congruence. }
    apply (after_jump_not_early r); [|done].
    intros z Hz. apply (Hnn r z); [by eapply list_elem_of_lookup_2 | done].
Qed.

(** ** Scenarios *)

(** A row of train 1234 on line 1 at [st], scheduled at [hour], whose
    [hourSort] property is [h]. *)
Definition sample_row (st hour : string) (h : option Z) : TimetableRow :=
  {| train_number := "1234"; scheduled_arrival := None; scheduled_arrival_hour := Some hour;
     real_arrival := None; real_arrival_hour := None; station := Some st; layover := None;
     scheduled_departure_hour := None; real_departure := None; real_departure_hour := None;
     train_type := None; line := Some "1"; cacheDate := None; stop_type := None; hourSort := h |}.

(** Scenario A of the design: 08:00, 00:10, 23:50, with [hourSort] set. *)
Definition scenarioA : list TimetableRow :=
  [sample_row "A" "08:00" (Some 800%Z); sample_row "B" "00:10" (Some 10%Z);
   sample_row "C" "23:50" (Some 2350%Z)].

(** The same rows as the query returns them, without [hourSort]. *)
Definition scenarioA_query : list TimetableRow :=
  [sample_row "A" "08:00" None; sample_row "B" "00:10" None; sample_row "C" "23:50" None].

(** scenario A: the 00:10 row is moved after the 23:50 row. *)
Example reorderAfterMidnight_scenarioA :
  reorderAfterMidnight scenarioA =
  Ok [sample_row "A" "08:00" (Some 800%Z); sample_row "C" "23:50" (Some 2350%Z);
      sample_row "B" "00:10" (Some 10%Z)].
Proof. reflexivity. Qed.

Lemma reorderAfterMidnight_perm_witness :
  reorderAfterMidnight scenarioA =
    Ok [sample_row "A" "08:00" (Some 800%Z); sample_row "C" "23:50" (Some 2350%Z);
        sample_row "B" "00:10" (Some 10%Z)] /\
  [sample_row "A" "08:00" (Some 800%Z); sample_row "C" "23:50" (Some 2350%Z);
   sample_row "B" "00:10" (Some 10%Z)] ≡ₚ scenarioA.
Proof. split; [reflexivity|]. apply reorderAfterMidnight_perm. reflexivity. Defined.

Lemma reorderAfterMidnight_query_rows_witness :
  reorderAfterMidnight scenarioA_query = Ok scenarioA_query.
Proof. apply reorderAfterMidnight_query_rows; [simpl; lia | repeat constructor]. Defined.

Lemma reorderAfterMidnight_idempotent_witness :
  reorderAfterMidnight
    [sample_row "A" "08:00" (Some 800%Z); sample_row "C" "23:50" (Some 2350%Z);
     sample_row "B" "00:10" (Some 10%Z)] =
  Ok [sample_row "A" "08:00" (Some 800%Z); sample_row "C" "23:50" (Some 2350%Z);
      sample_row "B" "00:10" (Some 10%Z)].
Proof.
  apply (reorderAfterMidnight_idempotent scenarioA); [|reflexivity].
  intros r z Hr Hz. repeat (apply elem_of_cons in Hr as [->|Hr]; [injection Hz as <-; lia|]).
  by apply elem_of_nil in Hr.
Defined.

(** ** The repair as the design describes it *)

(** The design (spec 4.2) in recursive form: after the departure row,
    the block of rows up to the first one followed by a jump of more
    than 1000 ([None] when there is no jump), and the rows after it. *)
Fixpoint split_at_rollover (prev : TimetableRow) (rest : list TimetableRow)
    : option (list TimetableRow * list TimetableRow) :=
  match rest with
  | [] => None
  | r :: rest' =>
      if rollover_between prev r then Some ([], rest)
      else match split_at_rollover r rest' with
           | Some (blk, after) => Some (r :: blk, after)
           | None => None
           end
  end.

(** Steps 2-4 of the design: when the run crosses midnight, move the
    block to the end. *)
Definition design_repair (data : list TimetableRow) : list TimetableRow :=
  match data with
  | d0 :: d1 :: rest =>
      match last data with
      | Some lst =>
          if crosses_midnight d1 lst then
            match split_at_rollover d0 (d1 :: rest) with
            | Some (blk, after) => d0 :: after ++ blk
            | None => data
            end
          else data
      | None => data
      end
  | _ => data
  end.

Lemma split_at_rollover_none prev rest :
  (forall j r r', (prev :: rest) !! j = Some r -> (prev :: rest) !! S j = Some r' ->
     rollover_between r r' = false) ->
  split_at_rollover prev rest = None.
Proof.
  revert prev. induction rest as [|r rest IH]; intros prev Hno; simpl; [done|].
  rewrite (Hno 0 prev r) by done. rewrite IH; [done|].
  intros j q q' Hq Hq'. by apply (Hno (S j)).
Qed.

Lemma split_at_rollover_first prev rest i r r' :
  (prev :: rest) !! i = Some r -> (prev :: rest) !! S i = Some r' -> rollover_between r r' = true ->
  (forall j q q', j < i -> (prev :: rest) !! j = Some q -> (prev :: rest) !! S j = Some q' ->
     rollover_between q q' = false) ->
  split_at_rollover prev rest = Some (take i rest, drop i rest).
Proof.
  revert prev rest. induction i as [|i IH]; intros prev [|x rest] Hr Hr' Hj Hmin; simpl in *; try done.
  - injection Hr as <-. injection Hr' as <-. by rewrite Hj.
  - rewrite (Hmin 0 prev x) by (done || lia). rewrite (IH x rest); [done..|].
    intros j q q' Hlt Hq Hq'. apply (Hmin (S j)); [lia|done..].
Qed.

(** C12: the code's [findIndex], [slice], [splice] and [concat] implement
    the design's block rotation: on every train of two rows or more the
    repair returns the rows [design_repair] describes. *)
Theorem reorderAfterMidnight_design data :
  2 <= length data -> reorderAfterMidnight data = Ok (design_repair data).
Proof.
  intros Hlen. destruct (second_and_last data Hlen) as (second & lst & H1 & Hl).
  destruct data as [|d0 [|d1 rest]]; simpl in Hlen; try lia. simpl in H1. injection H1 as <-.
  unfold design_repair. rewrite Hl.
  destruct (crosses_midnight d1 lst) eqn:Hc; [|by apply (reorderAfterMidnight_no_crossing _ d1 lst)].
  rewrite (reorderAfterMidnight_crossing _ d1 lst) by done.
  destruct (lastStationAfterMidnightIndex_spec (d0 :: d1 :: rest))
    as [[-> Hno]|(i & r & r' & -> & Hi & Hi' & Hj & Hmin)].
  - rewrite split_at_rollover_none by done. simpl. by rewrite app_nil_r.
  - rewrite (split_at_rollover_first d0 (d1 :: rest) i r r') by done.
    rewrite Nat2Z.id. done.
Qed.

Lemma reorderAfterMidnight_design_witness :
  reorderAfterMidnight scenarioA = Ok (design_repair scenarioA).
Proof. apply reorderAfterMidnight_design. simpl. lia. Defined.
