(* ===== verification/SpeedLimits.v ===== *)
(** * The speed-limit overlay of [getTrainTimetable]

    train.ts lines 7-13 fetch the speed-limit feed once, at module load,
    and convert [axisStart] and [axisEnd] from metres to kilometres;
    line 15 groups the records by [lineNo].  Lines 55-66 infer the
    direction from the parity of the train number and select, for each
    row, the records of the row's line, on the direction's track, whose
    [axisStart] lies strictly between the kilometre position of the row's
    station and of the next row's station. *)

From S2P Require Import Prelude JsRuntime Lodash Chronology.

(** A record of the speed-limit feed as parsed: the properties the code
    reads, and the others, which the spread [...d] copies. *)
Record SpeedLimitApi := {
  api_lineNo : string;
  api_track : string;
  api_axisStart : string;
  api_axisEnd : string;
  api_other : list (string * string)
}.

(** The record after the conversion of lines 8-12. *)
Record SpeedLimit := {
  lineNo : string;
  track : string;
  axisStart : option Q;
  axisEnd : option Q;
  other : list (string * string)
}.

(** [Number.parseInt(v) / 1000]. *)
Definition km_of_metres (v : string) : option Q :=
  (fun z => inject_Z z / inject_Z 1000)%Q <$> parseInt v.

(** The callback of lines 7-13. *)
Definition toSpeedLimit (d : SpeedLimitApi) : SpeedLimit :=
  {| lineNo := api_lineNo d; track := api_track d;
     axisStart := km_of_metres (api_axisStart d); axisEnd := km_of_metres (api_axisEnd d);
     other := api_other d |}.

(** [_allSpeeds], lines 7-13: the fetch either fails, and the promise
    rejects, or gives the feed, converted. *)
Definition allSpeedsPromise (fetched : outcome (list SpeedLimitApi)) : outcome (list SpeedLimit) :=
  List.map toSpeedLimit <$> fetched.

(** Line 15: [_.groupBy(as, "lineNo")]. *)
Definition allSpeedsByLine (speeds : list SpeedLimit) : gmap string (list SpeedLimit) :=
  groupBy lineNo speeds.

(** Line 55: [Number.parseInt(trainNumber) % 2 === 0]. *)
Definition isTheTrainNorthbound (trainNumber : string) : bool :=
  js_even (parseInt trainNumber).

(** Line 62: the track of the direction. *)
Definition direction_track (northbound : bool) : string :=
  if northbound then "N" else "P".

(** The mileage table [src/mileage.json]: line -> station -> kilometre
    ([null] for a station without a known position). *)
Abbreviation Mileage := (gmap string (gmap string jsval)).

(** A property key: JavaScript converts [null] to "null". *)
Definition js_key (o : option string) : string :=
  match o with Some s => s | None => "null" end.

(** [stationsMileage[line]?.[station]]. *)
Definition stationKM (mileage : Mileage) (ln st : option string) : jsval :=
  match mileage !! js_key ln with
  | Some stations => match stations !! js_key st with Some v => v | None => JUndefined end
  | None => JUndefined
  end.

(** Line 61: the position of the next row's station on the current
    row's line, [undefined] for the last row or a falsy station. *)
Definition nextStationKM (mileage : Mileage) (row : TimetableRow)
    (next : option TimetableRow) : jsval :=
  match next with
  | Some n =>
      match station n with
      | Some s => if String.eqb s "" then JUndefined else stationKM mileage (line row) (Some s)
      | None => JUndefined
      end
  | None => JUndefined
  end.

(** The second filter of lines 62-66. *)
Definition startsBetween (northbound : bool) (cur nxt : jsval) (sl : SpeedLimit) : bool :=
  if is_null cur || is_null nxt then false
  else if northbound
       then js_ltQ (axisStart sl) (to_number cur) && js_ltQ (to_number nxt) (axisStart sl)
       else js_ltQ (to_number cur) (axisStart sl) && js_ltQ (axisStart sl) (to_number nxt).

(** [allSpeedLimitsBetweenStationAndNextStations] for the row at [index]
    of [data], lines 59-66. *)
Definition speedLimitsToNextStation (allSpeeds : gmap string (list SpeedLimit))
    (mileage : Mileage) (northbound : bool) (data : list TimetableRow)
    (index : nat) (row : TimetableRow) : list SpeedLimit :=
  let cur := stationKM mileage (line row) (station row) in
  let nxt := nextStationKM mileage row (data !! S index) in
  match allSpeeds !! js_key (line row) with
  | Some group =>
      List.filter (startsBetween northbound cur nxt)
        (List.filter (fun sl => String.eqb (track sl) (direction_track northbound)) group)
  | None => []
  end.

(** ** Direction *)

(** the direction is the parity of the parsed train number: even is
    northbound (track "N"); odd, and a number that does not parse
    ([NaN]), is not. *)
Theorem isTheTrainNorthbound_parity trainNumber :
  isTheTrainNorthbound trainNumber =
  match parseInt trainNumber with Some z => Z.even z | None => false end.
Proof. apply js_even_spec. Qed.

(** ** Selection *)

(** A kilometre position is known when the lookup gives a number. *)
Definition known_km (v : jsval) : bool :=
  match v with JNumber _ => true | _ => false end.

Lemma startsBetween_unknown northbound cur nxt sl :
  known_km cur = false \/ known_km nxt = false -> startsBetween northbound cur nxt sl = false.
Proof.
  unfold startsBetween. intros H.
  destruct cur, nxt, northbound, (axisStart sl); simpl in *;
    rewrite ?andb_false_r; by destruct H.
Qed.

Lemma startsBetween_true northbound cur nxt sl :
  startsBetween northbound cur nxt sl = true <->
  exists c n a, cur = JNumber c /\ nxt = JNumber n /\ axisStart sl = Some a /\
    (if northbound then (n < a /\ a < c)%Q else (c < a /\ a < n)%Q).
Proof.
  split.
  - intros H. destruct (known_km cur) eqn:Hc, (known_km nxt) eqn:Hn;
      try (rewrite startsBetween_unknown in H by auto; done).
    destruct cur as [| |c], nxt as [| |n]; try done.
    unfold startsBetween in H. simpl in H.
    destruct (axisStart sl) as [a|]; [|by destruct northbound].
    exists c, n, a. split_and!; [done..|].
    destruct northbound; apply andb_prop in H as [H1 H2];
      apply js_ltQ_Some in H1, H2; tauto.
  - intros (c & n & a & -> & -> & Ha & Hord). unfold startsBetween. simpl. rewrite Ha.
    destruct northbound; destruct Hord as [H1 H2]; apply andb_true_intro;
      split; by apply js_ltQ_Some.
Qed.

Section Overlay.
Context (allSpeeds : gmap string (list SpeedLimit)) (mileage : Mileage)
        (northbound : bool) (data : list TimetableRow) (index : nat) (row : TimetableRow).

Let cur := stationKM mileage (line row) (station row).
Let nxt := nextStationKM mileage row (data !! S index).

(** C9: a segment with an end of unknown geometry (no entry, or a
    [null] entry, in the mileage table; or no next row) gets no speed
    limit. *)
Theorem speedLimitsToNextStation_unknown_geometry :
  known_km cur = false \/ known_km nxt = false ->
  speedLimitsToNextStation allSpeeds mileage northbound data index row = [].
Proof.
  intros Hk. unfold speedLimitsToNextStation.
  destruct (allSpeeds !! js_key (line row)); [|done].
  apply filter_none. intros sl _. by apply startsBetween_unknown.
Qed.

(** C8: a record is attached to the row exactly when it is in the
    group of the row's line, on the direction's track, and its
    [axisStart] lies strictly between the two known positions in the
    direction of travel (descending northbound, ascending otherwise). *)
Theorem speedLimitsToNextStation_spec sl :
  In sl (speedLimitsToNextStation allSpeeds mileage northbound data index row) <->
  (exists group, allSpeeds !! js_key (line row) = Some group /\ In sl group) /\
  track sl = direction_track northbound /\
  exists c n a, cur = JNumber c /\ nxt = JNumber n /\ axisStart sl = Some a /\
    (if northbound then (n < a /\ a < c)%Q else (c < a /\ a < n)%Q).
Proof.
  unfold speedLimitsToNextStation. fold cur nxt.
  destruct (allSpeeds !! js_key (line row)) as [group|].
  - rewrite !List.filter_In, String.eqb_eq, startsBetween_true.
    split; [intros [[Hin Ht] Hs]; eauto | intros [(? & [= <-] & Hin) [Ht Hs]]; auto].
  - simpl. split; [done|]. by intros [(? & ? & _) _].
Qed.
End Overlay.

(** C30: the speed limits attached to a row are the records of the
    converted feed, in the feed's order, that are on the row's line and
    the direction's track and start strictly inside the segment. *)
Theorem speedLimitsToNextStation_feed_order (feed : list SpeedLimit) mileage northbound
    (data : list TimetableRow) index row :
  speedLimitsToNextStation (allSpeedsByLine feed) mileage northbound data index row =
  List.filter (fun sl => String.eqb (lineNo sl) (js_key (line row)) &&
                         String.eqb (track sl) (direction_track northbound) &&
                         startsBetween northbound (stationKM mileage (line row) (station row))
                           (nextStationKM mileage row (data !! S index)) sl) feed.
Proof.
  rewrite <-!filter_filter_andb. unfold speedLimitsToNextStation, allSpeedsByLine.
  pose proof (groupBy_lookup_default lineNo feed (js_key (line row))) as H.
  unfold with_key in H. destruct (groupBy lineNo feed !! _); simpl in H; by rewrite <-H.
Qed.

(** ** Scenarios *)

Definition speed_record (ln tr start : string) : SpeedLimitApi :=
  {| api_lineNo := ln; api_track := tr; api_axisStart := start; api_axisEnd := "0";
     api_other := [] |}.

(** Line 1: station X at kilometre 50, station Y at kilometre 40,
    station W with a [null] position. *)
Definition mileageB : Mileage :=
  {[ "1" := <[ "X" := JNumber 50 ]> (<[ "Y" := JNumber 40 ]> {[ "W" := JNull ]}) ]}.

Definition feedB : list SpeedLimitApi :=
  [speed_record "1" "N" "45000"; speed_record "1" "N" "55000"; speed_record "1" "P" "45000";
   speed_record "2" "N" "45000"].

(** scenario B: train 1234 is even, hence on track "N"; from X (50)
    to Y (40) the record starting at 45000 m is attached, the one at
    55000 m, the one on track "P" and the one on line 2 are not. *)
Example speedLimits_scenarioB :
  isTheTrainNorthbound "1234" = true /\
  speedLimitsToNextStation (allSpeedsByLine (List.map toSpeedLimit feedB)) mileageB
    (isTheTrainNorthbound "1234")
    [sample_row "X" "08:00" None; sample_row "Y" "08:10" None] 0 (sample_row "X" "08:00" None) =
  [toSpeedLimit (speed_record "1" "N" "45000")].
Proof. split; vm_compute; reflexivity. Qed.

(** Scenario D: the segment from X to a station Z that the table does
    not list, and the segment from X to W, whose position is [null], get
    no speed limit. *)
Lemma speedLimitsToNextStation_unknown_geometry_witness :
  speedLimitsToNextStation (allSpeedsByLine (List.map toSpeedLimit feedB)) mileageB true
    [sample_row "X" "08:00" None; sample_row "Z" "08:10" None] 0 (sample_row "X" "08:00" None) = [] /\
  speedLimitsToNextStation (allSpeedsByLine (List.map toSpeedLimit feedB)) mileageB true
    [sample_row "X" "08:00" None; sample_row "W" "08:10" None] 0 (sample_row "X" "08:00" None) = [].
Proof.
  split; apply speedLimitsToNextStation_unknown_geometry; right; vm_compute; reflexivity.
Defined.
