(* ===== verification/Timetable.v ===== *)
(** * [getTrainTimetable] (train.ts lines 14-78)

    The whole function: await the grouped speed-limit feed (line 15),
    await the rows of the train (lines 16-33), repair the order of a run
    that crosses midnight (lines 41-53, [Chronology]), build each output
    entry from its row (lines 57-73: [hourSort], [km], the speed limits
    of [SpeedLimits], and [_.omit] of five time fields), and sort the
    entries by [hourSort] with [_.sortBy] (line 77). *)

From S2P Require Import Prelude JsRuntime Lodash Chronology SpeedLimits.
From Stdlib Require Import Sorted.

(** Line 69: [HH:MM] read as the number [HHMM]; a missing or empty
    [scheduled_arrival_hour] gives 0. *)
Definition computeHourSort (scheduled_arrival_hour : option string) : option Z :=
  match scheduled_arrival_hour with
  | Some h =>
      if String.eqb h "" then Some 0%Z
      else let parts := split_on ":" h in
           parseInt (template_at parts 0 +:+ template_at parts 1)
  | None => Some 0%Z
  end.

(** An entry of the result: the row without the properties [_.omit]
    removes, with [hourSort], [km] and [speedLimitsToNextStation]. *)
Module Entry.
Record t := {
  train_number : string;
  scheduled_arrival_hour : option string;
  station : option string;
  layover : option string;
  scheduled_departure_hour : option string;
  train_type : option string;
  line : option string;
  cacheDate : option string;
  stop_type : option string;
  hourSort : option Z;
  km : jsval;
  speedLimitsToNextStation : list SpeedLimit
}.
End Entry.

(** The callback of lines 57-73 on the row at [index] of [data]. *)
Definition withDynamicData (allSpeeds : gmap string (list SpeedLimit)) (mileage : Mileage)
    (northbound : bool) (data : list TimetableRow) (index : nat) (row : TimetableRow) : Entry.t :=
  {| Entry.train_number := train_number row;
     Entry.scheduled_arrival_hour := scheduled_arrival_hour row;
     Entry.station := station row;
     Entry.layover := layover row;
     Entry.scheduled_departure_hour := scheduled_departure_hour row;
     Entry.train_type := train_type row;
     Entry.line := line row;
     Entry.cacheDate := cacheDate row;
     Entry.stop_type := stop_type row;
     Entry.hourSort := computeHourSort (scheduled_arrival_hour row);
     Entry.km := stationKM mileage (line row) (station row);
     Entry.speedLimitsToNextStation :=
       speedLimitsToNextStation allSpeeds mileage northbound data index row |}.

(** [getTrainTimetable(trainNumber)]: [speedsFetch] is the settled
    [_allSpeeds] fetch, [query] the settled query of lines 16-33. *)
Definition getTrainTimetable (speedsFetch : outcome (list SpeedLimitApi)) (mileage : Mileage)
    (trainNumber : string) (query : outcome (list TimetableRow)) : outcome (list Entry.t) :=
  speeds ← allSpeedsPromise speedsFetch;
  let allSpeeds := allSpeedsByLine speeds in
  rows ← query;
  data ← reorderAfterMidnight rows;
  let northbound := isTheTrainNorthbound trainNumber in
  let entries := imap (withDynamicData allSpeeds mileage northbound data) data in
  mret (sortBy Entry.hourSort lodash_le entries).

(** ** hourSort *)

(** C27: [hourSort] of an [HH:MM] arrival of decimal digits is the number
    [HHMM]: "08:05" is 805. *)
Theorem computeHourSort_HHMM h1 h2 m1 m2 :
  is_digit h1 = true -> is_digit h2 = true -> is_digit m1 = true -> is_digit m2 = true ->
  computeHourSort (Some (String h1 (String h2 (String ":" (String m1 (String m2 EmptyString)))))) =
  Some (1000 * digit h1 + 100 * digit h2 + 10 * digit m1 + digit m2)%Z.
Proof.
  intros H1 H2 H3 H4.
  assert (Hsep : forall c, is_digit c = true -> Ascii.eqb c ":"%char = false).
  { intros c Hc. destruct (Ascii.eqb_spec c ":"%char) as [->|]; [done|done]. }
  unfold computeHourSort. simpl. rewrite (Hsep h1), (Hsep h2), (Hsep m1), (Hsep m2) by done.
  simpl. rewrite parseInt_decimal by (simpl; rewrite ?H1, ?H2, ?H3, ?H4; done).
  simpl. f_equal. lia.
Qed.

(** ** The whole function *)

Section GetTrainTimetable.
Context (speedsFetch : outcome (list SpeedLimitApi)) (mileage : Mileage) (trainNumber : string).

Lemma getTrainTimetable_Ok query es :
  getTrainTimetable speedsFetch mileage trainNumber query = Ok es ->
  exists speeds rows data,
    speedsFetch = Ok speeds /\ query = Ok rows /\ reorderAfterMidnight rows = Ok data /\
    es = sortBy Entry.hourSort lodash_le
           (imap (withDynamicData (allSpeedsByLine (List.map toSpeedLimit speeds)) mileage
                    (isTheTrainNorthbound trainNumber) data) data).
Proof.
  unfold getTrainTimetable, allSpeedsPromise.
  destruct speedsFetch as [speeds|]; [|done]. simpl.
  destruct query as [rows|]; [|done]. simpl.
  destruct (reorderAfterMidnight rows) as [data|] eqn:Hd; [|done].
  intros [= <-]. eauto 7.
Qed.

(** C24: the result has one entry per row of the query. *)
Theorem getTrainTimetable_length rows es :
  getTrainTimetable speedsFetch mileage trainNumber (Ok rows) = Ok es -> length es = length rows.
Proof.
  intros (speeds & rows' & data & _ & [= <-] & Hd & ->)%getTrainTimetable_Ok.
  rewrite (Permutation_length (sortBy_perm _ _ _)), length_imap.
  by apply reorderAfterMidnight_length.
Qed.

(** C25: the entries are sorted by [hourSort] in lodash's order. *)
Theorem getTrainTimetable_sorted query es :
  getTrainTimetable speedsFetch mileage trainNumber query = Ok es ->
  StronglySorted (key_le Entry.hourSort lodash_le) es.
Proof.
  intros (speeds & rows & data & _ & _ & _ & ->)%getTrainTimetable_Ok.
  apply sortBy_strongly_sorted; eauto with edr.
Qed.

(** C3: the sequence of [hourSort] keys returned is the sorted sequence
    of the keys of the query's rows: the midnight repair, which runs
    before the sort, has no effect on where a key ends up. *)
Theorem getTrainTimetable_keys_ignore_repair rows es :
  getTrainTimetable speedsFetch mileage trainNumber (Ok rows) = Ok es ->
  List.map Entry.hourSort es =
  sortBy (fun k => k) lodash_le (List.map (fun r => computeHourSort (scheduled_arrival_hour r)) rows).
Proof.
  intros (speeds & rows' & data & _ & [= <-] & Hd & ->)%getTrainTimetable_Ok.
  rewrite sortBy_map_key, (map_imap_index_free _ _ (fun r => computeHourSort (scheduled_arrival_hour r)))
    by done.
  apply sortBy_keys_perm; eauto with edr.
  apply Permutation_map. by apply reorderAfterMidnight_perm.
Qed.
End GetTrainTimetable.

(** C23: [getTrainTimetable] rejects exactly when the speed-limit fetch
    failed (the promise of line 7 rejects, for every call), when the
    query failed, or when the train has fewer than two rows (the
    [TypeError] of line 41); there is no fallback feed here. *)
Theorem getTrainTimetable_throws_iff speedsFetch mileage trainNumber query :
  (exists e, getTrainTimetable speedsFetch mileage trainNumber query = Throw e) <->
  (exists e, speedsFetch = Throw e) \/ (exists e, query = Throw e) \/
  (exists rows, query = Ok rows /\ length rows < 2).
Proof.
  unfold getTrainTimetable, allSpeedsPromise.
  destruct speedsFetch as [speeds|e]; simpl; autorewrite with edr_rw.
  2: { split; intros _; eauto. }
  destruct query as [rows|e]; simpl; autorewrite with edr_rw.
  2: { split; intros _; eauto. }
  split.
  - intros Hth. right; right. exists rows. split; [done|].
    apply reorderAfterMidnight_throws_iff.
    destruct (reorderAfterMidnight rows); simpl in Hth; [by destruct Hth | eauto].
  - intros [[e He]|[[e He]|(rows' & [= <-] & Hlen)]]; [done|done|].
    apply reorderAfterMidnight_throws_iff in Hlen as [e He]. rewrite He. eauto.
Qed.

(** end to end, scenario A: the repair moves 00:10 after 23:50, and
    the sort of line 77 moves it back in front: the train is returned as
    00:10, 08:00, 23:50, the same order as without the repair. *)
Example getTrainTimetable_scenarioA :
  List.map Entry.station <$> getTrainTimetable (Ok feedB) mileageB "1234" (Ok scenarioA) =
    Ok [Some "B"; Some "A"; Some "C"] /\
  List.map Entry.station <$> getTrainTimetable (Ok feedB) mileageB "1234" (Ok scenarioA_query) =
    Ok [Some "B"; Some "A"; Some "C"].
Proof. split; vm_compute; reflexivity. Qed.


(** The entries returned for scenario A. *)
Definition scenarioA_entries : list Entry.t :=
  match getTrainTimetable (Ok feedB) mileageB "1234" (Ok scenarioA) with
  | Ok es => es
  | Throw _ => []
  end.

Lemma computeHourSort_HHMM_witness :
  computeHourSort (Some "08:05") = Some 805%Z.
Proof.
  apply (computeHourSort_HHMM "0" "8" "0" "5"); vm_compute; reflexivity.
Defined.

Lemma getTrainTimetable_length_witness : length scenarioA_entries = 3.
Proof.
  apply (getTrainTimetable_length (Ok feedB) mileageB "1234" scenarioA).
  vm_compute. reflexivity.
Defined.

Lemma getTrainTimetable_sorted_witness :
  StronglySorted (key_le Entry.hourSort lodash_le) scenarioA_entries.
Proof.
  apply (getTrainTimetable_sorted (Ok feedB) mileageB "1234" (Ok scenarioA)).
  vm_compute. reflexivity.
Defined.

Lemma getTrainTimetable_keys_ignore_repair_witness :
  List.map Entry.hourSort scenarioA_entries = [Some 10%Z; Some 800%Z; Some 2350%Z].
Proof.
  rewrite (getTrainTimetable_keys_ignore_repair (Ok feedB) mileageB "1234" scenarioA);
    vm_compute; reflexivity.
Defined.

(** C26: [_.sortBy] is specified, not simulated: the entries returned
    are a permutation of the entries lines 57-73 build from the repaired
    rows, keep, for every key, the order those entries had, and are the
    only list sorted by [hourSort] that does; so every stable sort the
    engine may run returns them, and a sort that reorders tied entries
    does not. *)
Theorem getTrainTimetable_stable_sort speedsFetch mileage trainNumber query es :
  getTrainTimetable speedsFetch mileage trainNumber query = Ok es ->
  exists speeds rows data,
    speedsFetch = Ok speeds /\ query = Ok rows /\ reorderAfterMidnight rows = Ok data /\
    let entries := imap (withDynamicData (allSpeedsByLine (List.map toSpeedLimit speeds)) mileage
                           (isTheTrainNorthbound trainNumber) data) data in
    es ≡ₚ entries /\
    (forall k, same_key Entry.hourSort lodash_le k es = same_key Entry.hourSort lodash_le k entries) /\
    forall es', StronglySorted (key_le Entry.hourSort lodash_le) es' ->
      (forall k, same_key Entry.hourSort lodash_le k es' = same_key Entry.hourSort lodash_le k entries) ->
      es' = es.
Proof.
  intros (speeds & rows & data & Hs & Hq & Hd & ->)%getTrainTimetable_Ok.
  exists speeds, rows, data. split_and!; [done..|]. cbv zeta.
  split_and!; [apply sortBy_perm | intros k; apply sortBy_stable; eauto with edr |].
  intros es' Hsort Hk. apply sortBy_unique; eauto with edr.
Qed.

Lemma getTrainTimetable_stable_sort_witness :
  exists speeds rows data,
    Ok feedB = Ok speeds /\ Ok scenarioA = Ok rows /\ reorderAfterMidnight rows = Ok data /\
    let entries := imap (withDynamicData (allSpeedsByLine (List.map toSpeedLimit speeds)) mileageB
                           (isTheTrainNorthbound "1234") data) data in
    scenarioA_entries ≡ₚ entries /\
    (forall k, same_key Entry.hourSort lodash_le k scenarioA_entries =
               same_key Entry.hourSort lodash_le k entries) /\
    forall es', StronglySorted (key_le Entry.hourSort lodash_le) es' ->
      (forall k, same_key Entry.hourSort lodash_le k es' = same_key Entry.hourSort lodash_le k entries) ->
      es' = scenarioA_entries.
Proof.
  apply (getTrainTimetable_stable_sort (Ok feedB) mileageB "1234" (Ok scenarioA)).
  vm_compute. reflexivity.
Defined.



