(* ===== verification/Merge.v ===== *)
(** * The merge of the official feed and the EDR feed (index.ts lines 68-118)

    For one server, [updateTimetable] maps every train of the official
    ("detailed") timetable to a merged train: the first EDR train with
    the same [trainNoLocal] gives the train-level annotations, and, for
    the stop at position [i] of the official timetable, the first EDR
    stop whose [indexOfPoint] is [i] gives the stop-level annotations.
    The official stop is spread, [indexOfPoint] is set to [i], and
    [stopTypeNumber] is derived from the lower-cased [stopType].

    The shapes of the two feeds ([IAllServerTrain], [IEdrServerTrain])
    are declared in interface files that are not in the repository; the
    records below hold the properties the code reads or writes, the
    other properties of an official train or stop travel in [other]. *)

From S2P Require Import Prelude JsRuntime.

(** A stop of the official feed. *)
Record OfficialRow := {
  stopType : option string;
  indexOfPoint : Z;
  row_other : list (string * string)
}.

(** A train of the official feed ([IAllServerTrain]). *)
Record OfficialTrain := {
  trainNoLocal : string;
  timetable : list OfficialRow;
  train_other : list (string * string)
}.

(** A stop of the EDR feed. *)
Record EdrRow := {
  edr_indexOfPoint : Z;
  edr_actualArrivalTime : option string;
  edr_actualDepartureTime : option string;
  edr_confirmedBy : option string;
  edr_isActive : option bool;
  edr_isConfirmed : option bool;
  edr_isStoped : option bool;
  edr_leftTrack : option bool;
  edr_plannedStop : option bool;
  edr_stopDuration : option Z;
  edr_timetableType : option string
}.

(** A train of the EDR feed ([IEdrServerTrain]). *)
Record EdrTrain := {
  edr_trainNoLocal : string;
  edr_usageNotes : option string;
  edr_ownNotes : option string;
  edr_isQualityTracked : option bool;
  edr_isOverGauge : option bool;
  edr_isOverWeight : option bool;
  edr_isOtherExceptional : option bool;
  edr_isHighRiskCargo : option bool;
  edr_isDangerousCargo : option bool;
  edr_carrierName : option string;
  edr_timetable : option (list EdrRow)
}.

(** A merged stop ([IFullTrainTimetable]): the official stop (with its
    [indexOfPoint] replaced) and the annotations, [None] being unset. *)
Record FullTrainTimetable := {
  official : OfficialRow;
  actualArrivalTime : option string;
  actualDepartureTime : option string;
  confirmedBy : option string;
  isActive : option bool;
  isConfirmed : option bool;
  isStoped : option bool;
  leftTrack : option bool;
  plannedStop : option bool;
  stopDuration : option Z;
  stopTypeNumber : Z;
  timetableType : option string
}.

(** A merged train ([IFullServerTrain]). *)
Record FullServerTrain := {
  full_trainNoLocal : string;
  full_train_other : list (string * string);
  usageNotes : option string;
  ownNotes : option string;
  isQualityTracked : option bool;
  isOverGauge : option bool;
  isOverWeight : option bool;
  isOtherExceptional : option bool;
  isHighRiskCargo : option bool;
  isDangerousCargo : option bool;
  carrierName : option string;
  full_timetable : list FullTrainTimetable
}.

(** Lines 92-98: the stop type, lower-cased, as 0, 1 or 2. *)
Definition stopTypeNumberOf (st : option string) : Z :=
  match toLowerCase <$> st with
  | Some s =>
      if String.eqb s "commercialstop" then 1%Z
      else if String.eqb s "noncommercialstop" then 2%Z
      else 0%Z
  | None => 0%Z
  end.

(** Line 105 on the spread official stop. *)
Definition withIndexOfPoint (row : OfficialRow) (i : nat) : OfficialRow :=
  {| stopType := stopType row; indexOfPoint := Z.of_nat i; row_other := row_other row |}.

(** Lines 89-91: [edrEntry?.timetable?.find(r => r.indexOfPoint === i)]. *)
Definition edrTimetableEntry (edrEntry : option EdrTrain) (i : nat) : option EdrRow :=
  (edrEntry ≫= edr_timetable) ≫= js_find (fun er => Z.eqb (edr_indexOfPoint er) (Z.of_nat i)).

(** The callback of lines 88-115, for the official stop at [i]. *)
Definition mergeRow (edrEntry : option EdrTrain) (i : nat) (row : OfficialRow) : FullTrainTimetable :=
  let e := edrTimetableEntry edrEntry i in
  {| official := withIndexOfPoint row i;
     actualArrivalTime := e ≫= edr_actualArrivalTime;
     actualDepartureTime := e ≫= edr_actualDepartureTime;
     confirmedBy := e ≫= edr_confirmedBy;
     isActive := e ≫= edr_isActive;
     isConfirmed := e ≫= edr_isConfirmed;
     isStoped := e ≫= edr_isStoped;
     leftTrack := e ≫= edr_leftTrack;
     plannedStop := e ≫= edr_plannedStop;
     stopDuration := e ≫= edr_stopDuration;
     stopTypeNumber := stopTypeNumberOf (stopType row);
     timetableType := e ≫= edr_timetableType |}.

(** Lines 73-75: the first EDR train with the same [trainNoLocal]. *)
Definition edrEntryFor (edrTimetable : list EdrTrain) (entry : OfficialTrain) : option EdrTrain :=
  js_find (fun e => String.eqb (edr_trainNoLocal e) (trainNoLocal entry)) edrTimetable.

(** The callback of lines 72-117. *)
Definition mergeTrain (edrTimetable : list EdrTrain) (entry : OfficialTrain) : FullServerTrain :=
  let edrEntry := edrEntryFor edrTimetable entry in
  {| full_trainNoLocal := trainNoLocal entry;
     full_train_other := train_other entry;
     usageNotes := edrEntry ≫= edr_usageNotes;
     ownNotes := edrEntry ≫= edr_ownNotes;
     isQualityTracked := edrEntry ≫= edr_isQualityTracked;
     isOverGauge := edrEntry ≫= edr_isOverGauge;
     isOverWeight := edrEntry ≫= edr_isOverWeight;
     isOtherExceptional := edrEntry ≫= edr_isOtherExceptional;
     isHighRiskCargo := edrEntry ≫= edr_isHighRiskCargo;
     isDangerousCargo := edrEntry ≫= edr_isDangerousCargo;
     carrierName := edrEntry ≫= edr_carrierName;
     full_timetable := imap (mergeRow edrEntry) (timetable entry) |}.

(** [finalTimetable], lines 71-118. *)
Definition finalTimetable (detailedTimetable : list OfficialTrain) (edrTimetable : list EdrTrain)
    : list FullServerTrain :=
  List.map (mergeTrain edrTimetable) detailedTimetable.

(** ** Properties of the merge *)

(** The stop-level annotations of a merged stop are all unset. *)
Definition annotations_unset (m : FullTrainTimetable) : Prop :=
  actualArrivalTime m = None /\ actualDepartureTime m = None /\ confirmedBy m = None /\
  isActive m = None /\ isConfirmed m = None /\ isStoped m = None /\ leftTrack m = None /\
  plannedStop m = None /\ stopDuration m = None /\ timetableType m = None.

(** The stop-level annotations of a merged stop are those of [er]. *)
Definition annotations_from (m : FullTrainTimetable) (er : EdrRow) : Prop :=
  actualArrivalTime m = edr_actualArrivalTime er /\
  actualDepartureTime m = edr_actualDepartureTime er /\ confirmedBy m = edr_confirmedBy er /\
  isActive m = edr_isActive er /\ isConfirmed m = edr_isConfirmed er /\
  isStoped m = edr_isStoped er /\ leftTrack m = edr_leftTrack er /\
  plannedStop m = edr_plannedStop er /\ stopDuration m = edr_stopDuration er /\
  timetableType m = edr_timetableType er.

(** C20: the merge keeps the trains of the official feed, in order, and
    the stops of each: one merged stop per official stop. *)
Theorem finalTimetable_shape detailed edr n t :
  detailed !! n = Some t ->
  exists f, finalTimetable detailed edr !! n = Some f /\
    full_trainNoLocal f = trainNoLocal t /\ length (full_timetable f) = length (timetable t).
Proof.
  intros Ht. exists (mergeTrain edr t). unfold finalTimetable.
  rewrite list_lookup_fmap_Some. split_and!; [eauto|done|apply length_imap].
Qed.

(** C21: the merged stops are renumbered densely: the stop at position [i]
    has [indexOfPoint] [i], whatever the official feed said. *)
Theorem mergeTrain_indexOfPoint edr t :
  List.map (fun m => indexOfPoint (official m)) (full_timetable (mergeTrain edr t)) =
  List.map Z.of_nat (seq 0 (length (timetable t))).
Proof.
  simpl. generalize (edrEntryFor edr t) as e. intros e.
  assert (H : forall k, List.map (fun m => indexOfPoint (official m)) (imap (fun i => mergeRow e (k + i)) (timetable t)) =
                    List.map Z.of_nat (seq k (length (timetable t)))).
  { induction (timetable t) as [|r rs IH]; intros k; simpl; [done|].
    rewrite Nat.add_0_r. f_equal. rewrite <-IH.
    f_equal. apply imap_ext. intros i x _. simpl. by rewrite Nat.add_succ_r. }
  apply (H 0).
Qed.

(** C22: [stopTypeNumber] does not depend on the annotations, and
    classifies [stopType] ignoring letter case: 1 exactly for a spelling
    of "commercialstop" (such as "CommercialStop"), 2 exactly for a
    spelling of "noncommercialstop", 0 for any other value and for a
    missing [stopType]. *)
Theorem mergeRow_stopTypeNumber e e' i r :
  stopTypeNumber (mergeRow e i r) = stopTypeNumber (mergeRow e' i r) /\
  (stopTypeNumber (mergeRow e i r) = 1%Z <->
     exists s, stopType r = Some s /\ toLowerCase s = "commercialstop") /\
  (stopTypeNumber (mergeRow e i r) = 2%Z <->
     exists s, stopType r = Some s /\ toLowerCase s = "noncommercialstop") /\
  (stopTypeNumber (mergeRow e i r) = 0%Z <->
     forall s, stopType r = Some s ->
       toLowerCase s <> "commercialstop" /\ toLowerCase s <> "noncommercialstop").
Proof.
  simpl. unfold stopTypeNumberOf. destruct (stopType r) as [s|]; simpl.
  - destruct (String.eqb_spec (toLowerCase s) "commercialstop") as [E1|E1];
      [|destruct (String.eqb_spec (toLowerCase s) "noncommercialstop") as [E2|E2]];
      split_and!; try done; split; try done;
      try (intros (? & [= <-] & ?); congruence);
      try (intros H; destruct (H s eq_refl); congruence);
      try (intros _; eexists; split; done);
      try (intros _ ? [= <-]; done).
  - split_and!; try done; split; try done; by intros (? & ? & _).
Qed.


(** C13: the EDR stop joined with the official stop at position [i] is the
    first EDR stop of the first EDR train with the same [trainNoLocal]
    whose [indexOfPoint] is [i] (the position, not the official stop's
    own [indexOfPoint]), and every stop-level annotation comes from it. *)
Theorem mergeRow_matched edr t i er :
  (exists e pre post, edrEntryFor edr t = Some e /\ edr_timetable e = Some (pre ++ er :: post) /\
     edr_indexOfPoint er = Z.of_nat i /\
     Forall (fun x => edr_indexOfPoint x <> Z.of_nat i) pre) ->
  forall r, timetable t !! i = Some r ->
  exists m, full_timetable (mergeTrain edr t) !! i = Some m /\
    official m = withIndexOfPoint r i /\ annotations_from m er.
Proof.
  intros (e & pre & post & He & Ht & Hi & Hpre) r Hr.
  assert (Hm : edrTimetableEntry (edrEntryFor edr t) i = Some er).
  { unfold edrTimetableEntry. rewrite He. simpl. rewrite Ht. simpl.
    apply js_find_Some. exists pre, post. split_and!; [done|by apply Z.eqb_eq|].
    rewrite List.Forall_forall in Hpre |- *. intros x Hx. apply Z.eqb_neq. by apply Hpre. }
  eexists. simpl. rewrite list_lookup_imap, Hr. split; [done|].
  unfold mergeRow. rewrite Hm. unfold annotations_from. simpl. by split_and!.
Qed.

(** C14: a train the EDR feed does not have (scenario C) is merged with
    every annotation unset, at the train level and at every stop. *)
Theorem mergeTrain_unmatched edr t :
  Forall (fun e => edr_trainNoLocal e <> trainNoLocal t) edr ->
  usageNotes (mergeTrain edr t) = None /\ ownNotes (mergeTrain edr t) = None /\
  isQualityTracked (mergeTrain edr t) = None /\ isOverGauge (mergeTrain edr t) = None /\
  isOverWeight (mergeTrain edr t) = None /\ isOtherExceptional (mergeTrain edr t) = None /\
  isHighRiskCargo (mergeTrain edr t) = None /\ isDangerousCargo (mergeTrain edr t) = None /\
  carrierName (mergeTrain edr t) = None /\
  Forall annotations_unset (full_timetable (mergeTrain edr t)).
Proof.
  intros Hnone.
  assert (He : edrEntryFor edr t = None).
  { apply js_find_None. rewrite List.Forall_forall in Hnone |- *. intros x Hx.
    apply String.eqb_neq. by apply Hnone. }
  unfold mergeTrain. rewrite He. simpl. split_and!; try done.
  apply Forall_lookup_2. intros i m. rewrite list_lookup_imap.
  destruct (timetable t !! i); simpl; [intros [= <-]|done].
  unfold annotations_unset. simpl. by split_and!.
Qed.

(** ** Scenarios *)

Definition official_stop (st : option string) (idx : Z) : OfficialRow :=
  {| stopType := st; indexOfPoint := idx; row_other := [] |}.

Definition edr_stop (idx : Z) (arr : string) : EdrRow :=
  {| edr_indexOfPoint := idx; edr_actualArrivalTime := Some arr; edr_actualDepartureTime := None;
     edr_confirmedBy := None; edr_isActive := Some true; edr_isConfirmed := Some false;
     edr_isStoped := None; edr_leftTrack := Some false; edr_plannedStop := None;
     edr_stopDuration := Some 2%Z; edr_timetableType := None |}.

(** Train 1234 of the official feed: its stops carry [indexOfPoint] 7
    and 8, not their positions. *)
Definition train1234 : OfficialTrain :=
  {| trainNoLocal := "1234";
     timetable := [official_stop (Some "CommercialStop") 7; official_stop None 8];
     train_other := [] |}.

Definition train4321 : OfficialTrain :=
  {| trainNoLocal := "4321"; timetable := [official_stop (Some "NONCOMMERCIALSTOP") 0];
     train_other := [] |}.

Definition edr1234 : EdrTrain :=
  {| edr_trainNoLocal := "1234"; edr_usageNotes := Some "note"; edr_ownNotes := None;
     edr_isQualityTracked := Some true; edr_isOverGauge := None; edr_isOverWeight := None;
     edr_isOtherExceptional := None; edr_isHighRiskCargo := None; edr_isDangerousCargo := None;
     edr_carrierName := Some "PKP"; edr_timetable := Some [edr_stop 1 "08:11"; edr_stop 0 "08:01"] |}.

Lemma finalTimetable_shape_witness :
  exists f, finalTimetable [train1234; train4321] [edr1234] !! 1 = Some f /\
    full_trainNoLocal f = "4321" /\ length (full_timetable f) = 1.
Proof. apply (finalTimetable_shape [train1234; train4321] [edr1234] 1 train4321). reflexivity. Defined.

(** The official stop at position 0 (whose own [indexOfPoint] is 7) is
    joined with the EDR stop of [indexOfPoint] 0, the second of the EDR
    list. *)
Lemma mergeRow_matched_witness :
  exists m, full_timetable (mergeTrain [edr1234] train1234) !! 0 = Some m /\
    official m = withIndexOfPoint (official_stop (Some "CommercialStop") 7) 0 /\
    annotations_from m (edr_stop 0 "08:01").
Proof.
  apply mergeRow_matched; [|reflexivity].
  exists edr1234, [edr_stop 1 "08:11"], []. split_and!; [reflexivity..|].
  repeat constructor. simpl. lia.
Defined.

(** Scenario C: train 4321 is only in the official feed. *)
Lemma mergeTrain_unmatched_witness :
  carrierName (mergeTrain [edr1234] train4321) = None /\
  Forall annotations_unset (full_timetable (mergeTrain [edr1234] train4321)) /\
  List.map stopTypeNumber (full_timetable (mergeTrain [edr1234] train4321)) = [2%Z].
Proof.
  pose proof (mergeTrain_unmatched [edr1234] train4321) as H.
  destruct H as (_ & _ & _ & _ & _ & _ & _ & _ & Hc & Hs); [repeat constructor; discriminate|].
  split_and!; [done|done|reflexivity].
Defined.

(** A stop of type "NonCommercialStop", whatever EDR data it is merged
    with, has [stopTypeNumber] 2. *)
Lemma mergeRow_stopTypeNumber_witness :
  stopTypeNumber (mergeRow None 0 (official_stop (Some "NonCommercialStop") 0)) = 2%Z.
Proof.
  apply (proj2 (proj1 (proj2 (proj2 (mergeRow_stopTypeNumber None None 0
                                          (official_stop (Some "NonCommercialStop") 0)))))).
  exists "NonCommercialStop". split; [done | vm_compute; reflexivity].
Defined.
