(* ===== verification/Refresh.v ===== *)
(** * The caches of index.ts and the tasks that refresh them

    index.ts keeps two process-wide caches, [completeTrainList] (server
    code -> merged trains of [Merge]) and [speeds] (the converted
    speed-limit feed), both written only by the refresh tasks
    [updateTimetable] (lines 55-122) and [updateSpeedLimits] (lines
    124-136), which the cron jobs of [Schedule] start and which also run
    once at start-up (lines 160-161); [Startup] interleaves them.  The HTTP routes only read the caches.

    The feed clients of [serverController.js] (not in the repository) are
    the interface [FeedClient]: every theorem about the tasks holds for
    any client.  An [await] is where the outcome of a client call enters
    the model; between two [await]s the code runs to completion, so the
    states a reader can observe are the ones after each server's
    assignment ([updateServers_trace]). *)

From S2P Require Import Prelude JsRuntime SpeedLimits Merge.

(** What the refresh tasks need from the feed clients, each call settled
    to a value or a rejection. *)
Class FeedClient := {
  getServerCodeList : outcome (list string);
  getFullTimetable : string -> outcome (list OfficialTrain);
  getEdrTimetable : string -> outcome (list EdrTrain);
  getSpeedLimitsFromSimkol : outcome (list SpeedLimitApi);
  (** [JSON.parse(fs.readFileSync("../speeds.json", "utf8"))] *)
  readBundledSpeeds : outcome (list SpeedLimitApi)
}.

(** The two caches (lines 37-38); [speeds] is [None] until first set. *)
Record State := {
  completeTrainList : gmap string (list FullServerTrain);
  speeds : option (list SpeedLimit)
}.

Definition initialState : State := {| completeTrainList := ∅; speeds := None |}.

(** [ConvertSpeedsApiToInternal] of [helper/speedLimitHelper.js], which
    is not in the repository: the conversion metres -> kilometres of the
    feed's records, as [SpeedLimits.toSpeedLimit] does it. *)
Definition ConvertSpeedsApiToInternal (d : list SpeedLimitApi) : list SpeedLimit :=
  List.map toSpeedLimit d.

Section Tasks.
Context `{FeedClient}.

(** Lines 40-53: the request, logged and rethrown on failure. *)
Definition doRequestOnServer {A} (requestFunction : string -> outcome A) (serverCode : string)
    : outcome A :=
  match requestFunction serverCode with
  | Ok a => Ok a
  | Throw e => Throw e
  end.

(** Lines 64-120 for one server: both requests ([Promise.all]), the
    merge, and the assignment of the server's entry. *)
Definition processServer (ctl : gmap string (list FullServerTrain)) (serverCode : string)
    : outcome (gmap string (list FullServerTrain)) :=
  response1 ← doRequestOnServer getFullTimetable serverCode;
  response2 ← doRequestOnServer getEdrTimetable serverCode;
  mret (<[serverCode := finalTimetable response1 response2]> ctl).

(** The loop of lines 63-121: a rejection leaves the loop, and the
    function, with the entries assigned so far. *)
Fixpoint updateServers (servers : list string) (ctl : gmap string (list FullServerTrain))
    : gmap string (list FullServerTrain) * outcome unit :=
  match servers with
  | [] => (ctl, Ok tt)
  | serverCode :: rest =>
      match processServer ctl serverCode with
      | Ok ctl' => updateServers rest ctl'
      | Throw e => (ctl, Throw e)
      end
  end.

(** The stores the loop goes through, one per completed server. *)
Fixpoint updateServers_trace (servers : list string) (ctl : gmap string (list FullServerTrain))
    : list (gmap string (list FullServerTrain)) :=
  match servers with
  | [] => []
  | serverCode :: rest =>
      match processServer ctl serverCode with
      | Ok ctl' => ctl' :: updateServers_trace rest ctl'
      | Throw _ => []
      end
  end.

(** [updateTimetable], lines 55-122: a failure to list the servers is
    caught and ends the task; a failure of a server's request rejects
    the task's promise. *)
Definition updateTimetable (st : State) : State * outcome unit :=
  match getServerCodeList with
  | Throw _ => (st, Ok tt)
  | Ok serverList =>
      let '(ctl, r) := updateServers serverList (completeTrainList st) in
      ({| completeTrainList := ctl; speeds := speeds st |}, r)
  end.

(** [updateSpeedLimits], lines 124-136: the feed, or else the bundled
    file; a failure to read the file rejects the task's promise. *)
Definition updateSpeedLimits (st : State) : State * outcome unit :=
  match getSpeedLimitsFromSimkol with
  | Ok d => ({| completeTrainList := completeTrainList st;
                speeds := Some (ConvertSpeedsApiToInternal d) |}, Ok tt)
  | Throw _ =>
      match readBundledSpeeds with
      | Ok d => ({| completeTrainList := completeTrainList st;
                    speeds := Some (ConvertSpeedsApiToInternal d) |}, Ok tt)
      | Throw e => (st, Throw e)
      end
  end.
End Tasks.

(** ** One server *)

Section ServerLemmas.
Context `{FeedClient}.

(** The merged trains of one server, when both of its requests
    succeed. *)
Definition fetchServer (serverCode : string) : outcome (list FullServerTrain) :=
  d ← getFullTimetable serverCode;
  e ← getEdrTimetable serverCode;
  mret (finalTimetable d e).

Lemma processServer_fetch ctl serverCode :
  processServer ctl serverCode = (fun v => <[serverCode := v]> ctl) <$> fetchServer serverCode.
Proof.
  unfold processServer, fetchServer, doRequestOnServer.
  destruct (getFullTimetable serverCode), (getEdrTimetable serverCode); done.
Qed.

(** The store after the servers of [pre], all of whose requests
    succeed. *)
Fixpoint assign_fetched (pre : list string) (ctl : gmap string (list FullServerTrain))
    : gmap string (list FullServerTrain) :=
  match pre with
  | [] => ctl
  | s :: rest =>
      assign_fetched rest (match fetchServer s with Ok v => <[s := v]> ctl | Throw _ => ctl end)
  end.

Definition fetch_ok (s : string) : Prop := exists v, fetchServer s = Ok v.

Lemma updateServers_prefix pre rest ctl :
  Forall fetch_ok pre -> updateServers (pre ++ rest) ctl = updateServers rest (assign_fetched pre ctl).
Proof.
  intros Hok. revert ctl. induction Hok as [|s pre [v Hv] _ IH]; intros ctl; simpl; [done|].
  rewrite processServer_fetch, Hv. simpl. by rewrite IH.
Qed.

Lemma assign_fetched_lookup pre ctl x :
  Forall fetch_ok pre ->
  (x ∉ pre -> assign_fetched pre ctl !! x = ctl !! x) /\
  (x ∈ pre -> exists v, fetchServer x = Ok v /\ assign_fetched pre ctl !! x = Some v).
Proof.
  intros Hok. revert ctl. induction Hok as [|s pre [v Hv] _ IH]; intros ctl; simpl.
  - split; [done|]. by intros ?%elem_of_nil.
  - rewrite Hv. destruct (IH (<[s:=v]> ctl)) as [IHout IHin]. split.
    + intros Hx%not_elem_of_cons. rewrite IHout by tauto. apply lookup_insert_ne. naive_solver.
    + intros Hx. destruct (decide (x ∈ pre)) as [Hin|Hout]; [by apply IHin|].
      apply elem_of_cons in Hx as [->|]; [|done]. rewrite IHout by done.
      exists v. by rewrite lookup_insert_eq.
Qed.
End ServerLemmas.

(** ** updateTimetable *)

Section UpdateTimetable.
Context `{FeedClient}.

(** C4: a request failure for server [s] aborts the whole cycle: the
    servers before [s] get their new entry, while [s] and every server
    after it keep their previous entry, even when their own requests
    would succeed; the task's promise rejects. *)
Theorem updateTimetable_abort pre s post st :
  getServerCodeList = Ok (pre ++ s :: post) ->
  Forall fetch_ok pre -> (exists e, fetchServer s = Throw e) ->
  let '(st', r) := updateTimetable st in
  (exists e, r = Throw e) /\ speeds st' = speeds st /\
  (forall x, x ∉ pre -> completeTrainList st' !! x = completeTrainList st !! x) /\
  (forall x, x ∈ pre -> exists v, fetchServer x = Ok v /\ completeTrainList st' !! x = Some v).
Proof.
  intros Hl Hok [e He]. unfold updateTimetable. rewrite Hl, updateServers_prefix by done.
  simpl. rewrite processServer_fetch, He. simpl.
  split_and!; [eauto|done|..]; intros x Hx; by apply assign_fetched_lookup.
Qed.

(** C31: when every request succeeds, every listed server gets its new
    entry and the others keep theirs. *)
Theorem updateTimetable_success servers st :
  getServerCodeList = Ok servers -> Forall fetch_ok servers ->
  let '(st', r) := updateTimetable st in
  r = Ok tt /\ speeds st' = speeds st /\
  (forall x, x ∉ servers -> completeTrainList st' !! x = completeTrainList st !! x) /\
  (forall x, x ∈ servers -> exists v, fetchServer x = Ok v /\ completeTrainList st' !! x = Some v).
Proof.
  intros Hl Hok. unfold updateTimetable. rewrite Hl, <-(app_nil_r servers), updateServers_prefix by done.
  rewrite app_nil_r. simpl. split_and!; [done|done|..]; intros x Hx; by apply assign_fetched_lookup.
Qed.

(** a failure to list the servers is caught: the caches are kept
    and the task resolves. *)
Theorem updateTimetable_no_server_list st e :
  getServerCodeList = Throw e -> updateTimetable st = (st, Ok tt).
Proof. intros Hl. unfold updateTimetable. by rewrite Hl. Qed.

(** C32: every store the loop goes through maps each server either to
    the entry it had before the task or to the complete merge of that
    server's two feeds: no reader sees a partly merged server. *)
Theorem updateServers_trace_snapshot servers ctl :
  Forall (fun c => forall x, c !! x = ctl !! x \/ exists v, fetchServer x = Ok v /\ c !! x = Some v)
    (updateServers_trace servers ctl).
Proof.
  revert ctl. induction servers as [|s rest IH]; intros ctl; simpl; [constructor|].
  rewrite processServer_fetch. destruct (fetchServer s) as [v|] eqn:Hv; simpl; [|constructor].
  assert (Hstep : forall x, <[s:=v]> ctl !! x = ctl !! x \/
                    exists v', fetchServer x = Ok v' /\ <[s:=v]> ctl !! x = Some v').
  { intros x. destruct (decide (s = x)) as [<-|Hne].
    - right. exists v. by rewrite lookup_insert_eq.
    - left. by apply lookup_insert_ne. }
  constructor; [done|]. eapply Forall_impl; [apply IH|]. intros c Hc x.
  destruct (Hc x) as [->|]; [apply Hstep|eauto].
Qed.
End UpdateTimetable.

(** ** updateSpeedLimits *)

Section UpdateSpeedLimits.
Context `{FeedClient}.

(** C33: when [updateSpeedLimits] resolves, [speeds] holds the converted
    feed, or, when the feed failed, the converted bundled file; when it
    rejects (both failed), the caches are unchanged.  The timetable
    cache is never touched. *)
Theorem updateSpeedLimits_fallback st :
  completeTrainList (fst (updateSpeedLimits st)) = completeTrainList st /\
  (snd (updateSpeedLimits st) = Ok tt ->
     exists d, speeds (fst (updateSpeedLimits st)) = Some (ConvertSpeedsApiToInternal d) /\
       (getSpeedLimitsFromSimkol = Ok d \/
        (exists e, getSpeedLimitsFromSimkol = Throw e) /\ readBundledSpeeds = Ok d)) /\
  (forall e, snd (updateSpeedLimits st) = Throw e -> fst (updateSpeedLimits st) = st).
Proof.
  unfold updateSpeedLimits.
  destruct getSpeedLimitsFromSimkol as [d|e]; simpl.
  { split_and!; [done | intros _; exists d; auto | by intros ? [=]]. }
  destruct readBundledSpeeds as [d|e']; simpl.
  { split_and!; [done | intros _; exists d; eauto | by intros ? [=]]. }
  split_and!; [done | by intros [=] | done].
Qed.
End UpdateSpeedLimits.

(** C34: the two tasks write disjoint caches, so they commute: running the
    speed-limit refresh before or after the timetable refresh (as the
    interleaved start-up calls of lines 160-161 may) gives the same
    caches. *)
Theorem refresh_tasks_commute `{FeedClient} st :
  fst (updateTimetable (fst (updateSpeedLimits st))) =
  fst (updateSpeedLimits (fst (updateTimetable st))).
Proof.
  unfold updateTimetable, updateSpeedLimits.
  destruct getServerCodeList as [servers|]; [|done].
  destruct getSpeedLimitsFromSimkol, readBundledSpeeds; simpl;
    destruct (updateServers servers (completeTrainList st)); done.
Qed.

(** ** The caches as a state machine *)

(** The transitions a reader can observe: a server's entry replaced by
    one run of the loop's body, or the speed-limit cache refreshed.
    Each transition has its own settled feed calls ([fc]): the feeds
    change between two refreshes. *)
Inductive refresh_step : State -> State -> Prop :=
  | step_server (fc : FeedClient) st serverCode ctl' :
      @processServer fc (completeTrainList st) serverCode = Ok ctl' ->
      refresh_step st {| completeTrainList := ctl'; speeds := speeds st |}
  | step_speeds (fc : FeedClient) st :
      refresh_step st (fst (@updateSpeedLimits fc st)).

(** The caches only hold complete results: each server's entry is the
    merge of a pair of feeds, and the speed limits a converted feed. *)
Definition cache_wf (st : State) : Prop :=
  (forall s v, completeTrainList st !! s = Some v -> exists d e, v = finalTimetable d e) /\
  (forall l, speeds st = Some l -> exists d, l = ConvertSpeedsApiToInternal d).

(** C35: one run of [updateTimetable] is a sequence of observable
    transitions: its final caches are reachable by [refresh_step]. *)
Theorem updateTimetable_steps `{FeedClient} st :
  rtc refresh_step st (fst (updateTimetable st)).
Proof.
  unfold updateTimetable. destruct getServerCodeList as [servers|]; simpl; [|done].
  destruct st as [ctl sp]. simpl. revert ctl.
  induction servers as [|s rest IH]; intros ctl; simpl; [done|].
  destruct (processServer ctl s) as [ctl'|] eqn:Hp; [|done].
  eapply rtc_l; [by eapply (step_server _ {| completeTrainList := ctl; speeds := sp |}) | apply IH].
Qed.

Lemma refresh_step_wf st st' : cache_wf st -> refresh_step st st' -> cache_wf st'.
Proof.
  intros [Hctl Hsp] Hstep. destruct Hstep as [fc st s ctl' Hp|fc st].
  - rewrite (@processServer_fetch fc) in Hp. unfold fetchServer in Hp.
    destruct (@getFullTimetable fc s) as [d|ex], (@getEdrTimetable fc s) as [ed|ex']; try done.
    simpl in Hp. outcome_inv. subst ctl'. split; [|done]. simpl. intros x v.
    destruct (decide (s = x)) as [<-|Hne].
    + rewrite lookup_insert_eq. intros [= <-]. by exists d, ed.
    + rewrite lookup_insert_ne by done. apply Hctl.
  - unfold updateSpeedLimits. destruct (@getSpeedLimitsFromSimkol fc);
      [|destruct (@readBundledSpeeds fc)]; simpl; split; try done; intros l [= <-]; eauto.
Qed.

Lemma rtc_refresh_wf st st' : rtc refresh_step st st' -> cache_wf st -> cache_wf st'.
Proof.
  induction 1 as [|x y z Hxy _ IH]; [done|]. intros Hx. apply IH. by eapply refresh_step_wf.
Qed.

Lemma initialState_wf : cache_wf initialState.
Proof. split; [intros s v; simpl; by rewrite lookup_empty | done]. Qed.

(** C36: every state the caches reach from start-up is well formed. *)
Theorem reachable_cache_wf st : rtc refresh_step initialState st -> cache_wf st.
Proof. intros Hr. apply (rtc_refresh_wf _ _ Hr), initialState_wf. Qed.

(** What a refresh has published stays published: a server's entry is
    replaced but never removed, and once [speeds] is set it is never
    [undefined] again. *)
Definition cache_grows (st st' : State) : Prop :=
  (forall s, is_Some (completeTrainList st !! s) -> is_Some (completeTrainList st' !! s)) /\
  (is_Some (speeds st) -> is_Some (speeds st')).

#[export] Instance cache_grows_preorder : PreOrder cache_grows.
Proof. split; [by split | intros x y z [H1 H2] [H3 H4]; split; eauto]. Qed.

Lemma refresh_step_grows st st' : refresh_step st st' -> cache_grows st st'.
Proof.
  destruct 1 as [fc st s ctl' Hp|fc st].
  - rewrite (@processServer_fetch fc) in Hp. destruct (@fetchServer fc s) as [v|]; [|done].
    injection Hp as <-. split; [|done]. simpl. intros x Hx.
    destruct (decide (s = x)) as [->|]; [by rewrite lookup_insert_eq | by rewrite lookup_insert_ne].
  - unfold updateSpeedLimits. destruct (@getSpeedLimitsFromSimkol fc);
      [|destruct (@readBundledSpeeds fc)]; split; simpl; done.
Qed.

(** The timetable cache only grows and the speed-limit cache, once set,
    stays set, along every sequence of refreshes. *)
Theorem refresh_monotone st st' : rtc refresh_step st st' -> cache_grows st st'.
Proof.
  induction 1 as [|x y z Hxy _ IH]; [done|]. etrans; [|exact IH]. by apply refresh_step_grows.
Qed.

(** C37: every train a reader can get from the timetable cache has its
    stops numbered densely from 0. *)
Corollary reachable_dense_indexOfPoint st s v t :
  rtc refresh_step initialState st -> completeTrainList st !! s = Some v -> In t v ->
  List.map (fun m => indexOfPoint (official m)) (full_timetable t) =
  List.map Z.of_nat (seq 0 (length (full_timetable t))).
Proof.
  intros Hr Hs Ht. destruct (proj1 (reachable_cache_wf st Hr) s v Hs) as (d & e & ->).
  apply in_map_iff in Ht as (t0 & <- & _).
  rewrite mergeTrain_indexOfPoint. simpl. by rewrite length_imap.
Qed.

(** ** Scenarios *)

(** Three servers; the official feed of "de1" is down; the speed-limit
    feed is down and the bundled file is read. *)
Definition scenarioClient : FeedClient := {|
  getServerCodeList := Ok ["pl1"; "de1"; "en1"];
  getFullTimetable := fun s => if String.eqb s "de1" then Throw (Rejected "503") else Ok [train1234];
  getEdrTimetable := fun _ => Ok [edr1234];
  getSpeedLimitsFromSimkol := Throw (Rejected "timeout");
  readBundledSpeeds := Ok feedB
|}.

(** The failure of "de1" leaves "en1" without a timetable. *)
Lemma updateTimetable_abort_witness :
  let '(st', r) := @updateTimetable scenarioClient initialState in
  (exists e, r = Throw e) /\ speeds st' = speeds initialState /\
  (forall x, x ∉ ["pl1"] -> completeTrainList st' !! x = completeTrainList initialState !! x) /\
  (forall x, x ∈ ["pl1"] -> exists v, @fetchServer scenarioClient x = Ok v /\
                              completeTrainList st' !! x = Some v).
Proof.
  apply (@updateTimetable_abort scenarioClient ["pl1"] "de1" ["en1"] initialState).
  - reflexivity.
  - repeat constructor. eexists. reflexivity.
  - eexists. reflexivity.
Defined.

Lemma updateTimetable_success_witness :
  let client := {| getServerCodeList := Ok ["pl1"; "en1"];
                   getFullTimetable := fun _ => Ok [train1234];
                   getEdrTimetable := fun _ => Ok [edr1234];
                   getSpeedLimitsFromSimkol := Ok feedB; readBundledSpeeds := Ok [] |} in
  let '(st', r) := @updateTimetable client initialState in
  r = Ok tt /\ speeds st' = speeds initialState /\
  (forall x, x ∉ ["pl1"; "en1"] -> completeTrainList st' !! x = completeTrainList initialState !! x) /\
  (forall x, x ∈ ["pl1"; "en1"] -> exists v, @fetchServer client x = Ok v /\
                                    completeTrainList st' !! x = Some v).
Proof.
  intros client. apply (@updateTimetable_success client).
  - reflexivity.
  - repeat constructor; eexists; reflexivity.
Defined.

Lemma updateTimetable_no_server_list_witness :
  let client := {| getServerCodeList := Throw (Rejected "down");
                   getFullTimetable := fun _ => Ok [train1234];
                   getEdrTimetable := fun _ => Ok [edr1234];
                   getSpeedLimitsFromSimkol := Ok feedB; readBundledSpeeds := Ok [] |} in
  @updateTimetable client initialState = (initialState, Ok tt).
Proof. intros client. apply (@updateTimetable_no_server_list client initialState (Rejected "down")). reflexivity. Defined.

(** The state after the scenario's refreshes. *)
Definition scenarioState : State :=
  fst (@updateSpeedLimits scenarioClient (fst (@updateTimetable scenarioClient initialState))).

Lemma scenarioState_reachable : rtc refresh_step initialState scenarioState.
Proof.
  eapply rtc_r; [apply (@updateTimetable_steps scenarioClient) | apply (step_speeds scenarioClient)].
Qed.

Lemma reachable_cache_wf_witness : cache_wf scenarioState.
Proof. apply reachable_cache_wf. apply scenarioState_reachable. Defined.

Lemma reachable_dense_indexOfPoint_witness :
  List.map (fun m => indexOfPoint (official m)) (full_timetable (mergeTrain [edr1234] train1234)) =
  List.map Z.of_nat (seq 0 (length (full_timetable (mergeTrain [edr1234] train1234)))).
Proof.
  apply (reachable_dense_indexOfPoint scenarioState "pl1" [mergeTrain [edr1234] train1234]).
  - apply scenarioState_reachable.
  - vm_compute. reflexivity.
  - by left.
Defined.
