(* ===== verification/Schedule.v ===== *)
(** * The cron schedules of index.ts (lines 138-159)

    Two [Cron.CronJob]s run the refresh tasks: "30 0,8,16 * * *" runs
    [updateTimetable] at 00:30, 08:30 and 16:30, "0 4 * * *" runs
    [updateSpeedLimits] at 04:00, both in Europe/Warsaw time (lines 145
    and 155).  A daily expression "M H * * *" is the record of the
    minutes and hours it lists.  A day is the list of the wall-clock
    minutes it passes through, one per real minute: 1440 on a regular
    day, 1380 on the spring-forward day, 1500 on the fall-back day.  The
    theorems show that the daylight-saving days change no firing, and
    bound, in real minutes, how long a cache can go without a refresh
    being started. *)

From S2P Require Import Prelude.

(** A cron expression "M H * * *": the minutes and the hours it lists. *)
Record DailyCron := { cron_minutes : list nat; cron_hours : list nat }.

(** "30 0,8,16 * * *" *)
Definition cronTimetableUpdater : DailyCron := {| cron_minutes := [30]; cron_hours := [0; 8; 16] |}.

(** "0 4 * * *" *)
Definition cronSpeedLimitUpdater : DailyCron := {| cron_minutes := [0]; cron_hours := [4] |}.

Definition cron_fires (c : DailyCron) (hour minute : nat) : bool :=
  bool_decide (minute ∈ cron_minutes c) && bool_decide (hour ∈ cron_hours c).

(** The (hour, minute) pairs of a day at which the job fires. *)
Definition firing_times (c : DailyCron) : list (nat * nat) :=
  List.filter (fun hm => cron_fires c hm.1 hm.2) (list_prod (seq 0 24) (seq 0 60)).

Definition fires_at (c : DailyCron) (hm : nat * nat) : bool := cron_fires c hm.1 hm.2.

(** ** Days of Europe/Warsaw

    The jobs run in Europe/Warsaw time, where the clock jumps from 02:00
    to 03:00 on the last Sunday of March and from 03:00 back to 02:00 on
    the last Sunday of October.  A job fires at the wall-clock minutes
    that match its expression among those the day passes through. *)
Inductive DayKind := RegularDay | SpringForward | FallBack.

(** The hours of the day's wall clock, in the order they are passed. *)
Definition wall_clock_hours (d : DayKind) : list nat :=
  match d with
  | RegularDay => seq 0 24
  | SpringForward => [0; 1] ++ seq 3 21
  | FallBack => [0; 1; 2; 2] ++ seq 3 21
  end.

(** The wall-clock minutes the day passes through, in order, one per
    real minute. *)
Definition wall_clock_day (d : DayKind) : list (nat * nat) :=
  h ← wall_clock_hours d; (fun m => (h, m)) <$> seq 0 60.

(** The wall-clock times a job fires at on a day of kind [d]. *)
Definition firings_on (c : DailyCron) (d : DayKind) : list (nat * nat) :=
  List.filter (fires_at c) (wall_clock_day d).

(** ** Real time *)

(** Whether the job fires at the [q]-th real minute of a run of days. *)
Definition fires_on (c : DailyCron) (days : list (nat * nat)) (q : nat) : bool :=
  match days !! q with Some hm => fires_at c hm | None => false end.

(** The real minutes, counted from [i], at which the job fires. *)
Fixpoint positions_from (c : DailyCron) (i : nat) (days : list (nat * nat)) : list nat :=
  match days with
  | [] => []
  | hm :: rest => if fires_at c hm then i :: positions_from c (S i) rest else positions_from c (S i) rest
  end.

(** Increasing positions, each at most [B] after the one before, the
    first at most [B] after [prev]. *)
Fixpoint gaps_ok (prev : nat) (P : list nat) (B : nat) : bool :=
  match P with
  | [] => true
  | p :: P' => (prev <? p) && (p - prev <=? B) && gaps_ok p P' B
  end.

(** The longest real time between two timetable refreshes that starts
    on a day of kind [d]: 480 minutes, 540 on the fall-back day, where
    the hour from 02:00 lies between the 00:30 and the 08:30 runs. *)
Definition timetable_staleness (d : DayKind) : nat :=
  match d with FallBack => 540 | _ => 480 end.

(** The longest real time until the next speed-limit refresh, the next
    day being of kind [d']: a day, and an hour more when that day is the
    fall-back day. *)
Definition speed_staleness (d' : DayKind) : nat :=
  match d' with FallBack => 1500 | _ => 1440 end.

(** ** Lemmas *)

Lemma positions_from_spec c i days q :
  q ∈ positions_from c i days -> i <= q /\ fires_on c days (q - i) = true.
Proof.
  revert i. induction days as [|hm days IH]; intros i; simpl; [by intros ?%not_elem_of_nil|].
  unfold fires_on. destruct (fires_at c hm) eqn:Hf.
  - intros [->|Hq]%elem_of_cons; [by rewrite Nat.sub_diag|].
    destruct (IH _ Hq) as [Hi Hfq]. split; [lia|]. by replace (q - i) with (S (q - S i)) by lia.
  - intros Hq. destruct (IH _ Hq) as [Hi Hfq]. split; [lia|]. by replace (q - i) with (S (q - S i)) by lia.
Qed.

(** Consecutive firings at most [B] apart: from every minute before the
    last one, a firing comes within [B] minutes. *)
Lemma gaps_delay (f : nat -> bool) B prev P t :
  gaps_ok prev P B = true -> (forall q, q ∈ P -> f q = true) -> prev <= t ->
  (exists p, p ∈ P /\ t < p) -> exists k, 1 <= k <= B /\ f (t + k) = true.
Proof.
  revert prev. induction P as [|p P IH]; intros prev Hg Hf Ht [p' [Hp' Htp]];
    [by apply not_elem_of_nil in Hp'|].
  simpl in Hg. apply andb_prop in Hg as [[Hlt Hle]%andb_prop Hg].
  apply Nat.ltb_lt in Hlt. apply Nat.leb_le in Hle.
  destruct (decide (t < p)).
  - exists (p - t). split; [lia|]. replace (t + (p - t)) with p by lia. apply Hf, elem_of_cons. by left.
  - apply (IH p); [done | intros q Hq; apply Hf, elem_of_cons; by right | lia |].
    exists p'. apply elem_of_cons in Hp' as [->|Hp']; [lia|done].
Qed.

Lemma fires_on_prefix c l1 l2 q : l1 `prefix_of` l2 -> fires_on c l1 q = true -> fires_on c l2 q = true.
Proof.
  unfold fires_on. destruct (l1 !! q) as [hm|] eqn:Hq; [|done].
  intros Hp. by rewrite (prefix_lookup_Some _ _ _ _ Hq Hp).
Qed.

(** The refresh bound on two consecutive days [d], [d'], checked on the
    firing positions of [d] and the start of [d']. *)
Lemma staleness_from_positions c d d' B t :
  gaps_ok 0 (positions_from c 0 (wall_clock_day d ++ take 301 (wall_clock_day d'))) B = true ->
  existsb (fun p => length (wall_clock_day d) <=? p)
    (positions_from c 0 (wall_clock_day d ++ take 301 (wall_clock_day d'))) = true ->
  t < length (wall_clock_day d) ->
  exists k, 1 <= k <= B /\ fires_on c (wall_clock_day d ++ wall_clock_day d') (t + k) = true.
Proof.
  intros Hg Hex Ht.
  destruct (gaps_delay (fires_on c (wall_clock_day d ++ take 301 (wall_clock_day d'))) B 0 _ t Hg)
    as (k & Hk & Hf); [| lia | |].
  - intros q Hq. apply positions_from_spec in Hq as [_ Hq]. by rewrite Nat.sub_0_r in Hq.
  - apply existsb_exists in Hex as (p & Hp & Hle). apply Nat.leb_le in Hle.
    exists p. split; [by apply list_elem_of_In | lia].
  - exists k. split; [done|]. eapply fires_on_prefix; [|exact Hf].
    apply prefix_app, prefix_take.
Qed.

(** ** The two schedules *)

(** the timetable refresh runs three times a day, at 00:30, 08:30 and
    16:30, and the speed-limit refresh once, at 04:00. *)
Theorem cron_schedules :
  firing_times cronTimetableUpdater = [(0, 30); (8, 30); (16, 30)] /\
  firing_times cronSpeedLimitUpdater = [(4, 0)].
Proof. split; vm_compute; reflexivity. Qed.

(** No firing time lies in the hour the clock skips or repeats: on
    every day, daylight-saving days included, each job fires once at
    each time it lists, in the order of the day. *)
Theorem firings_every_day d :
  firings_on cronTimetableUpdater d = [(0, 30); (8, 30); (16, 30)] /\
  firings_on cronSpeedLimitUpdater d = [(4, 0)].
Proof. destruct d; split; vm_compute; reflexivity. Qed.

(** C19: in real time, from any minute of a day [d] followed by a day
    [d'], a timetable refresh starts within 480 minutes, 540 when [d]
    is the fall-back day, and a speed-limit refresh within 1440
    minutes, 1500 when [d'] is the fall-back day; and the timetable
    bound is reached: some run of [d] is followed by the next one
    exactly that many minutes later (on the fall-back day, the 00:30
    run). *)
Theorem refresh_staleness_bound d d' t :
  t < length (wall_clock_day d) ->
  (exists k, 1 <= k <= timetable_staleness d /\
     fires_on cronTimetableUpdater (wall_clock_day d ++ wall_clock_day d') (t + k) = true) /\
  (exists k, 1 <= k <= speed_staleness d' /\
     fires_on cronSpeedLimitUpdater (wall_clock_day d ++ wall_clock_day d') (t + k) = true) /\
  exists q, fires_on cronTimetableUpdater (wall_clock_day d) q = true /\
    fires_on cronTimetableUpdater (wall_clock_day d) (q + timetable_staleness d) = true /\
    (forall k, 1 <= k < timetable_staleness d ->
       fires_on cronTimetableUpdater (wall_clock_day d) (q + k) = false).
Proof.
  intros Ht. split_and!.
  - apply staleness_from_positions; [destruct d, d'; vm_compute; reflexivity.. | done].
  - apply staleness_from_positions; [destruct d, d'; vm_compute; reflexivity.. | done].
  - exists (match d with FallBack => 30 | RegularDay => 510 | SpringForward => 450 end).
    assert (Hquiet : Forall (fun k => fires_on cronTimetableUpdater (wall_clock_day d)
                                        (match d with FallBack => 30 | RegularDay => 510 | SpringForward => 450 end + k) = false)
                            (seq 1 (timetable_staleness d - 1)))
      by (destruct d; apply (bool_decide_unpack _); vm_compute; reflexivity).
    rewrite Forall_forall in Hquiet.
    split_and!; [destruct d; vm_compute; reflexivity.. |].
    intros k Hk. apply Hquiet, elem_of_seq. lia.
Qed.

(** At 12:00 on a regular day followed by the fall-back day, the next
    timetable refresh is at 16:30 and the next speed-limit refresh at
    04:00 the next day, 1020 real minutes later; on the fall-back day
    the 00:30 run is followed by the next one 540 minutes later. *)
Lemma refresh_staleness_bound_witness :
  ((exists k, 1 <= k <= 480 /\
     fires_on cronTimetableUpdater (wall_clock_day RegularDay ++ wall_clock_day FallBack) (720 + k) = true) /\
   (exists k, 1 <= k <= 1500 /\
     fires_on cronSpeedLimitUpdater (wall_clock_day RegularDay ++ wall_clock_day FallBack) (720 + k) = true) /\
   exists q, fires_on cronTimetableUpdater (wall_clock_day RegularDay) q = true /\
     fires_on cronTimetableUpdater (wall_clock_day RegularDay) (q + 480) = true /\
     (forall k, 1 <= k < 480 -> fires_on cronTimetableUpdater (wall_clock_day RegularDay) (q + k) = false)) /\
  ((exists k, 1 <= k <= 540 /\
     fires_on cronTimetableUpdater (wall_clock_day FallBack ++ wall_clock_day RegularDay) (30 + k) = true) /\
   (exists k, 1 <= k <= 1440 /\
     fires_on cronSpeedLimitUpdater (wall_clock_day FallBack ++ wall_clock_day RegularDay) (30 + k) = true) /\
   exists q, fires_on cronTimetableUpdater (wall_clock_day FallBack) q = true /\
     fires_on cronTimetableUpdater (wall_clock_day FallBack) (q + 540) = true /\
     (forall k, 1 <= k < 540 -> fires_on cronTimetableUpdater (wall_clock_day FallBack) (q + k) = false)).
Proof.
  split.
  - apply (refresh_staleness_bound RegularDay FallBack 720). vm_compute. lia.
  - apply (refresh_staleness_bound FallBack RegularDay 30). vm_compute. lia.
Defined.
