(* ===== verification/Uri.v ===== *)
(** * URI components: [encodeURIComponent] and [decodeURIComponent]

    Express decodes every route parameter with [decodeURIComponent]
    before a handler sees it ([req.params]), and answers 400 when the
    decoding throws a [URIError]; a client builds the paths of index.ts's
    routes with [encodeURIComponent].  Strings are byte strings holding
    UTF-8: the two functions are the ECMAScript algorithms Encode and
    Decode (ECMA-262, 19.2.6) on the UTF-8 octets of the string, with
    the unreserved set of [encodeURIComponent] and the empty reserved set
    of [decodeURIComponent].  The round trip [decode (encode s) = s] holds
    for every string that is valid UTF-8. *)

From S2P Require Import Prelude.

(** The octet of a byte of the string. *)
Definition byte (c : ascii) : nat := Ascii.nat_of_ascii c.

(** uriUnreserved: letters, digits and [- _ . ! ~ * ' ( )]. *)
Definition is_unreserved (c : ascii) : bool :=
  let n := byte c in
  ((48 <=? n) && (n <=? 57)) || ((65 <=? n) && (n <=? 90)) || ((97 <=? n) && (n <=? 122)) ||
  bool_decide (c ∈ ["-"; "_"; "."; "!"; "~"; "*"; "'"; "("; ")"]%char).

(** An upper-case hexadecimal digit. *)
Definition hex_char (n : nat) : ascii :=
  Ascii.ascii_of_nat (if n <? 10 then 48 + n else 55 + n).

Definition hex_value (c : ascii) : option nat :=
  let n := byte c in
  if (48 <=? n) && (n <=? 57) then Some (n - 48)
  else if (65 <=? n) && (n <=? 70) then Some (n - 55)
  else if (97 <=? n) && (n <=? 102) then Some (n - 87)
  else None.

(** The octet written by two hexadecimal digits. *)
Definition hex_byte (h l : ascii) : option nat :=
  hi ← hex_value h; lo ← hex_value l; Some (16 * hi + lo).

(** [%XX] for the octet of [c], then [s]. *)
Definition percent_escape (c : ascii) (s : string) : string :=
  String "%" (String (hex_char (byte c / 16)) (String (hex_char (byte c mod 16)) s)).

(** Encode with uriUnreserved: each octet that is not unreserved is
    escaped. *)
Fixpoint encodeURIComponent (s : string) : string :=
  match s with
  | EmptyString => EmptyString
  | String c r =>
      if is_unreserved c then String c (encodeURIComponent r) else percent_escape c (encodeURIComponent r)
  end.

(** A UTF-8 continuation octet [10xxxxxx]. *)
Definition is_continuation (b : nat) : bool := (128 <=? b) && (b <? 192).

(** The length of the sequence a non-ASCII first octet announces: the
    number of its leading 1 bits, 0 when that is 1 or more than 4. *)
Definition utf8_lead_len (b : nat) : nat :=
  if b <? 192 then 0 else if b <? 224 then 2 else if b <? 240 then 3 else if b <? 248 then 4 else 0.

Definition code_point (octets : list nat) : nat :=
  match octets with
  | [b0; b1] => (b0 mod 32) * 64 + b1 mod 64
  | [b0; b1; b2] => (b0 mod 16) * 4096 + (b1 mod 64) * 64 + b2 mod 64
  | [b0; b1; b2; b3] => (b0 mod 8) * 262144 + (b1 mod 64) * 4096 + (b2 mod 64) * 64 + b3 mod 64
  | _ => 0
  end.

(** The octets are the shortest encoding of a code point that is not a
    surrogate and at most U+10FFFF. *)
Definition utf8_seq_ok (octets : list nat) : bool :=
  let cp := code_point octets in
  match length octets with
  | 2 => 128 <=? cp
  | 3 => (2048 <=? cp) && negb ((55296 <=? cp) && (cp <=? 57343))
  | 4 => (65536 <=? cp) && (cp <=? 1114111)
  | _ => false
  end.

Fixpoint bytes_string (p : list nat) : string :=
  match p with
  | [] => EmptyString
  | b :: p' => String (Ascii.ascii_of_nat b) (bytes_string p')
  end.

(** Decode with the empty reserved set, [None] being a [URIError]:
    [pending] holds the octets read of a multi-octet sequence and [k] the
    number still expected. *)
Fixpoint decode_go (pending : list nat) (k : nat) (s : string) : option string :=
  match s with
  | EmptyString => if k =? 0 then Some EmptyString else None
  | String c rest =>
      if Ascii.eqb c "%" then
        match rest with
        | String h (String l rest') =>
            match hex_byte h l with
            | None => None
            | Some b =>
                match k with
                | 0 =>
                    if b <? 128 then String (Ascii.ascii_of_nat b) <$> decode_go [] 0 rest'
                    else if 2 <=? utf8_lead_len b then decode_go [b] (utf8_lead_len b - 1) rest'
                    else None
                | S k' =>
                    if is_continuation b then
                      if k' =? 0 then
                        if utf8_seq_ok (pending ++ [b])
                        then String.append (bytes_string (pending ++ [b])) <$> decode_go [] 0 rest'
                        else None
                      else decode_go (pending ++ [b]) k' rest'
                    else None
                end
            end
        | _ => None
        end
      else if k =? 0 then String c <$> decode_go [] 0 rest else None
  end.

Definition decodeURIComponent (s : string) : option string := decode_go [] 0 s.

(** The string is valid UTF-8: the checks of [decode_go] on its octets. *)
Fixpoint utf8_valid_go (pending : list nat) (k : nat) (s : string) : bool :=
  match s with
  | EmptyString => k =? 0
  | String c rest =>
      let b := byte c in
      match k with
      | 0 =>
          if b <? 128 then utf8_valid_go [] 0 rest
          else (2 <=? utf8_lead_len b) && utf8_valid_go [b] (utf8_lead_len b - 1) rest
      | S k' =>
          is_continuation b &&
          (if k' =? 0 then utf8_seq_ok (pending ++ [b]) && utf8_valid_go [] 0 rest
           else utf8_valid_go (pending ++ [b]) k' rest)
      end
  end.

Definition utf8_valid (s : string) : bool := utf8_valid_go [] 0 s.

(** ** Octets *)

(** A test that holds for each of the 256 octets holds for every
    character. *)
Lemma forall_bytes (P : ascii -> bool) :
  forallb (fun n => P (Ascii.ascii_of_nat n)) (seq 0 256) = true -> forall c, P c = true.
Proof.
  rewrite forallb_forall. intros H c. rewrite <-(Ascii.ascii_nat_embedding c).
  apply H, in_seq. pose proof (Ascii.nat_ascii_bounded c). lia.
Qed.

Lemma unreserved_ascii c : is_unreserved c = true -> byte c < 128 /\ Ascii.eqb c "%" = false.
Proof.
  intros Hc.
  pose proof (forall_bytes (fun c => implb (is_unreserved c) ((byte c <? 128) && negb (Ascii.eqb c "%")))
                ltac:(vm_compute; reflexivity) c) as H.
  cbv beta in H. rewrite Hc in H. simpl in H. apply andb_prop in H as [H1 H2]. apply Nat.ltb_lt in H1.
  split; [done|]. by destruct (Ascii.eqb c "%").
Qed.

Lemma hex_value_char n : n < 16 -> hex_value (hex_char n) = Some n.
Proof. intros Hn. do 16 (destruct n as [|n]; [reflexivity|]). lia. Qed.

(** The two digits of [percent_escape] read back as the octet. *)
Lemma hex_byte_escape c : hex_byte (hex_char (byte c / 16)) (hex_char (byte c mod 16)) = Some (byte c).
Proof.
  pose proof (Ascii.nat_ascii_bounded c) as Hb. unfold hex_byte, byte in *.
  rewrite !hex_value_char by (apply Nat.Div0.div_lt_upper_bound || apply Nat.mod_upper_bound; lia).
  cbn -[Nat.div Nat.modulo Nat.mul Nat.add]. f_equal. pose proof (Nat.div_mod_eq (Ascii.nat_of_ascii c) 16). lia.
Qed.

Lemma bytes_string_snoc p c rest :
  String.append (bytes_string (p ++ [byte c])) rest = String.append (bytes_string p) (String c rest).
Proof.
  induction p as [|b p IH]; simpl; autorewrite with edr_rw.
  - by rewrite Ascii.ascii_nat_embedding.
  - by rewrite IH.
Qed.

(** ** The round trip *)

Lemma decode_encode_go s p k :
  (k = 0 -> p = []) ->
  decode_go p k (encodeURIComponent s) =
  if utf8_valid_go p k s then Some (String.append (bytes_string p) s) else None.
Proof.
  revert p k. induction s as [|c r IH]; intros p k Hp;
    cbn [encodeURIComponent utf8_valid_go].
  { destruct k; [by rewrite Hp|done]. }
  destruct (is_unreserved c) eqn:Hu.
  - apply unreserved_ascii in Hu as [Hlt Hpct]. cbn [decode_go]. rewrite Hpct.
    apply Nat.ltb_lt in Hlt. destruct k as [|k']; cbn [Nat.eqb].
    + rewrite Hp, Hlt, IH by done. by destruct (utf8_valid_go [] 0 r).
    + unfold is_continuation.
      replace (128 <=? byte c) with false by (symmetry; apply Nat.leb_gt, Nat.ltb_lt, Hlt). done.
  - unfold percent_escape. cbn [decode_go Ascii.eqb Bool.eqb]. rewrite hex_byte_escape.
    destruct k as [|k'].
    + rewrite Hp by done. destruct (byte c <? 128) eqn:Hlt.
      * rewrite IH by done. unfold byte. rewrite Ascii.ascii_nat_embedding.
        by destruct (utf8_valid_go [] 0 r).
      * destruct (2 <=? utf8_lead_len (byte c)) eqn:Hn; [|done]. cbn [andb].
        apply Nat.leb_le in Hn. rewrite IH by lia.
        by rewrite <-(bytes_string_snoc [] c r).
    + destruct (is_continuation (byte c)); cbn [andb]; [|done].
      destruct (k' =? 0) eqn:Hk.
      * destruct (utf8_seq_ok (p ++ [byte c])); cbn [andb]; [|done].
        rewrite IH by done. destruct (utf8_valid_go [] 0 r); [|done].
        by rewrite <-bytes_string_snoc.
      * rewrite IH by (intros ->; discriminate Hk). by rewrite bytes_string_snoc.
Qed.

(** Decoding a valid encoding followed by more text decodes the rest. *)
Lemma ascii_of_byte c : Ascii.ascii_of_nat (byte c) = c.
Proof. apply Ascii.ascii_nat_embedding. Qed.

#[export] Hint Rewrite ascii_of_byte : edr_rw.

(** Close an equation between two [fmap]s of string prefixes. *)
Ltac prefix_eq :=
  rewrite <-?option_fmap_compose; apply option_fmap_ext; intros ?; unfold compose;
  cbn [bytes_string app]; autorewrite with edr_rw; rewrite ?bytes_string_snoc;
  autorewrite with edr_rw; done.

Lemma decode_encode_app_go s t p k :
  (k = 0 -> p = []) -> utf8_valid_go p k s = true ->
  decode_go p k (encodeURIComponent s +:+ t) =
  String.append (String.append (bytes_string p) s) <$> decode_go [] 0 t.
Proof.
  revert p k. induction s as [|c r IH]; intros p k Hp Hv;
    cbn [encodeURIComponent utf8_valid_go] in *.
  { apply Nat.eqb_eq in Hv as ->. rewrite Hp by done. autorewrite with edr_rw.
    by destruct (decode_go [] 0 t). }
  destruct (is_unreserved c) eqn:Hu.
  - apply unreserved_ascii in Hu as [Hlt Hpct]. autorewrite with edr_rw. cbn [decode_go].
    rewrite Hpct. apply Nat.ltb_lt in Hlt. destruct k as [|k'].
    + rewrite Hp by done. rewrite Hlt in Hv. cbn [Nat.eqb]. rewrite IH by done. prefix_eq.
    + unfold is_continuation in Hv.
      replace (128 <=? byte c) with false in Hv by (symmetry; apply Nat.leb_gt, Nat.ltb_lt, Hlt).
      done.
  - unfold percent_escape. autorewrite with edr_rw. cbn [decode_go Ascii.eqb Bool.eqb].
    rewrite hex_byte_escape. destruct k as [|k'].
    + rewrite Hp by done. destruct (byte c <? 128) eqn:Hlt.
      * rewrite IH by done. prefix_eq.
      * apply andb_prop in Hv as [Hn Hv]. rewrite Hn. apply Nat.leb_le in Hn.
        rewrite IH by (lia || done). prefix_eq.
    + apply andb_prop in Hv as [Hc Hv]. rewrite Hc. destruct (k' =? 0) eqn:Hk.
      * apply andb_prop in Hv as [Hs Hv]. rewrite Hs, IH by done. prefix_eq.
      * rewrite IH by first [intros ->; discriminate Hk | done]. prefix_eq.
Qed.

Lemma decode_encode_app s t :
  utf8_valid s = true ->
  decodeURIComponent (encodeURIComponent s +:+ t) = String.append s <$> decodeURIComponent t.
Proof. intros Hv. by apply (decode_encode_app_go s t [] 0). Qed.

(** A character other than [%] decodes as itself. *)
Lemma decode_plain c t :
  Ascii.eqb c "%" = false ->
  decodeURIComponent (String c t) = String c <$> decodeURIComponent t.
Proof. intros Hc. unfold decodeURIComponent. cbn [decode_go]. by rewrite Hc. Qed.

(** ** Characters of an encoding *)

Fixpoint has_char (d : ascii) (s : string) : bool :=
  match s with
  | EmptyString => false
  | String c r => Ascii.eqb c d || has_char d r
  end.

(** An encoding has no [/]: it is one segment of a path. *)
Lemma encode_no_slash s : has_char "/" (encodeURIComponent s) = false.
Proof.
  assert (Hhex : forall n, n < 16 -> Ascii.eqb (hex_char n) "/" = false).
  { intros n Hn. do 16 (destruct n as [|n]; [reflexivity|]). lia. }
  assert (Hun : forall c, implb (is_unreserved c) (negb (Ascii.eqb c "/")) = true).
  { apply forall_bytes. vm_compute. reflexivity. }
  induction s as [|c r IH]; cbn [encodeURIComponent has_char]; [done|].
  destruct (is_unreserved c) eqn:Hu; unfold percent_escape; cbn [has_char].
  - specialize (Hun c). rewrite Hu in Hun. rewrite IH, orb_false_r.
    by destruct (Ascii.eqb c "/").
  - pose proof (Ascii.nat_ascii_bounded c). unfold byte.
    rewrite !Hhex, IH by (apply Nat.Div0.div_lt_upper_bound || apply Nat.mod_upper_bound; lia).
    reflexivity.
Qed.

Lemma encode_nonempty s : s <> "" -> encodeURIComponent s <> "".
Proof. destruct s as [|c r]; [done|]. simpl. by destruct (is_unreserved c). Qed.

(** [decodeURIComponent] undoes [encodeURIComponent] on every valid
    UTF-8 string, and throws a [URIError] on the encoding of any other
    string. *)
Theorem decodeURIComponent_encode s :
  decodeURIComponent (encodeURIComponent s) = if utf8_valid s then Some s else None.
Proof. unfold decodeURIComponent, utf8_valid. by apply decode_encode_go. Qed.

(** Text without [%] decodes as itself. *)
Lemma decode_plain_app l t :
  has_char "%" l = false -> decodeURIComponent (l +:+ t) = String.append l <$> decodeURIComponent t.
Proof.
  induction l as [|c r IH]; intros Hl.
  - autorewrite with edr_rw. by destruct (decodeURIComponent t).
  - cbn [has_char] in Hl. apply orb_false_iff in Hl as [Hc Hr].
    rewrite string_app_cons, decode_plain, IH by done.
    rewrite <-option_fmap_compose. by apply option_fmap_ext.
Qed.
