(* ===== verification/Routes.v ===== *)
(** * The HTTP routes of index.ts (lines 163-207)

    index.ts mounts the middlewares of lines 168-173 and then the routes
    of lines 174-206 on an Express 4 application.  A request is a method
    and the path of its URL.  [dispatch] is what the application does
    with it: the [cors] middleware ends every [OPTIONS] request (its
    preflight answer); otherwise Express tries the route layers in the
    order they were added.  A layer whose path matches (literal segments
    compared case-insensitively, [:name] a non-empty segment, one
    trailing [/] allowed, ["*"] every path) has its parameters decoded
    with [decodeURIComponent]: a [URIError] ends the request with 400
    and no later route is tried; a layer of another method is passed
    over ([HEAD] is served by [GET] routes); no layer left is a 404.
    The handlers are the controllers of dispatchController.js and
    serverController.js (not in the repository), called with what
    index.ts hands them: the request parameters and, for three routes,
    the property [completeTrainList[serverCode]] of the timetable cache
    (and [speeds]), read as JavaScript reads a property of an object
    literal, through [Object.prototype]. *)

From S2P Require Import Prelude JsRuntime Uri SpeedLimits Merge Refresh.

Inductive Method := GET | HEAD | POST | PUT | DELETE | PATCH | OPTIONS.

#[export] Instance Method_eq_dec : EqDecision Method.
Proof. solve_decision. Defined.

(** A segment of a route path: a literal or a parameter [:name]. *)
Inductive Seg := Lit (s : string) | Param (name : string).

(** A route path: ["*"], or ["/seg/seg/..."]. *)
Inductive RoutePath := Star | Segs (segs : list Seg).

(** The handlers of lines 177-206. *)
Inductive Handler :=
  | CorsHandler                           (** [cors(corsConfig)], line 177 *)
  | SendBanner                            (** [res.send("Simrail Community EDR")], lines 178-180 *)
  | ServerController (name : string)      (** a controller given [(req, res)] *)
  | PostTrains                            (** [getTrainsListForPost], lines 186-190 *)
  | DispatchTrains                        (** [dispatchController], lines 191-195 *)
  | TrainTimetable.                       (** [trainTimetableController], lines 196-205 *)

(** Lines 177-206, in the order they are added. *)
Definition routes : list (Method * RoutePath * Handler) := [
  (OPTIONS, Star, CorsHandler);
  (GET, Segs [], SendBanner);
  (GET, Segs [Lit "servers"], ServerController "getServerList");
  (GET, Segs [Lit "server"; Lit "time"; Param "serverCode"], ServerController "getServerTime");
  (GET, Segs [Lit "server"; Lit "tz"; Param "serverCode"], ServerController "getServerTz");
  (GET, Segs [Lit "stations"; Param "serverCode"], ServerController "getStationsList");
  (GET, Segs [Lit "trains"; Param "serverCode"], ServerController "getTrainsList");
  (GET, Segs [Lit "trains"; Param "serverCode"; Param "post"], PostTrains);
  (GET, Segs [Lit "dispatch"; Param "serverCode"; Param "post"], DispatchTrains);
  (GET, Segs [Lit "train"; Param "serverCode"; Param "trainNo"], TrainTimetable);
  (GET, Segs [Lit "steam"; Param "steamId"], ServerController "getPlayer")
].

(** ** Reading a property of the timetable cache *)

(** A property read: an own property, one inherited from
    [Object.prototype], or [undefined]. *)
Inductive JsProp (A : Type) := Own (v : A) | Inherited (name : string) | Absent.
Arguments Own {A} v.
Arguments Inherited {A} name.
Arguments Absent {A}.

(** The properties of [Object.prototype]. *)
Definition object_prototype_keys : list string :=
  ["constructor"; "__defineGetter__"; "__defineSetter__"; "hasOwnProperty";
   "__lookupGetter__"; "__lookupSetter__"; "isPrototypeOf"; "propertyIsEnumerable";
   "toString"; "valueOf"; "__proto__"; "toLocaleString"].

(** [o[k]] for an object literal [o] whose own properties are [o]'s
    entries. *)
Definition js_get {A} (o : gmap string A) (k : string) : JsProp A :=
  match o !! k with
  | Some v => Own v
  | None => if bool_decide (k ∈ object_prototype_keys) then Inherited k else Absent
  end.

(** ** Handlers *)

(** What a request ends in: the call of a handler with what it is
    handed, or an answer of Express itself. *)
Inductive Invocation :=
  | Preflight                                 (** the cors middleware's answer, line 169 *)
  | Banner (body : string)
  | CallController (name : string) (params : list (string * string))
  | CallPostTrains (params : list (string * string)) (trains : JsProp (list FullServerTrain))
  | CallDispatch (params : list (string * string)) (trains : JsProp (list FullServerTrain))
  | CallTrainTimetable (params : list (string * string)) (trains : JsProp (list FullServerTrain))
      (speeds : option (list SpeedLimit))
  | BadRequest                                (** a parameter is not a URI component: 400 *)
  | NotFound.                                 (** no route: 404 *)

(** [req.params[name]]. *)
Fixpoint lookup_param (params : list (string * string)) (name : string) : option string :=
  match params with
  | [] => None
  | (k, v) :: ps => if String.eqb k name then Some v else lookup_param ps name
  end.

(** [req.params.name] as a property key ("undefined" when absent). *)
Definition param_key (params : list (string * string)) (name : string) : string :=
  default "undefined" (lookup_param params name).

(** The handler of a route called on a request with parameters
    [params], with the caches [st] of the moment. *)
Definition invoke (st : State) (h : Handler) (params : list (string * string)) : Invocation :=
  match h with
  | CorsHandler => Preflight
  | SendBanner => Banner "Simrail Community EDR"
  | ServerController name => CallController name params
  | PostTrains => CallPostTrains params (js_get (completeTrainList st) (param_key params "serverCode"))
  | DispatchTrains => CallDispatch params (js_get (completeTrainList st) (param_key params "serverCode"))
  | TrainTimetable =>
      CallTrainTimetable params (js_get (completeTrainList st) (param_key params "serverCode")) (speeds st)
  end.

(** ** Matching a path *)

(** One trailing [/] is allowed ([strict: false]). *)
Definition drop_trailing_slash (parts : list string) : list string :=
  match last parts with
  | Some EmptyString => removelast parts
  | _ => parts
  end.

(** The segments of a path [/a/b/c]. *)
Definition path_segments (path : string) : option (list string) :=
  match path with
  | String c rest => if Ascii.eqb c "/" then Some (drop_trailing_slash (split_on "/" rest)) else None
  | EmptyString => None
  end.

(** The raw (still encoded) parameters of a path matching the segments. *)
Fixpoint match_segs (pat : list Seg) (parts : list string) : option (list (string * string)) :=
  match pat, parts with
  | [], [] => Some []
  | Lit l :: pat', p :: parts' =>
      if String.eqb (toLowerCase p) (toLowerCase l) then match_segs pat' parts' else None
  | Param n :: pat', p :: parts' =>
      if String.eqb p "" then None else (fun ps => (n, p) :: ps) <$> match_segs pat' parts'
  | _, _ => None
  end.

(** The layer's match: ["*"] captures the whole path as parameter 0. *)
Definition match_path (rp : RoutePath) (path : string) : option (list (string * string)) :=
  match rp with
  | Star => Some [("0", path)]
  | Segs pat => path_segments path ≫= match_segs pat
  end.

(** [decode_param]: the empty string is kept, others are decoded. *)
Definition decode_param (v : string) : option string :=
  if String.eqb v "" then Some v else decodeURIComponent v.

Fixpoint decode_params (ps : list (string * string)) : option (list (string * string)) :=
  match ps with
  | [] => Some []
  | (k, v) :: ps' => v' ← decode_param v; rest ← decode_params ps'; Some ((k, v') :: rest)
  end.

(** A route of method [rm] serves a request of method [m]. *)
Definition method_matches (rm m : Method) : bool :=
  bool_decide (rm = m) || (bool_decide (rm = GET) && bool_decide (m = HEAD)).

(** The router's search through the route layers. *)
Fixpoint route_search (st : State) (m : Method) (path : string)
    (rs : list (Method * RoutePath * Handler)) : Invocation :=
  match rs with
  | [] => NotFound
  | (rm, rp, h) :: rs' =>
      match match_path rp path with
      | None => route_search st m path rs'
      | Some raw =>
          match decode_params raw with
          | None => BadRequest
          | Some params => if method_matches rm m then invoke st h params else route_search st m path rs'
          end
      end
  end.

(** A request: the cors middleware (line 169) ends [OPTIONS] requests,
    the others go to the routes. *)
Definition dispatch (st : State) (m : Method) (path : string) : Invocation :=
  if bool_decide (m = OPTIONS) then Preflight else route_search st m path routes.

(** ** Paths built by a client *)

(** The segments of a route's path, its parameters [vs] encoded with
    [encodeURIComponent]. *)
Fixpoint render_parts (pat : list Seg) (vs : list string) : list string :=
  match pat with
  | [] => []
  | Lit l :: pat' => l :: render_parts pat' vs
  | Param _ :: pat' =>
      match vs with
      | v :: vs' => encodeURIComponent v :: render_parts pat' vs'
      | [] => EmptyString :: render_parts pat' []
      end
  end.

(** The parameters the route binds to [vs], each transformed by [f]. *)
Fixpoint bind_params (f : string -> string) (pat : list Seg) (vs : list string) : list (string * string) :=
  match pat with
  | [] => []
  | Lit _ :: pat' => bind_params f pat' vs
  | Param n :: pat' =>
      match vs with
      | v :: vs' => (n, f v) :: bind_params f pat' vs'
      | [] => (n, EmptyString) :: bind_params f pat' []
      end
  end.

Fixpoint param_count (pat : list Seg) : nat :=
  match pat with
  | [] => 0
  | Lit _ :: pat' => param_count pat'
  | Param _ :: pat' => S (param_count pat')
  end.

Fixpoint join_segments (parts : list string) : string :=
  match parts with
  | [] => EmptyString
  | [p] => p
  | p :: ps => p +:+ String "/" (join_segments ps)
  end.

(** The path of a route with the parameters [vs]: [/seg/.../seg]. *)
Definition render (pat : list Seg) (vs : list string) : string :=
  String "/" (join_segments (render_parts pat vs)).

(** The literal segments of a route path are non-empty and hold no [/]
    and no [%]. *)
Definition literals_ok (pat : list Seg) : bool :=
  forallb (fun sg => match sg with
                     | Lit l => negb (String.eqb l "") && negb (has_char "/" l) && negb (has_char "%" l)
                     | Param _ => true
                     end) pat.

(** No path of [q] matches [p]: their lengths differ, or at some
    position both are literals that differ in lower case. *)
Fixpoint segs_disjoint (p q : list Seg) : bool :=
  match p, q with
  | [], [] => false
  | Lit a :: p', Lit b :: q' =>
      negb (String.eqb (toLowerCase b) (toLowerCase a)) || segs_disjoint p' q'
  | _ :: p', _ :: q' => segs_disjoint p' q'
  | _, _ => true
  end.

(** The routes before the [i]th cannot catch a path of it: each is an
    [OPTIONS] ["*"] route or has a disjoint path. *)
Definition earlier_disjoint (r : Method * RoutePath * Handler) (pat : list Seg) : bool :=
  match r with
  | (OPTIONS, Star, _) => true
  | (_, Segs p, _) => segs_disjoint p pat
  | _ => false
  end.

Definition routes_ok : bool :=
  forallb id (imap (fun i r => match r with
                               | (_, Segs pat, _) =>
                                   literals_ok pat && forallb (fun r' => earlier_disjoint r' pat) (take i routes)
                               | _ => true
                               end) routes).

(** ** Splitting a rendered path *)

Lemma split_on_no_char d s : has_char d s = false -> split_on d s = [s].
Proof.
  induction s as [|c r IH]; [done|]. cbn [has_char split_on].
  intros [Hc Hr]%orb_false_iff. by rewrite Hc, IH.
Qed.

Lemma split_on_app_sep d s t :
  has_char d s = false -> split_on d (s +:+ String d t) = s :: split_on d t.
Proof.
  induction s as [|c r IH]; intros Hs.
  - rewrite string_app_nil. cbn [split_on]. by rewrite (proj2 (Ascii.eqb_eq d d) eq_refl).
  - cbn [has_char] in Hs. apply orb_false_iff in Hs as [Hc Hr].
    rewrite string_app_cons. cbn [split_on]. by rewrite Hc, IH.
Qed.

Lemma split_on_join parts :
  parts <> [] -> Forall (fun p => has_char "/" p = false) parts ->
  split_on "/" (join_segments parts) = parts.
Proof.
  induction parts as [|p ps IH]; [done|]. intros _ Hall. apply Forall_cons in Hall as [Hp Hps].
  destruct ps as [|p' ps']; [by apply split_on_no_char|].
  cbn [join_segments]. rewrite split_on_app_sep by done. f_equal. by apply IH.
Qed.

Lemma drop_trailing_slash_id parts :
  Forall (fun p => p <> "") parts -> drop_trailing_slash parts = parts.
Proof.
  unfold drop_trailing_slash. intros Hall. destruct (last parts) as [s|] eqn:Hl; [|done].
  apply last_Some_elem_of in Hl. rewrite Forall_forall in Hall. specialize (Hall s Hl).
  by destruct s.
Qed.

Section Rendered.
Context (pat : list Seg) (vs : list string).
Hypothesis (Hlit : literals_ok pat = true) (Hlen : length vs = param_count pat).

Lemma render_parts_segments :
  Forall (fun v => v <> "") vs ->
  Forall (fun p => has_char "/" p = false /\ p <> "") (render_parts pat vs).
Proof.
  clear -Hlit Hlen. revert vs Hlen. induction pat as [|[l|n] pat' IH]; intros vs Hlen Hvs; [constructor|..];
    simpl in Hlit |- *.
  - apply andb_prop in Hlit as [Hl Hlit]. apply andb_prop in Hl as [[Hne Hs]%andb_prop _].
    constructor; [|by apply IH]. split; [by apply negb_true_iff|].
    intros ->. done.
  - destruct vs as [|v vs']; [done|]. apply Forall_cons in Hvs as [Hv Hvs].
    constructor; [split; [apply encode_no_slash | by apply encode_nonempty]|]. apply IH; auto.
Qed.

Lemma path_segments_render :
  Forall (fun v => v <> "") vs -> path_segments (render pat vs) = Some (render_parts pat vs).
Proof.
  intros Hvs. pose proof (render_parts_segments Hvs) as Hparts.
  unfold path_segments, render. cbn [Ascii.eqb Bool.eqb]. f_equal.
  destruct (render_parts pat vs) as [|p ps] eqn:Hr; [done|].
  rewrite split_on_join by (done || by eapply Forall_impl; [exact Hparts|]; intros ? []).
  apply drop_trailing_slash_id. by eapply Forall_impl; [exact Hparts|]; intros ? [].
Qed.

Lemma match_segs_render :
  Forall (fun v => v <> "") vs ->
  match_segs pat (render_parts pat vs) = Some (bind_params encodeURIComponent pat vs).
Proof.
  clear -Hlit Hlen. revert vs Hlen. induction pat as [|[l|n] pat' IH]; intros vs Hlen Hvs; [done|..];
    simpl in Hlit |- *.
  - apply andb_prop in Hlit as [_ Hlit]. rewrite String.eqb_refl. by apply IH.
  - destruct vs as [|v vs']; [done|]. apply Forall_cons in Hvs as [Hv Hvs].
    destruct (String.eqb_spec (encodeURIComponent v) "") as [He|]; [by apply encode_nonempty in He|].
    rewrite IH by auto. done.
Qed.

Lemma decode_params_render :
  Forall (fun v => v <> "" /\ utf8_valid v = true) vs ->
  decode_params (bind_params encodeURIComponent pat vs) = Some (bind_params id pat vs).
Proof.
  clear -Hlen. revert vs Hlen. induction pat as [|[l|n] pat' IH]; intros vs Hlen Hvs; [done|..];
    simpl in *; [by apply IH|].
  destruct vs as [|v vs']; [done|]. apply Forall_cons in Hvs as [[Hv Hval] Hvs].
  cbn [decode_params]. unfold decode_param. destruct (String.eqb_spec (encodeURIComponent v) "") as [He|];
    [by apply encode_nonempty in He|].
  unfold decodeURIComponent. rewrite (decode_encode_go v [] 0) by done.
  unfold utf8_valid in Hval. rewrite Hval. simpl. rewrite IH by (simpl in Hlen; auto). done.
Qed.
End Rendered.

(** A route whose path is disjoint from [q]'s does not match a path of
    [q]. *)
Lemma match_segs_disjoint p q vs :
  segs_disjoint p q = true -> length vs = param_count q -> match_segs p (render_parts q vs) = None.
Proof.
  revert q vs. induction p as [|a p IH]; intros q vs Hd Hlen.
  - destruct q as [|b q]; [by simpl in Hd|]. destruct b; simpl; [done|]. by destruct vs.
  - destruct q as [|b q]; [by destruct a|]. destruct a as [la|na], b as [lb|nb]; cbn [segs_disjoint render_parts param_count] in *.
    + simpl. destruct (String.eqb (toLowerCase lb) (toLowerCase la)); simpl in Hd; [|done].
      by apply IH.
    + destruct vs as [|v vs']; [done|]. simpl. destruct (String.eqb _ _); [|done].
      apply IH; [done | simpl in Hlen; lia].
    + simpl. destruct (String.eqb lb ""); [done|]. by rewrite IH.
    + destruct vs as [|v vs']; [done|]. simpl. destruct (String.eqb _ ""); [done|].
      rewrite IH; [done|done|simpl in Hlen; lia].
Qed.

(** A rendered path is a URI component sequence: decoding it succeeds. *)
Lemma decode_join parts :
  Forall (fun p => forall t, is_Some (decodeURIComponent t) -> is_Some (decodeURIComponent (p +:+ t))) parts ->
  is_Some (decodeURIComponent (join_segments parts)).
Proof.
  induction parts as [|p ps IH]; intros Hall; [by eexists|]. apply Forall_cons in Hall as [Hp Hps].
  destruct ps as [|p' ps'].
  - cbn [join_segments]. rewrite <-(string_app_nil_r p). apply Hp. by eexists.
  - change (join_segments (p :: p' :: ps')) with (p +:+ String "/" (join_segments (p' :: ps'))).
    apply Hp. rewrite decode_plain by done.
    destruct (IH Hps) as [x ->]. by eexists.
Qed.

Lemma decode_render pat vs :
  literals_ok pat = true -> Forall (fun v => utf8_valid v = true) vs ->
  is_Some (decodeURIComponent (render pat vs)).
Proof.
  intros Hlit Hvs. unfold render. rewrite decode_plain by done.
  destruct (decode_join (render_parts pat vs)) as [x ->]; [|by eexists].
  revert vs Hvs. induction pat as [|[l|n] pat' IH]; intros vs Hvs; simpl in Hlit |- *; [constructor|..].
  - apply andb_prop in Hlit as [Hl Hlit]. apply andb_prop in Hl as [_ Hpct%negb_true_iff].
    constructor; [|by apply IH]. intros t [y Hy]. rewrite decode_plain_app, Hy by done. by eexists.
  - destruct vs as [|v vs'].
    + constructor; [|by apply IH]. intros t Ht. by rewrite string_app_nil.
    + apply Forall_cons in Hvs as [Hv Hvs]. constructor; [|by apply IH].
      intros t [y Hy]. rewrite decode_encode_app, Hy by done. by eexists.
Qed.

(** ** The router's search *)

(** A layer the router passes over: its path does not match, or its
    parameters decode but its method is another one. *)
Definition passes_over (m : Method) (path : string) (r : Method * RoutePath * Handler) : Prop :=
  match_path r.1.2 path = None \/
  exists raw, match_path r.1.2 path = Some raw /\ is_Some (decode_params raw) /\ method_matches r.1.1 m = false.

Lemma route_search_app st m path pre rs :
  Forall (passes_over m path) pre -> route_search st m path (pre ++ rs) = route_search st m path rs.
Proof.
  induction 1 as [|[[rm rp] h] pre Hr _ IH]; [done|]. rewrite <-IH. simpl.
  destruct Hr as [Hn|(raw & Hraw & [params Hp] & Hm)]; simpl in *; [by rewrite Hn|].
  by rewrite Hraw, Hp, Hm.
Qed.

Lemma segs_disjoint_sym p q : segs_disjoint p q = segs_disjoint q p.
Proof.
  revert q. induction p as [|a p IH]; intros q; destruct q as [|b q].
  - done.
  - by destruct b.
  - by destruct a.
  - destruct a as [la|na], b as [lb|nb]; cbn [segs_disjoint]; rewrite IH; [|done..].
    by rewrite String.eqb_sym.
Qed.

(** What [routes_ok] says of the route at [i]. *)
Lemma routes_ok_at i rm pat h :
  routes !! i = Some (rm, Segs pat, h) ->
  literals_ok pat = true /\ Forall (fun r => earlier_disjoint r pat = true) (take i routes).
Proof.
  intros Hi. assert (Hok : routes_ok = true) by (vm_compute; reflexivity).
  unfold routes_ok in Hok. rewrite forallb_forall in Hok.
  match type of Hok with context [imap ?f routes] =>
    assert (Hin : In (f i (rm, Segs pat, h)) (imap f routes))
      by (apply list_elem_of_In, list_elem_of_lookup_2 with i; by rewrite list_lookup_imap, Hi) end.
  apply Hok in Hin. simpl in Hin. apply andb_prop in Hin as [Hlit Hprev].
  split; [done|]. apply Forall_forall. intros r Hr. rewrite forallb_forall in Hprev.
  by apply Hprev, list_elem_of_In.
Qed.

(** Every route before the [i]th passes over the paths of the [i]th. *)
Lemma earlier_routes_pass_over m i rm pat h vs :
  routes !! i = Some (rm, Segs pat, h) -> m <> OPTIONS ->
  length vs = param_count pat -> Forall (fun v => v <> "" /\ utf8_valid v = true) vs ->
  Forall (passes_over m (render pat vs)) (take i routes).
Proof.
  intros Hi Hopt Hlen Hvs. destruct (routes_ok_at _ _ _ _ Hi) as [Hlit Hprev].
  assert (Hne : Forall (fun v => v <> "") vs) by (eapply Forall_impl; [exact Hvs|]; by intros ? []).
  eapply Forall_impl; [exact Hprev|]. intros [[rm' rp'] h'] Hd. unfold passes_over. simpl.
  destruct rp' as [|p]; destruct rm'; try done.
  1: { right. exists [("0", render pat vs)]. split; [done|]. split.
       - cbn [decode_params]. unfold decode_param. simpl.
         destruct (decode_render pat vs) as [x ->];
           [done | by eapply Forall_impl; [exact Hvs|]; intros ? [] | by eexists].
       - unfold method_matches. rewrite !bool_decide_false by congruence. done. }
  all: left; cbn [match_path fst snd]; rewrite path_segments_render by done; simpl;
    by apply match_segs_disjoint.
Qed.

(** The route at [i] serves its rendered paths. *)
Lemma dispatch_render st m i rm pat h vs :
  routes !! i = Some (rm, Segs pat, h) -> method_matches rm m = true -> m <> OPTIONS ->
  length vs = param_count pat -> Forall (fun v => v <> "" /\ utf8_valid v = true) vs ->
  dispatch st m (render pat vs) = invoke st h (bind_params id pat vs).
Proof.
  intros Hi Hm Hopt Hlen Hvs. destruct (routes_ok_at _ _ _ _ Hi) as [Hlit _].
  assert (Hne : Forall (fun v => v <> "") vs) by (eapply Forall_impl; [exact Hvs|]; by intros ? []).
  unfold dispatch. rewrite bool_decide_false by done.
  rewrite <-(take_drop_middle routes i _ Hi), route_search_app
    by (eapply earlier_routes_pass_over; eauto).
  cbn [route_search match_path]. rewrite path_segments_render by done. simpl.
  rewrite match_segs_render, decode_params_render by done. by rewrite Hm.
Qed.

(** Two distinct [Segs] routes of the table have disjoint paths. *)
Lemma routes_disjoint i j rm p h rm' q h' :
  i <> j -> routes !! i = Some (rm, Segs p, h) -> routes !! j = Some (rm', Segs q, h') ->
  segs_disjoint q p = true.
Proof.
  assert (Hed : forall rm0 p0 h0 q0, earlier_disjoint (rm0, Segs p0, h0) q0 = segs_disjoint p0 q0)
    by (intros []; done).
  intros Hij Hi Hj. destruct (decide (j < i)) as [Hlt|Hge].
  - destruct (routes_ok_at _ _ _ _ Hi) as [_ Hprev].
    assert (Hx : take i routes !! j = Some (rm', Segs q, h')) by (rewrite lookup_take_lt by lia; exact Hj).
    pose proof (Forall_lookup_1 _ _ _ _ Hprev Hx) as Hd. cbv beta in Hd. by rewrite Hed in Hd.
  - destruct (routes_ok_at _ _ _ _ Hj) as [_ Hprev].
    assert (Hx : take j routes !! i = Some (rm, Segs p, h)) by (rewrite lookup_take_lt by lia; exact Hi).
    pose proof (Forall_lookup_1 _ _ _ _ Hprev Hx) as Hd. cbv beta in Hd. rewrite Hed in Hd.
    by rewrite segs_disjoint_sym.
Qed.

(** ** Routing *)

(** C6: every route of lines 178-206 serves the path a client builds for
    it with [encodeURIComponent], for any non-empty UTF-8 parameters
    (station names with spaces and diacritics included): its handler is
    called with exactly those parameters, decoded, and with the caches
    of the moment; and no other route's path matches that path. *)
Theorem dispatch_route st m i rm pat h vs :
  routes !! i = Some (rm, Segs pat, h) -> method_matches rm m = true -> m <> OPTIONS ->
  length vs = param_count pat -> Forall (fun v => v <> "" /\ utf8_valid v = true) vs ->
  dispatch st m (render pat vs) = invoke st h (bind_params id pat vs) /\
  (forall j rm' pat' h', j <> i -> routes !! j = Some (rm', Segs pat', h') ->
     match_path (Segs pat') (render pat vs) = None).
Proof.
  intros Hi Hm Hopt Hlen Hvs. split; [by eapply dispatch_render|].
  intros j rm' pat' h' Hji Hj. destruct (routes_ok_at _ _ _ _ Hi) as [Hlit _].
  cbn [match_path]. rewrite path_segments_render
    by (done || by eapply Forall_impl; [exact Hvs|]; intros ? []).
  simpl. apply match_segs_disjoint; [|done]. apply (routes_disjoint i j rm pat h rm' pat' h'); [congruence|done|done].
Qed.

(** C15: the routes that read the timetable cache read it as a JavaScript
    object: a server code that is the name of a property of
    [Object.prototype] ("constructor", "toString", "__proto__", ...) and
    has no entry of its own hands the controller that inherited property
    instead of [undefined]. *)
Theorem dispatch_inherited_key st k v :
  k ∈ object_prototype_keys -> completeTrainList st !! k = None -> v <> "" -> utf8_valid v = true ->
  dispatch st GET (render [Lit "trains"; Param "serverCode"; Param "post"] [k; v]) =
    CallPostTrains [("serverCode", k); ("post", v)] (Inherited k) /\
  dispatch st GET (render [Lit "dispatch"; Param "serverCode"; Param "post"] [k; v]) =
    CallDispatch [("serverCode", k); ("post", v)] (Inherited k) /\
  dispatch st GET (render [Lit "train"; Param "serverCode"; Param "trainNo"] [k; v]) =
    CallTrainTimetable [("serverCode", k); ("trainNo", v)] (Inherited k) (speeds st).
Proof.
  intros Hk Hst Hv Hval.
  assert (Hkv : k <> "" /\ utf8_valid k = true).
  { assert (Hall : Forall (fun k => k <> "" /\ utf8_valid k = true) object_prototype_keys)
      by (repeat constructor; vm_compute; done).
    rewrite Forall_forall in Hall. by apply Hall. }
  assert (Hvs : Forall (fun v => v <> "" /\ utf8_valid v = true) [k; v]) by (repeat constructor; tauto).
  assert (Hget : js_get (completeTrainList st) k = Inherited k).
  { unfold js_get. rewrite Hst. by rewrite bool_decide_true. }
  split_and!; [erewrite (dispatch_render _ _ 7) | erewrite (dispatch_render _ _ 8)
    | erewrite (dispatch_render _ _ 9)]; try done; simpl; unfold param_key; simpl; by rewrite Hget.
Qed.

(** C16: because of the ["*"] path of line 177, Express decodes the whole
    path of every request that is not [OPTIONS] before any [GET] route is
    tried: a path with an escape that is not UTF-8 ("G%F3ra", a station
    name in Latin-1) or a stray [%] anywhere is answered 400, even where
    no route would match it. *)
Theorem dispatch_malformed st m path :
  m <> OPTIONS -> path <> "" -> decodeURIComponent path = None -> dispatch st m path = BadRequest.
Proof.
  intros Hopt Hne Hdec. unfold dispatch. rewrite bool_decide_false by done.
  cbn [routes route_search match_path decode_params]. unfold decode_param.
  destruct (String.eqb_spec path ""); [done|]. by rewrite Hdec.
Qed.

(** ** Requests *)

Lemma dispatch_route_witness :
  dispatch initialState GET
    (render [Lit "trains"; Param "serverCode"; Param "post"] ["pl1"; "Góra Włodowska"]) =
    invoke initialState PostTrains
      (bind_params id [Lit "trains"; Param "serverCode"; Param "post"] ["pl1"; "Góra Włodowska"]) /\
  (forall j rm' pat' h', j <> 7 -> routes !! j = Some (rm', Segs pat', h') ->
     match_path (Segs pat')
       (render [Lit "trains"; Param "serverCode"; Param "post"] ["pl1"; "Góra Włodowska"]) = None).
Proof.
  refine (dispatch_route initialState GET 7 GET [Lit "trains"; Param "serverCode"; Param "post"]
            PostTrains ["pl1"; "Góra Włodowska"] _ _ _ _ _).
  - reflexivity.
  - reflexivity.
  - discriminate.
  - reflexivity.
  - repeat constructor; vm_compute; done.
Defined.

Lemma dispatch_inherited_key_witness :
  dispatch initialState GET (render [Lit "trains"; Param "serverCode"; Param "post"] ["constructor"; "1234"]) =
    CallPostTrains [("serverCode", "constructor"); ("post", "1234")] (Inherited "constructor") /\
  dispatch initialState GET (render [Lit "dispatch"; Param "serverCode"; Param "post"] ["constructor"; "1234"]) =
    CallDispatch [("serverCode", "constructor"); ("post", "1234")] (Inherited "constructor") /\
  dispatch initialState GET (render [Lit "train"; Param "serverCode"; Param "trainNo"] ["constructor"; "1234"]) =
    CallTrainTimetable [("serverCode", "constructor"); ("trainNo", "1234")] (Inherited "constructor")
      (speeds initialState).
Proof.
  refine (dispatch_inherited_key initialState "constructor" "1234" _ _ _ _).
  - by left.
  - reflexivity.
  - discriminate.
  - reflexivity.
Defined.

Lemma dispatch_malformed_witness : dispatch initialState GET "/trains/pl1/G%F3ra" = BadRequest.
Proof.
  refine (dispatch_malformed initialState GET "/trains/pl1/G%F3ra" _ _ _);
    [discriminate | discriminate | vm_compute; reflexivity].
Defined.
