(* ===== verification/Startup.v ===== *)
(** * The refresh tasks as interleaved asynchronous tasks

    [updateTimetable] and [updateSpeedLimits] are [async] functions that
    index.ts starts without awaiting them: at start-up (lines 160-161,
    the speed-limit task first) and from the cron jobs (lines 138-156).
    A task runs until an [await] and is resumed when the awaited promise
    settles, in an order the network decides.  A [Config] is the two
    caches and the started tasks, each at the [await] it is suspended at
    ([TimetablePc], [SpeedPc]) with the settled outcomes of its own feed
    calls; [resume] runs one task from its [await] to the next one, and
    [cfg_step] resumes any task: every interleaving of the resumptions is
    a run of [cfg_step].  [sys_step] also starts new tasks, as the cron
    jobs do. *)

From S2P Require Import Prelude Merge SpeedLimits Refresh.

(** Where a run of [updateTimetable] is suspended. *)
Inductive TimetablePc :=
  | TT_listing                       (** at [await getServerCodeList()], line 56 *)
  | TT_server (rest : list string)   (** at the loop's [await Promise.all], line 64, [rest] to do *)
  | TT_done (r : outcome unit).      (** settled *)

(** Where a run of [updateSpeedLimits] is suspended. *)
Inductive SpeedPc :=
  | SP_fetching                      (** at [await getSpeedLimitsFromSimkol()], line 126 *)
  | SP_done (r : outcome unit).

(** A started task, with the settled feed calls it will see. *)
Inductive Task :=
  | TimetableTask (fc : FeedClient) (pc : TimetablePc)
  | SpeedTask (fc : FeedClient) (pc : SpeedPc).

Record Config := { cfg_state : State; cfg_tasks : list Task }.

(** Resume a task at its [await] and run it to its next [await] or to its
    end; [None] for a settled task.  Between the server list and the first
    server, and after the last server, nothing is written: those
    resumptions only move the task on. *)
Definition resume (st : State) (t : Task) : option (State * Task) :=
  match t with
  | TimetableTask fc TT_listing =>
      Some (st, TimetableTask fc (match @getServerCodeList fc with
                                  | Ok serverList => TT_server serverList
                                  | Throw _ => TT_done (Ok tt)
                                  end))
  | TimetableTask fc (TT_server []) => Some (st, TimetableTask fc (TT_done (Ok tt)))
  | TimetableTask fc (TT_server (serverCode :: rest)) =>
      match @processServer fc (completeTrainList st) serverCode with
      | Ok ctl' => Some ({| completeTrainList := ctl'; speeds := speeds st |},
                         TimetableTask fc (TT_server rest))
      | Throw e => Some (st, TimetableTask fc (TT_done (Throw e)))
      end
  | SpeedTask fc SP_fetching =>
      let '(st', r) := @updateSpeedLimits fc st in Some (st', SpeedTask fc (SP_done r))
  | _ => None
  end.

(** One resumption of one of the started tasks. *)
Inductive cfg_step : Config -> Config -> Prop :=
  | cfg_resume c i t st' t' :
      cfg_tasks c !! i = Some t -> resume (cfg_state c) t = Some (st', t') ->
      cfg_step c {| cfg_state := st'; cfg_tasks := <[i := t']> (cfg_tasks c) |}.

(** A resumption, or a cron job starting a task. *)
Inductive sys_step : Config -> Config -> Prop :=
  | sys_run c c' : cfg_step c c' -> sys_step c c'
  | sys_start_timetable c fc :
      sys_step c {| cfg_state := cfg_state c; cfg_tasks := cfg_tasks c ++ [TimetableTask fc TT_listing] |}
  | sys_start_speeds c fc :
      sys_step c {| cfg_state := cfg_state c; cfg_tasks := cfg_tasks c ++ [SpeedTask fc SP_fetching] |}.

(** Lines 160-161: [updateSpeedLimits()] then [updateTimetable()], both
    suspended at their first [await], on the empty caches. *)
Definition startup (fc1 fc2 : FeedClient) : Config :=
  {| cfg_state := initialState; cfg_tasks := [SpeedTask fc1 SP_fetching; TimetableTask fc2 TT_listing] |}.

Definition task_done (t : Task) : bool :=
  match t with
  | TimetableTask _ (TT_done _) | SpeedTask _ (SP_done _) => true
  | _ => false
  end.

Definition all_done (c : Config) : bool := forallb task_done (cfg_tasks c).

(** The resumptions a task has left. *)
Definition task_measure (t : Task) : nat :=
  match t with
  | TimetableTask fc TT_listing =>
      match @getServerCodeList fc with Ok l => 2 + length l | Throw _ => 1 end
  | TimetableTask _ (TT_server rest) => 1 + length rest
  | SpeedTask _ SP_fetching => 1
  | _ => 0
  end.

Definition cfg_measure (c : Config) : nat := sum_list_with task_measure (cfg_tasks c).

(** What the rest of a timetable task computes, from the timetable
    cache it resumes on: the functions of [Refresh]. *)
Definition tt_result (fc : FeedClient) (pc : TimetablePc) (ctl : gmap string (list FullServerTrain))
    : gmap string (list FullServerTrain) * outcome unit :=
  match pc with
  | TT_listing => match @getServerCodeList fc with
                  | Ok serverList => @updateServers fc serverList ctl
                  | Throw _ => (ctl, Ok tt)
                  end
  | TT_server rest => @updateServers fc rest ctl
  | TT_done r => (ctl, r)
  end.

(** What the rest of a speed-limit task computes, from the speed-limit
    cache it resumes on. *)
Definition sp_result (fc : FeedClient) (pc : SpeedPc) (sp : option (list SpeedLimit))
    : option (list SpeedLimit) * outcome unit :=
  match pc with
  | SP_fetching =>
      let st' := @updateSpeedLimits fc {| completeTrainList := ∅; speeds := sp |} in
      (speeds (fst st'), snd st')
  | SP_done r => (sp, r)
  end.

(** Resume the task at position [i], if it can resume: the
    executable [cfg_step]. *)
Definition step_at (c : Config) (i : nat) : option Config :=
  t ← cfg_tasks c !! i;
  '(st', t') ← resume (cfg_state c) t;
  Some {| cfg_state := st'; cfg_tasks := <[i := t']> (cfg_tasks c) |}.

(** Resume the tasks in the order [order] gives, each resumption
    possible. *)
Fixpoint run_schedule (order : list nat) (c : Config) : option Config :=
  match order with
  | [] => Some c
  | i :: rest => step_at c i ≫= run_schedule rest
  end.

(** ** One resumption *)

Lemma updateSpeedLimits_sp_result `{fc : FeedClient} st :
  updateSpeedLimits st =
  ({| completeTrainList := completeTrainList st; speeds := (sp_result fc SP_fetching (speeds st)).1 |},
   (sp_result fc SP_fetching (speeds st)).2).
Proof.
  destruct st as [ctl sp]. unfold sp_result, updateSpeedLimits. simpl.
  destruct getSpeedLimitsFromSimkol; [done|]. by destruct readBundledSpeeds.
Qed.

Lemma updateTimetable_tt_result `{fc : FeedClient} st :
  updateTimetable st =
  ({| completeTrainList := (tt_result fc TT_listing (completeTrainList st)).1; speeds := speeds st |},
   (tt_result fc TT_listing (completeTrainList st)).2).
Proof.
  destruct st as [ctl sp]. unfold updateTimetable. simpl.
  destruct getServerCodeList as [serverList|]; [|done]. by destruct updateServers.
Qed.

(** A timetable task only writes the timetable cache, does what its
    functional definition does, and has one resumption less to go. *)
Lemma resume_timetable fc pc st st' t' :
  resume st (TimetableTask fc pc) = Some (st', t') ->
  exists pc', t' = TimetableTask fc pc' /\ speeds st' = speeds st /\
    tt_result fc pc' (completeTrainList st') = tt_result fc pc (completeTrainList st) /\
    task_measure t' < task_measure (TimetableTask fc pc).
Proof.
  destruct pc as [|[|s rest]|r]; simpl; [| |destruct processServer as [ctl'|e] eqn:Hp|done];
    [destruct getServerCodeList as [l|e]| | |]; intros [= <- <-]; eexists;
    split_and!; simpl; rewrite ?Hp; try done; lia.
Qed.

(** A speed-limit task only writes the speed-limit cache. *)
Lemma resume_speed fc pc st st' t' :
  resume st (SpeedTask fc pc) = Some (st', t') ->
  exists pc', t' = SpeedTask fc pc' /\ completeTrainList st' = completeTrainList st /\
    sp_result fc pc' (speeds st') = sp_result fc pc (speeds st) /\
    task_measure t' < task_measure (SpeedTask fc pc).
Proof.
  destruct pc as [|r]; simpl; [|done]. rewrite updateSpeedLimits_sp_result. simpl.
  intros [= <- <-]. exists (SP_done (sp_result fc SP_fetching (speeds st)).2).
  split_and!; [done|done| |simpl; lia]. simpl. by destruct (sp_result fc SP_fetching (speeds st)).
Qed.

Lemma resume_measure st t st' t' :
  resume st t = Some (st', t') -> task_measure t' < task_measure t.
Proof.
  destruct t as [fc pc|fc pc].
  - by intros (? & _ & _ & _ & ?)%resume_timetable.
  - by intros (? & _ & _ & _ & ?)%resume_speed.
Qed.

Lemma resume_None st t : resume st t = None <-> task_done t = true.
Proof.
  destruct t as [fc [|[|s rest]|r]|fc [|r]]; simpl; try done.
  - by destruct processServer.
  - by destruct updateSpeedLimits.
Qed.

(** Replacing an element by one of smaller weight lowers the sum. *)
Lemma sum_list_with_insert_lt {A} (f : A -> nat) (l : list A) i x y :
  l !! i = Some y -> f x < f y -> sum_list_with f (<[i := x]> l) < sum_list_with f l.
Proof.
  revert i. induction l as [|z l IH]; intros [|i]; simpl; try done.
  - intros [= ->]. lia.
  - intros Hi Hlt. specialize (IH i Hi Hlt). lia.
Qed.

Lemma cfg_step_measure c c' : cfg_step c c' -> cfg_measure c' < cfg_measure c.
Proof.
  destruct 1 as [c i t st' t' Hi Hr]. unfold cfg_measure. simpl.
  eapply sum_list_with_insert_lt; [done|]. by eapply resume_measure.
Qed.

(** [cfg_resume] with the resulting configuration given up to
    computation. *)
Lemma cfg_step_at c i t st' t' c' :
  cfg_tasks c !! i = Some t -> resume (cfg_state c) t = Some (st', t') ->
  c' = {| cfg_state := st'; cfg_tasks := <[i := t']> (cfg_tasks c) |} -> cfg_step c c'.
Proof. intros Hi Hr ->. by eapply cfg_resume. Qed.

(** Every step of the caches is a transition of [Refresh.refresh_step],
    or leaves them as they are. *)
Lemma cfg_step_refresh c c' :
  cfg_step c c' -> cfg_state c' = cfg_state c \/ refresh_step (cfg_state c) (cfg_state c').
Proof.
  destruct 1 as [c i [fc pc|fc pc] st' t' _ Hr]; simpl.
  - destruct pc as [|[|s rest]|r]; simpl in Hr; try done;
      [destruct getServerCodeList in Hr| |destruct processServer eqn:Hp in Hr];
      injection Hr as <- <-; auto.
    right. by eapply step_server.
  - destruct pc; simpl in Hr; [|done]. destruct updateSpeedLimits as [st'' r] eqn:Hu.
    injection Hr as <- <-. right. replace st'' with (fst (@updateSpeedLimits fc (cfg_state c)))
      by by rewrite Hu. apply step_speeds.
Qed.

(** ** Start-up: every interleaving gives the sequential result *)

(** The two start-up tasks, each at some [await], where what is left of
    each computes what the whole task computes from the empty caches. *)
Definition startup_inv (fc1 fc2 : FeedClient) (c : Config) : Prop :=
  exists p q, cfg_tasks c = [SpeedTask fc1 p; TimetableTask fc2 q] /\
    sp_result fc1 p (speeds (cfg_state c)) = sp_result fc1 SP_fetching None /\
    tt_result fc2 q (completeTrainList (cfg_state c)) = tt_result fc2 TT_listing ∅.

Lemma startup_inv_step fc1 fc2 c c' :
  startup_inv fc1 fc2 c -> cfg_step c c' -> startup_inv fc1 fc2 c'.
Proof.
  intros (p & q & Ht & Hp & Hq) Hs. destruct Hs as [c i t st' t' Hi Hr]. simpl in *.
  rewrite Ht in Hi |- *. destruct i as [|[|i]]; simpl in Hi; [injection Hi as <-..|done].
  - apply resume_speed in Hr as (p' & -> & Hctl & Hp' & _).
    exists p', q. simpl. rewrite Hctl. split_and!; congruence.
  - apply resume_timetable in Hr as (q' & -> & Hsp & Hq' & _).
    exists p, q'. simpl. rewrite Hsp. split_and!; congruence.
Qed.

(** C7: the start-up tasks of lines 160-161 may resume in any order the
    feeds answer in; every interleaving in which both finish leaves the
    same caches and the same outcomes as running [updateTimetable] to
    completion and then [updateSpeedLimits]. *)
Theorem startup_interleavings_agree fc1 fc2 c :
  rtc cfg_step (startup fc1 fc2) c -> all_done c = true ->
  cfg_state c = fst (@updateSpeedLimits fc1 (fst (@updateTimetable fc2 initialState))) /\
  cfg_tasks c = [SpeedTask fc1 (SP_done (snd (@updateSpeedLimits fc1 initialState)));
                 TimetableTask fc2 (TT_done (snd (@updateTimetable fc2 initialState)))].
Proof.
  intros Hr Hd.
  assert (H0 : startup_inv fc1 fc2 (startup fc1 fc2)) by by exists SP_fetching, TT_listing.
  destruct (rtc_invariant _ _ _ _ (startup_inv_step fc1 fc2) H0 Hr) as (p & q & Ht & Hp & Hq).
  unfold all_done in Hd. rewrite Ht in Hd.
  destruct p as [|r1], q as [| |r2]; try done.
  rewrite !updateSpeedLimits_sp_result, updateTimetable_tt_result.
  cbn [fst snd speeds completeTrainList initialState]. rewrite Ht, <-Hp, <-Hq.
  by destruct (cfg_state c).
Qed.

(** ** Termination and progress *)

(** C18: whatever order the promises settle in, a run of resumptions
    from a configuration has at most [cfg_measure c] steps: two per
    listing plus one per server for a timetable task, one for a
    speed-limit task. *)
Theorem cfg_runs_bounded n c c' : nsteps cfg_step n c c' -> n <= cfg_measure c.
Proof.
  induction 1 as [|n x y z Hxy _ IH]; [lia|]. apply cfg_step_measure in Hxy. lia.
Qed.

(** ** The caches seen between two resumptions *)

(** C5: at start-up a server's merged timetable can be published while
    [speeds] is still [undefined]: when the timetable feed answers
    before the speed-limit feed, a request in between finds the
    timetable but no speed limits. *)
Theorem startup_speeds_undefined fc1 fc2 s rest v :
  @getServerCodeList fc2 = Ok (s :: rest) -> @fetchServer fc2 s = Ok v ->
  exists c, rtc cfg_step (startup fc1 fc2) c /\ speeds (cfg_state c) = None /\
    completeTrainList (cfg_state c) !! s = Some v /\ all_done c = false.
Proof.
  intros Hl Hv.
  exists {| cfg_state := {| completeTrainList := <[s:=v]> ∅; speeds := None |};
            cfg_tasks := [SpeedTask fc1 SP_fetching; TimetableTask fc2 (TT_server rest)] |}.
  split_and!; [|done|simpl; by rewrite lookup_insert_eq|done].
  eapply rtc_l; [|apply rtc_once].
  - eapply (cfg_step_at _ 1); [done| |done]. simpl. by rewrite Hl.
  - eapply (cfg_step_at _ 1); [done| |done]. simpl. by rewrite (@processServer_fetch fc2), Hv.
Qed.

(** the task-level semantics refines the cache machine of
    [Refresh]: along every run of resumptions and cron starts, the
    caches go through transitions of [refresh_step]. *)
Theorem sys_refines_refresh c c' : rtc sys_step c c' -> rtc refresh_step (cfg_state c) (cfg_state c').
Proof.
  induction 1 as [|x y z Hxy _ IH]; [done|].
  destruct Hxy as [x y Hs|x fc|x fc]; [|done|done].
  destruct (cfg_step_refresh _ _ Hs) as [Heq|Hr]; [by rewrite <-Heq | by eapply rtc_l].
Qed.

(** C17: Every state of the caches reachable from the empty caches, by any
    cron starts and any interleaving, holds complete merges only, and
    publishes for good what it has published. *)
Corollary sys_reachable_wf c c' :
  rtc sys_step {| cfg_state := initialState; cfg_tasks := [] |} c -> rtc sys_step c c' ->
  cache_wf (cfg_state c) /\ cache_grows (cfg_state c) (cfg_state c').
Proof.
  intros H0 H1. split.
  - apply (rtc_refresh_wf initialState); [by apply (sys_refines_refresh _ _ H0) | apply initialState_wf].
  - apply refresh_monotone, sys_refines_refresh, H1.
Qed.

(** ** Schedules *)

Lemma step_at_step c i c' : step_at c i = Some c' -> cfg_step c c'.
Proof.
  unfold step_at. destruct (cfg_tasks c !! i) as [t|] eqn:Hi; [|done]. simpl.
  destruct (resume (cfg_state c) t) as [[st' t']|] eqn:Hr; [|done]. simpl.
  intros [= <-]. by eapply cfg_resume.
Qed.

Lemma run_schedule_nsteps order c c' :
  run_schedule order c = Some c' -> nsteps cfg_step (length order) c c'.
Proof.
  revert c. induction order as [|i order IH]; intros c; simpl.
  - intros [= <-]. constructor.
  - destruct (step_at c i) as [c1|] eqn:Hc1; [|done]. simpl. intros Hrun.
    eapply nsteps_l; [apply (step_at_step c i), Hc1 | by apply IH].
Qed.

Lemma run_schedule_rtc order c c' : run_schedule order c = Some c' -> rtc cfg_step c c'.
Proof. intros H. eapply rtc_nsteps_2, run_schedule_nsteps, H. Qed.

Lemma cfg_rtc_sys c c' : rtc cfg_step c c' -> rtc sys_step c c'.
Proof. induction 1; [done|]. eapply rtc_l; [by constructor|done]. Qed.

(** The start-up configuration is reached from no task by the two
    calls of lines 160-161. *)
Lemma startup_reachable fc1 fc2 :
  rtc sys_step {| cfg_state := initialState; cfg_tasks := [] |} (startup fc1 fc2).
Proof.
  eapply rtc_l; [apply (sys_start_speeds _ fc1)|].
  eapply rtc_l; [apply (sys_start_timetable _ fc2)|]. done.
Qed.

(** ** Overlapping runs of [updateTimetable]

    Nothing stops a cron job from starting [updateTimetable] while an
    earlier run is still waiting on a feed (lines 138-146 call it
    without awaiting or checking a running one).  Each run writes
    [completeTrainList[serverCode]] from its own answers, so the run that
    writes last decides the cache, whichever run was started first. *)

(** Resuming a timetable task until it settles: the caches and the
    task end as [tt_result] computes. *)
Lemma run_timetable_to_end fc pc c i :
  cfg_tasks c !! i = Some (TimetableTask fc pc) ->
  rtc cfg_step c
    {| cfg_state := {| completeTrainList := (tt_result fc pc (completeTrainList (cfg_state c))).1;
                       speeds := speeds (cfg_state c) |};
       cfg_tasks := <[i := TimetableTask fc (TT_done (tt_result fc pc (completeTrainList (cfg_state c))).2)]>
                      (cfg_tasks c) |}.
Proof.
  remember (task_measure (TimetableTask fc pc)) as n eqn:Hn. revert pc c Hn.
  induction n as [n IH] using lt_wf_ind. intros pc c -> Hi.
  destruct (resume (cfg_state c) (TimetableTask fc pc)) as [[st' t']|] eqn:Hr.
  - pose proof Hr as (pc' & -> & Hsp & Htt & Hlt)%resume_timetable.
    eapply rtc_l; [by eapply cfg_resume|].
    specialize (IH _ Hlt pc' {| cfg_state := st'; cfg_tasks := <[i := TimetableTask fc pc']> (cfg_tasks c) |}
                eq_refl). cbn [cfg_state cfg_tasks] in IH.
    rewrite list_lookup_insert_eq, list_insert_insert_eq, Hsp, Htt in IH by (eapply lookup_lt_Some; done).
    by apply IH.
  - apply resume_None in Hr. destruct pc as [| |r]; try done.
    rewrite list_insert_id by done. destruct c as [[ctl sp] ts]. done.
Qed.

(** A run whose server list and servers all answer writes each listed
    server's fetched timetable, and settles with [Ok]. *)
Lemma tt_result_all_ok fc ctl l :
  @getServerCodeList fc = Ok l -> Forall (@fetch_ok fc) l ->
  tt_result fc TT_listing ctl = (@assign_fetched fc l ctl, Ok tt).
Proof.
  intros Hl Hok. simpl. rewrite Hl, <-(app_nil_r l), (@updateServers_prefix fc) by done.
  by rewrite app_nil_r.
Qed.

Lemma assign_fetched_listed fc l ctl s v :
  Forall (@fetch_ok fc) l -> s ∈ l -> @fetchServer fc s = Ok v -> @assign_fetched fc l ctl !! s = Some v.
Proof.
  intros Hok Hs Hv. destruct (proj2 (@assign_fetched_lookup fc l ctl s Hok) Hs) as (v' & Hv' & ->).
  congruence.
Qed.

(** Two runs started on the same caches, the first one's feeds answering
    [fcA], the second one's [fcB]. *)
Definition overlapping_runs (st : State) (fcA fcB : FeedClient) : Config :=
  {| cfg_state := st; cfg_tasks := [TimetableTask fcA TT_listing; TimetableTask fcB TT_listing] |}.

(** Running first the listing task at [i] to its end, then the one at
    [j], all their feed calls answering. *)
Lemma run_one_then_other c i j fci fcj li lj :
  cfg_tasks c !! i = Some (TimetableTask fci TT_listing) ->
  cfg_tasks c !! j = Some (TimetableTask fcj TT_listing) -> i <> j ->
  @getServerCodeList fci = Ok li -> @getServerCodeList fcj = Ok lj ->
  Forall (@fetch_ok fci) li -> Forall (@fetch_ok fcj) lj ->
  rtc cfg_step c
    {| cfg_state := {| completeTrainList :=
                         @assign_fetched fcj lj (@assign_fetched fci li (completeTrainList (cfg_state c)));
                       speeds := speeds (cfg_state c) |};
       cfg_tasks := <[j := TimetableTask fcj (TT_done (Ok tt))]>
                      (<[i := TimetableTask fci (TT_done (Ok tt))]> (cfg_tasks c)) |}.
Proof.
  intros Hi Hj Hne Li Lj Oi Oj.
  eapply rtc_trans; [apply (run_timetable_to_end fci TT_listing c i Hi)|].
  rewrite (tt_result_all_ok fci _ li) by done.
  match goal with |- rtc _ ?c1 _ => pose proof (run_timetable_to_end fcj TT_listing c1 j) as Hj' end.
  cbn [cfg_state cfg_tasks completeTrainList speeds] in Hj'.
  rewrite list_lookup_insert_ne, (tt_result_all_ok fcj _ lj) in Hj' by done. by apply Hj'.
Qed.

(** C38: when two runs of [updateTimetable] overlap and every feed call
    answers, the cache of a server both runs list can end with either
    run's answer: both orders of the runs' writes are executions, and
    the one that writes last wins, so a run started earlier can
    overwrite the answer of a run started after it. *)
Theorem overlapping_runs_last_writer st fcA fcB lA lB s vA vB :
  @getServerCodeList fcA = Ok lA -> @getServerCodeList fcB = Ok lB ->
  Forall (@fetch_ok fcA) lA -> Forall (@fetch_ok fcB) lB -> s ∈ lA -> s ∈ lB ->
  @fetchServer fcA s = Ok vA -> @fetchServer fcB s = Ok vB ->
  (exists c, rtc cfg_step (overlapping_runs st fcA fcB) c /\ all_done c = true /\
     completeTrainList (cfg_state c) !! s = Some vA) /\
  (exists c, rtc cfg_step (overlapping_runs st fcA fcB) c /\ all_done c = true /\
     completeTrainList (cfg_state c) !! s = Some vB).
Proof.
  intros LA LB OA OB InA InB VA VB. split; eexists; split_and!.
  - by apply (run_one_then_other _ 1 0 fcB fcA lB lA).
  - done.
  - by apply assign_fetched_listed.
  - by apply (run_one_then_other _ 0 1 fcA fcB lA lB).
  - done.
  - by apply assign_fetched_listed.
Qed.

(** The run started at start-up is answered with train 1234 on "pl1";
    the 08:30 run, started while the first one waits, finds no train. *)
Definition earlierRunClient : FeedClient := {|
  getServerCodeList := Ok ["pl1"];
  getFullTimetable := fun _ => Ok [train1234];
  getEdrTimetable := fun _ => Ok [edr1234];
  getSpeedLimitsFromSimkol := Ok feedB; readBundledSpeeds := Ok feedB
|}.

Definition laterRunClient : FeedClient := {|
  getServerCodeList := Ok ["pl1"];
  getFullTimetable := fun _ => Ok [];
  getEdrTimetable := fun _ => Ok [];
  getSpeedLimitsFromSimkol := Ok feedB; readBundledSpeeds := Ok feedB
|}.

Lemma overlapping_runs_last_writer_witness :
  (exists c, rtc cfg_step (overlapping_runs initialState earlierRunClient laterRunClient) c /\
     all_done c = true /\ completeTrainList (cfg_state c) !! "pl1" = Some [mergeTrain [edr1234] train1234]) /\
  (exists c, rtc cfg_step (overlapping_runs initialState earlierRunClient laterRunClient) c /\
     all_done c = true /\ completeTrainList (cfg_state c) !! "pl1" = Some []).
Proof.
  refine (overlapping_runs_last_writer initialState earlierRunClient laterRunClient ["pl1"] ["pl1"] "pl1"
            [mergeTrain [edr1234] train1234] [] _ _ _ _ _ _ _ _).
  - reflexivity.
  - reflexivity.
  - repeat constructor. eexists. vm_compute. reflexivity.
  - repeat constructor. eexists. vm_compute. reflexivity.
  - left.
  - left.
  - vm_compute. reflexivity.
  - vm_compute. reflexivity.
Defined.

(** ** Scenario: the start-up of [Refresh.scenarioClient] *)

(** The server list arrives, "pl1" is merged, the bundled speed limits
    are read, "de1" fails: the run ends there. *)
Definition scenarioSchedule : list nat := [1; 1; 0; 1].

Definition scenarioStartup : Config :=
  default (startup scenarioClient scenarioClient)
    (run_schedule scenarioSchedule (startup scenarioClient scenarioClient)).

Lemma scenarioStartup_run :
  run_schedule scenarioSchedule (startup scenarioClient scenarioClient) = Some scenarioStartup.
Proof. vm_compute. reflexivity. Qed.

Lemma startup_interleavings_agree_witness :
  cfg_state scenarioStartup =
    fst (@updateSpeedLimits scenarioClient (fst (@updateTimetable scenarioClient initialState))) /\
  cfg_tasks scenarioStartup =
    [SpeedTask scenarioClient (SP_done (snd (@updateSpeedLimits scenarioClient initialState)));
     TimetableTask scenarioClient (TT_done (snd (@updateTimetable scenarioClient initialState)))].
Proof.
  apply startup_interleavings_agree.
  - apply (run_schedule_rtc scenarioSchedule). vm_compute. reflexivity.
  - vm_compute. reflexivity.
Defined.

Lemma cfg_runs_bounded_witness : 4 <= cfg_measure (startup scenarioClient scenarioClient).
Proof.
  apply (cfg_runs_bounded 4 _ scenarioStartup).
  apply (run_schedule_nsteps scenarioSchedule). vm_compute. reflexivity.
Defined.

Lemma startup_speeds_undefined_witness :
  exists c, rtc cfg_step (startup scenarioClient scenarioClient) c /\ speeds (cfg_state c) = None /\
    completeTrainList (cfg_state c) !! "pl1" = Some [mergeTrain [edr1234] train1234] /\
    all_done c = false.
Proof.
  apply (startup_speeds_undefined scenarioClient scenarioClient "pl1" ["de1"; "en1"]);
    vm_compute; reflexivity.
Defined.

Lemma sys_reachable_wf_witness :
  cache_wf (cfg_state (startup scenarioClient scenarioClient)) /\
  cache_grows (cfg_state (startup scenarioClient scenarioClient)) (cfg_state scenarioStartup).
Proof.
  apply sys_reachable_wf.
  - apply startup_reachable.
  - apply cfg_rtc_sys, (run_schedule_rtc scenarioSchedule). vm_compute. reflexivity.
Defined.
