(* ===== verification/Config.v ===== *)
(** * The process configuration and the Steam player type

    [src/backend/src/config.js] exports one object literal of constants:
    the two SimRail API bases, the request headers [srHeaders], the
    server codes, the dispatch posts with the stations each one covers,
    a maximum speed per train type and the table translating the
    columns of the SimRail timetable export to field names.  Its
    readers (the feed clients and the controllers) are not in the
    repository, so no theorem is stated about it: it is the record
    [config], transcribed property by property, its nested object
    literals as lists of properties in source order.

    Strings are the source's UTF-8 bytes ([String.string]).

    [src/backend/src/interfaces/ISteamUser.ts] is a type with no code:
    it is the record [SteamUser.t], an optional property ([?:]) being
    an [option]. *)

From S2P Require Import Prelude.

(** ** config.js *)

(** [module.exports]: the object literal of lines 1-59.  The numbers of
    [vmax_by_type] are integer literals. *)
Record ConfigExports := {
  BASE_SIMRAIL_DISPATCH_API : string;
  BASE_SIMRAIL_API : string;
  srHeaders : list (string * string);
  SERVERS : list string;
  POSTS : list (string * list string);
  vmax_by_type : list (string * Z);
  translate_fields : list (string * string)
}.

Definition config : ConfigExports := {|
  BASE_SIMRAIL_DISPATCH_API := "https://panel.simrail.eu:8091/";
  BASE_SIMRAIL_API := "https://panel.simrail.eu:8084/";
  srHeaders := [
    ("User-Agent", "Custom EDR vDEV");
    ("xx-client", "Custom EDR");
    ("xx-maintainer", "DeadlyKungFu.Ninja");
    ("xx-contact", "DeadlyKungFu.Ninja#8294");
    ("xx-executor", "outbound.gcp.infra.deadlykungfu.ninja");
    ("xx-message", "Beta access only for you, that monitor this network : https://edr.deadlykungfu.ninja/?betaToken=unjN6")];
  SERVERS := ["fr1"; "fr2"; "cn1"];
  POSTS := [
    ("Góra Włodowska", ["Góra Włodowska"]);
    ("Psary", ["Psary"]);
    ("Knapówka", ["Knapówka"]);
    ("Włoszczowa Północ", ["Włoszczowa Północ"]);
    ("Olszamowice", ["Olszamowice"]);
    ("Pilichowice", ["Pilichowice"]);
    ("Katowice_Zawodzie", ["Katowice_Zawodzie"]);
    ("Sosnowiec_Główny", ["Sosnowiec_Główny"; "Sosnowiec_Gł._pzs_R52"]);
    ("Dąbrowa Górnicza", ["Dąbrowa Górnicza"]);
    ("Będzin", ["Będzin"]);
    ("Łazy Łc", ["Łazy Łc"])];
  vmax_by_type := [
    ("EIJ", 200%Z); ("ECE", 125%Z); ("MPE", 125%Z); ("RPJ", 120%Z); ("ROJ", 120%Z);
    ("LTE", 125%Z); ("TME", 80%Z); ("TLE", 80%Z); ("TCE", 85%Z)];
  translate_fields := [
    ("K", "k");
    ("NK", "nk");
    ("Scheduled arrival", "scheduled_arrival");
    ("+/-", "offset");
    ("Real arrival", "real_arrival");
    ("Type", "type");
    ("Train no.", "train_number");
    ("From post", "from");
    ("To post", "to");
    ("Track", "track");
    ("Line no.", "line");
    ("Layover", "layover");
    ("Stop type", "stop_type");
    ("P T", "platform");
    ("Scheduled departure", "scheduled_departure");
    ("Real departure", "real_departure");
    ("Start station", "start_station");
    ("Terminus station", "terminus_station");
    ("Carrier", "carrier")]
|}.

(** ** interfaces/ISteamUser.ts *)

Module SteamUser.
(** [interface ISteamUser], lines 1-22: [number] as a rational, an
    optional property as an [option]. *)
Record t := {
  steamid : string;
  communityvisibilitystate : Q;
  profilestate : Q;
  personaname : string;
  commentpermission : option Q;
  profileurl : string;
  avatar : string;
  avatarmedium : string;
  avatarfull : string;
  avatarhash : option string;
  personastate : option Q;
  primaryclanid : option string;
  timecreated : option Q;
  personastateflags : option Q;
  gameserverip : option string;
  gameserversteamid : option string;
  gameextrainfo : option string;
  gameid : option string;
  loccountrycode : option string;
  locstatecode : option string
}.
End SteamUser.
