(* ===== verification/Cors.v ===== *)
(** * The cors middleware's response headers

    index.ts builds [corsConfig] (lines 163-166) and installs
    [cors(corsConfig)] as the first middleware (line 169).  The cors
    package (version 2, not code of the repository) writes its headers
    before any route runs: [Access-Control-Allow-Origin] on every
    response (its default origin is ["*"]), and on an [OPTIONS] request
    the preflight headers ([configureMethods], [configureAllowedHeaders],
    [configureMaxAge]), after which it answers 204 itself.  [serve]
    pairs those headers with what [Routes.dispatch] does with the
    request; the headers of helmet and compression are not modelled. *)

From S2P Require Import Prelude JsRuntime Refresh Routes.

(** The options of [cors(options)] the code sets. *)
Record CorsOptions := { allowedHeaders : string; maxAge : Z }.

(** [corsConfig], lines 163-166. *)
Definition corsConfig : CorsOptions := {| allowedHeaders := "content-type"; maxAge := 3600 |}.

(** The cors package's default [methods]. *)
Definition cors_default_methods : string := "GET,HEAD,PUT,PATCH,POST,DELETE".

(** The headers [cors(o)] sets, in order, for a non-empty
    [allowedHeaders] string (an empty one would make it reflect the
    request's headers instead): [configureOrigin] for every request;
    for a preflight also the methods, the allowed headers, and
    [maxAge.toString()].  Credentials and exposed headers are not
    configured and set nothing. *)
Definition cors_headers (o : CorsOptions) (m : Method) : list (string * string) :=
  ("Access-Control-Allow-Origin", "*") ::
  if bool_decide (m = OPTIONS) then
    [("Access-Control-Allow-Methods", cors_default_methods);
     ("Access-Control-Allow-Headers", allowedHeaders o);
     ("Access-Control-Max-Age", js_int_to_string (maxAge o))]
  else [].

(** [req.method] as the request line spells it. *)
Definition method_name (m : Method) : string :=
  match m with
  | GET => "GET" | HEAD => "HEAD" | POST => "POST" | PUT => "PUT"
  | DELETE => "DELETE" | PATCH => "PATCH" | OPTIONS => "OPTIONS"
  end.

(** What a request gets: the status the cors middleware answers a
    preflight with ([optionsSuccessStatus], 204), its headers, and what
    the router does. *)
Record Response := {
  res_status : option Z;             (** [None]: left to the controller *)
  res_headers : list (string * string);
  res_result : Invocation
}.

(** Lines 168-177: the middlewares in order, then the routes. *)
Definition serve (st : State) (m : Method) (path : string) : Response :=
  {| res_status := if bool_decide (m = OPTIONS) then Some 204%Z else
                   match dispatch st m path with
                   | BadRequest => Some 400%Z
                   | NotFound => Some 404%Z
                   | _ => None
                   end;
     res_headers := cors_headers corsConfig m;
     res_result := dispatch st m path |}.

(** Every response, whatever its route or error, lets any origin read
    it. *)
Lemma serve_allow_origin st m path :
  ("Access-Control-Allow-Origin", "*") ∈ res_headers (serve st m path).
Proof. apply elem_of_cons. by left. Qed.

(** A browser's preflight for any path is answered 204 by the cors
    middleware, allows the [content-type] request header, is cached
    for an hour, and allows the method of every route of the table, so
    a cross-origin client passes the preflight of every route (the
    [OPTIONS] route of line 177 apart, which no browser preflights). *)
Theorem serve_preflight st path :
  let r := serve st OPTIONS path in
  res_status r = Some 204%Z /\ res_result r = Preflight /\
  ("Access-Control-Allow-Headers", "content-type") ∈ res_headers r /\
  ("Access-Control-Max-Age", "3600") ∈ res_headers r /\
  forall rm rp h, (rm, rp, h) ∈ routes -> rm <> OPTIONS ->
    exists ms, ("Access-Control-Allow-Methods", ms) ∈ res_headers r /\ method_name rm ∈ split_on "," ms.
Proof.
  split_and!; try by vm_compute; repeat constructor.
  intros rm rp h Hin Hm. exists cors_default_methods. split; [vm_compute; repeat constructor|].
  assert (Hall : Forall (fun r => r.1.1 = OPTIONS \/ method_name r.1.1 ∈ split_on "," cors_default_methods)
                   routes) by (apply (bool_decide_unpack _); vm_compute; reflexivity).
  by destruct (proj1 (Forall_forall _ _) Hall _ Hin).
Qed.
