(* ===== verification/Listen.v ===== *)
(** * Where the server listens: [app.listen(process.env.LISTEN_PORT)]

    index.ts line 207 passes the environment variable [LISTEN_PORT],
    a string or [undefined], to Express's [app.listen], which hands its
    arguments to Node's [Server.prototype.listen] (lib/net.js).  There
    [normalizeArgs] takes a string that is not a non-negative number
    ([isPipeName], through net.js's [toNumber]: [Number(x) >= 0]) as the
    path of a local socket, anything else as the port; an [undefined]
    port becomes 0, an arbitrary free port; a port is checked by
    [validatePort] (lib/internal/validators.js), which throws the
    [RangeError] [ERR_SOCKET_BAD_PORT] for a blank string or a value
    that is not an integer in [0, 65535].  The call is at the top level
    of the module, so that exception ends the process at start-up.
    Express and Node are not code of the repository: their steps are
    written out here from their sources. *)

From S2P Require Import Prelude JsRuntime.

(** What the server ends up bound to. *)
Inductive ListenTarget :=
  | ListenPort (port : Z)      (** a TCP port; 0 is a port the system picks *)
  | ListenPipe (path : string).  (** a local (UNIX domain) socket *)

Definition bad_port : exn := RangeError "ERR_SOCKET_BAD_PORT".

(** [Number(x) >= 0]. *)
Definition number_nonneg (n : jsnum) : bool :=
  match n with
  | NumFin q => Qle_bool 0 q
  | NumInf neg => negb neg
  | NumNaN => false
  end.

(** net.js [isPipeName(s)] for a string [s]: [toNumber(s) === false]. *)
Definition isPipeName (s : string) : bool := negb (number_nonneg (StringToNumber s)).

(** [+port === (+port >>> 0)] for a finite [+port]: an integer in
    [0, 2^32); its integer value. *)
Definition uint32_value (q : Q) : option Z :=
  let n := Z.quot (Qnum q) (Zpos (Qden q)) in
  if (Z.rem (Qnum q) (Zpos (Qden q)) =? 0)%Z && (0 <=? n)%Z && (n <? 2 ^ 32)%Z then Some n else None.

(** [validatePort(port)] on a string port, then [port | 0]. *)
Definition validatePort (port : string) : outcome Z :=
  if String.eqb (js_trim port) "" then Throw bad_port
  else match StringToNumber port with
       | NumFin q =>
           match uint32_value q with
           | Some n => if (n <=? 65535)%Z then Ok n else Throw bad_port
           | None => Throw bad_port
           end
       | _ => Throw bad_port
       end.

(** Line 207, [LISTEN_PORT] being [process.env.LISTEN_PORT]. *)
Definition listen (LISTEN_PORT : option string) : outcome ListenTarget :=
  match LISTEN_PORT with
  | None => Ok (ListenPort 0)
  | Some s => if isPipeName s then Ok (ListenPipe s) else ListenPort <$> validatePort s
  end.

(** ** Lemmas *)

Lemma digit_not_char c x : is_digit c = true -> is_digit x = false -> Ascii.eqb c x = false.
Proof. intros Hc Hx. destruct (Ascii.eqb_spec c x) as [->|]; [congruence|done]. Qed.

Lemma trim_start_digits s : all_digits s = true -> trim_start s = s.
Proof.
  destruct s as [|c r]; [done|]. simpl. intros [Hc _]%andb_prop. by rewrite is_digit_not_space.
Qed.

Lemma trim_end_digits s : all_digits s = true -> trim_end s = s.
Proof.
  induction s as [|c r IH]; [done|]. simpl. intros [Hc Hr]%andb_prop.
  by rewrite IH, is_digit_not_space.
Qed.

Lemma js_trim_digits s : all_digits s = true -> js_trim s = s.
Proof. intros Hs. unfold js_trim. by rewrite trim_start_digits, trim_end_digits. Qed.

Lemma string_drop_length s : string_drop (String.length s) s = "".
Proof. by induction s. Qed.

Lemma decimal_acc_nonneg acc s : (0 <= acc)%Z -> all_digits s = true -> (0 <= decimal_acc acc s)%Z.
Proof.
  revert acc. induction s as [|c r IH]; intros acc Hacc; simpl; [done|].
  intros [Hc Hr]%andb_prop. apply IH; [|done].
  unfold is_digit, digit in *. apply andb_prop in Hc as [H1 _]. apply Nat.leb_le in H1. lia.
Qed.

(** [Number] of a non-empty decimal digit string is its decimal
    value. *)
Lemma StringToNumber_digits s :
  all_digits s = true -> s <> "" -> StringToNumber s = NumFin (inject_Z (decimal_acc 0 s)).
Proof.
  intros Hs Hne. unfold StringToNumber. rewrite js_trim_digits by done.
  assert (Hsd : signed_decimal s = NumFin (inject_Z (decimal_acc 0 s))).
  { destruct s as [|c r]; [done|]. pose proof Hs as [Hc _]%andb_prop.
    unfold signed_decimal. rewrite !digit_not_char by done.
    replace (String.eqb (String c r) "Infinity") with false
      by (simpl; by rewrite digit_not_char).
    unfold unsigned_decimal. rewrite digits_prefix_decimal by done.
    rewrite string_drop_length. simpl. done. }
  destruct s as [|c [|x r]]; [done|done|]. simpl in Hs.
  apply andb_prop in Hs as [Hc [Hx _]%andb_prop].
  destruct (Ascii.eqb c "0"); [|done].
  unfold radix_prefix. by rewrite !digit_not_char.
Qed.

Lemma uint32_value_inject n :
  uint32_value (inject_Z n) = if (0 <=? n)%Z && (n <? 2 ^ 32)%Z then Some n else None.
Proof. unfold uint32_value. simpl. by rewrite Z.rem_1_r, Z.quot_1_r. Qed.

Lemma validatePort_Ok s n : validatePort s = Ok n -> (0 <= n <= 65535)%Z.
Proof.
  unfold validatePort. destruct (String.eqb (js_trim s) ""); [done|].
  destruct (StringToNumber s) as [| |q]; try done.
  destruct (uint32_value q) as [m|] eqn:Hu; [|done].
  destruct (Z.leb_spec m 65535); [|done]. intros [= <-].
  unfold uint32_value in Hu. destruct (_ && _ && _)%bool eqn:Hc in Hu; [|done].
  injection Hu as <-. apply andb_prop in Hc as [[_ H1]%andb_prop _]. apply Z.leb_le in H1. lia.
Qed.

(** C29: where line 207 makes the server listen.  With [LISTEN_PORT]
    unset it listens on a port the system picks; a decimal number is
    the port when it is at most 65535 and a [RangeError] otherwise; a
    blank value is a [RangeError]; a value that is not a number names a
    local socket; and a TCP port the call listens on is always in
    [0, 65535]. *)
Theorem listen_outcomes :
  listen None = Ok (ListenPort 0) /\
  (forall s, all_digits s = true -> s <> "" ->
     listen (Some s) = if (decimal_acc 0 s <=? 65535)%Z then Ok (ListenPort (decimal_acc 0 s))
                       else Throw bad_port) /\
  (forall s, js_trim s = "" -> listen (Some s) = Throw bad_port) /\
  (forall s, StringToNumber s = NumNaN -> listen (Some s) = Ok (ListenPipe s)) /\
  (forall s n, listen (Some s) = Ok (ListenPort n) -> (0 <= n <= 65535)%Z).
Proof.
  split_and!; [done| | | |].
  - intros s Hs Hne. pose proof (decimal_acc_nonneg 0 s (Z.le_refl 0) Hs) as H0.
    unfold listen, isPipeName, validatePort. rewrite js_trim_digits, StringToNumber_digits by done.
    rewrite (proj2 (String.eqb_neq s "")) by done. simpl.
    rewrite (proj2 (Qle_bool_iff _ _)) by (unfold Qle; simpl; lia). simpl.
    rewrite uint32_value_inject, (proj2 (Z.leb_le 0 _) H0). simpl.
    destruct (Z.ltb_spec (decimal_acc 0 s) (2 ^ 32)); simpl;
      destruct (Z.leb_spec (decimal_acc 0 s) 65535); simpl; try done; lia.
  - intros s Ht. unfold listen, isPipeName, validatePort, StringToNumber. rewrite Ht. done.
  - intros s Hn. unfold listen, isPipeName. by rewrite Hn.
  - intros s n. unfold listen. destruct (isPipeName s); [done|].
    destruct (validatePort s) as [m|] eqn:Hv; [|done]. intros [= <-]. by eapply validatePort_Ok.
Qed.

(** [LISTEN_PORT=8080] listens on 8080, [70000] and a blank value end
    the process with [ERR_SOCKET_BAD_PORT], and [api.sock] listens on
    the local socket ./api.sock. *)
Lemma listen_outcomes_witness :
  listen (Some "8080") = Ok (ListenPort 8080) /\ listen (Some "70000") = Throw bad_port /\
  listen (Some " ") = Throw bad_port /\ listen (Some "api.sock") = Ok (ListenPipe "api.sock").
Proof.
  split_and!.
  - refine (proj1 (proj2 listen_outcomes) "8080" _ _); [reflexivity | discriminate].
  - refine (proj1 (proj2 listen_outcomes) "70000" _ _); [reflexivity | discriminate].
  - refine (proj1 (proj2 (proj2 listen_outcomes)) " " _). reflexivity.
  - refine (proj1 (proj2 (proj2 (proj2 listen_outcomes))) "api.sock" _). vm_compute. reflexivity.
Defined.
